(** * skinDB-ai ingestion pipeline: repair parser, category detection,
      schema validation, idempotent store and parallel aggregation.

    A shallow embedding of [app/ingestion/json_repair.py], [adaptive_llama.py],
    [models.py], [db.py], [parallel_llama.py], [chunked_llama.py] and of a
    part of [main.py], followed by the properties the specification states
    about them and by further properties of the code.

    Conventions of the embedding.
    - A Python [str] is a [string]; a character stands for the code point of
      the same number (so the model covers code points below 256), and its
      UTF-8 encoding takes one byte below 128 and two bytes otherwise.
    - A Python [int] is a [Z]; a [float] is a [Q] (only comparisons are used).
    - [None] of an [Optional] field is [None] of [option].
    - A [while] loop takes fuel; [None] as the outer result means that the
      loop did not leave within the fuel. *)

From Stdlib Require Import ZArith QArith Bool List Ascii String Lia.
From stdpp Require Import base option list gmap strings.

Import ListNotations.
Local Open Scope string_scope.
Local Open Scope Z_scope.

(** ** Python string primitives *)

Module PyStr.

Definition code (c : ascii) : Z := Z.of_nat (nat_of_ascii c).

Definition len (s : string) : Z := Z.of_nat (String.length s).

(** [len(s.encode('utf-8'))] *)
Fixpoint utf8_len (s : string) : Z :=
  match s with
  | EmptyString => 0
  | String c s' => (if code c <? 128 then 1 else 2) + utf8_len s'
  end.

Fixpoint take (n : nat) (s : string) : string :=
  match n, s with
  | O, _ => EmptyString
  | S _, EmptyString => EmptyString
  | S n', String c s' => String c (take n' s')
  end.

Fixpoint drop (n : nat) (s : string) : string :=
  match n, s with
  | O, _ => s
  | S _, EmptyString => EmptyString
  | S n', String _ s' => drop n' s'
  end.

(** A slice bound as Python normalises it: a negative bound counts from
    the end, and the result is clipped to [0 .. len s]. *)
Definition bound (s : string) (i : Z) : nat :=
  Z.to_nat (Z.min (len s) (if i <? 0 then Z.max 0 (len s + i) else i)).

(** [s[:stop]] *)
Definition slice_to (s : string) (stop : Z) : string := take (bound s stop) s.

(** [s[start:]] *)
Definition slice_from (s : string) (start : Z) : string := drop (bound s start) s.

(** [s[start:stop]] *)
Definition slice (s : string) (start stop : Z) : string :=
  let a := bound s start in
  let b := bound s stop in
  take (b - a) (drop a s).

(** Lowest index at or after [pos] (the offset of [s] in the whole text)
    where [sub] starts, or -1. *)
Fixpoint find_aux (sub s : string) (pos : Z) : Z :=
  if String.prefix sub s then pos
  else match s with
       | EmptyString => -1
       | String _ s' => find_aux sub s' (pos + 1)
       end.

(** [s.find(sub, start)] *)
Definition find (s sub : string) (start : Z) : Z :=
  let st := if start <? 0 then Z.max 0 (len s + start) else start in
  if len s <? st then -1 else find_aux sub (drop (Z.to_nat st) s) st.

(** Highest index where [sub] starts, or -1. *)
Fixpoint rfind_aux (sub s : string) (pos : Z) : Z :=
  match s with
  | EmptyString => if String.prefix sub s then pos else -1
  | String _ s' =>
      let r := rfind_aux sub s' (pos + 1) in
      if 0 <=? r then r else if String.prefix sub s then pos else -1
  end.

(** [s.rfind(sub)] *)
Definition rfind (s sub : string) : Z := rfind_aux sub s 0.

(** [sub in s] *)
Definition contains (s sub : string) : bool := 0 <=? find s sub 0.

Fixpoint filter (keep : ascii -> bool) (s : string) : string :=
  match s with
  | EmptyString => EmptyString
  | String c s' => if keep c then String c (filter keep s') else filter keep s'
  end.

Fixpoint map (f : ascii -> ascii) (s : string) : string :=
  match s with
  | EmptyString => EmptyString
  | String c s' => String (f c) (map f s')
  end.

Fixpoint drop_while (p : ascii -> bool) (s : string) : string :=
  match s with
  | EmptyString => EmptyString
  | String c s' => if p c then drop_while p s' else s
  end.

(** [c.lower()] on code points below 256: the ASCII capitals and the
    Latin-1 capitals (U+00C0 .. U+00DE without the multiplication sign). *)
Definition lower_char (c : ascii) : ascii :=
  let n := code c in
  if ((65 <=? n) && (n <=? 90)) || ((192 <=? n) && (n <=? 222) && negb (n =? 215))
  then ascii_of_nat (Z.to_nat (n + 32)) else c.

(** [s.lower()] *)
Definition lower (s : string) : string := map lower_char s.

(** [c.upper()] on code points below 256.  The three letters whose
    capital lies outside this range or is longer (U+00B5, U+00DF, U+00FF)
    stay as they are; the source only compares upper-cased text with
    ASCII words, which no such letter or its capital can be part of. *)
Definition upper_char (c : ascii) : ascii :=
  let n := code c in
  if ((97 <=? n) && (n <=? 122)) || ((224 <=? n) && (n <=? 254) && negb (n =? 247))
  then ascii_of_nat (Z.to_nat (n - 32)) else c.

(** [s.upper()] *)
Definition upper (s : string) : string := map upper_char s.

(** [s.replace(a, b)] for single characters *)
Definition replace_char (a b : ascii) (s : string) : string :=
  map (fun c => if Ascii.eqb c a then b else c) s.

(** Unicode white space below 256, as [str.isspace] and the regular
    expression class [\s] take it. *)
Definition is_space (c : ascii) : bool :=
  let n := code c in
  ((9 <=? n) && (n <=? 13)) || ((28 <=? n) && (n <=? 32)) || (n =? 133) || (n =? 160).

(** [s.strip()] *)
Definition strip (s : string) : string :=
  String.rev (drop_while is_space (String.rev (drop_while is_space s))).

(** Python truthiness of a string. *)
Definition nonempty (s : string) : bool :=
  match s with EmptyString => false | _ => true end.

End PyStr.

(** ** JSON values, as [json.loads] builds them

    A JSON object is a Python [dict]: an association list in insertion
    order whose keys are distinct.  Python's [None] is [JNull]. *)

#[warnings="-register-all"]
Inductive json : Type :=
| JNull
| JBool (b : bool)
| JInt (z : Z)
| JFloat (q : Q)
| JStr (s : string)
| JArr (items : list json)
| JObj (members : list (string * json)).

Module PyDict.

Section Dict.
Context {V : Type}.

(** [d.get(k)] *)
Fixpoint lookup (k : string) (d : list (string * V)) : option V :=
  match d with
  | [] => None
  | (k', v) :: d' => if String.eqb k k' then Some v else lookup k d'
  end.

(** [d[k] = v]: an existing key keeps its place. *)
Fixpoint set (k : string) (v : V) (d : list (string * V)) : list (string * V) :=
  match d with
  | [] => [(k, v)]
  | (k', v') :: d' =>
      if String.eqb k k' then (k, v) :: d' else (k', v') :: set k v d'
  end.

(** [d.update(other)] for a mapping [other]. *)
Definition update (d other : list (string * V)) : list (string * V) :=
  fold_left (fun acc kv => set (fst kv) (snd kv) acc) other d.

Definition keys (d : list (string * V)) : list string := List.map fst d.
End Dict.

End PyDict.

(** Python truthiness, [bool(v)]. *)
Definition truthy (v : json) : bool :=
  match v with
  | JNull => false
  | JBool b => b
  | JInt z => negb (z =? 0)
  | JFloat q => negb (Qeq_bool q 0)
  | JStr s => PyStr.nonempty s
  | JArr l => match l with [] => false | _ => true end
  | JObj m => match m with [] => false | _ => true end
  end.

(** ** json_repair.py *)

Module json_repair.

Definition quote : string := String (ascii_of_nat 34) EmptyString.
Definition nl : string := String (ascii_of_nat 10) EmptyString.

(** The key [summary] between double quotes. *)
Definition summary_key : string := quote ++ "summary" ++ quote.

(** The key, a colon, a blank and the opening quote of the value: the
    literal whose length the source takes as search offset. *)
Definition summary_open : string := quote ++ "summary" ++ quote ++ ": " ++ quote.

(** The text appended after the cut, line by line as the source adds it. *)
Definition closure : string :=
  (nl ++ "    }") ++
  (nl ++ "  }") ++
  ("," ++ nl ++ "  " ++ quote ++ "specifications" ++ quote ++ ": {},") ++
  (nl ++ "  " ++ quote ++ "summarized_review" ++ quote ++ ": {"
      ++ quote ++ "pros" ++ quote ++ ": [], "
      ++ quote ++ "cons" ++ quote ++ ": [], "
      ++ quote ++ "verdict" ++ quote ++ ": "
      ++ quote ++ "Partial data - processing incomplete" ++ quote ++ "},") ++
  (nl ++ "  " ++ quote ++ "citations" ++ quote ++ ": {}") ++
  (nl ++ "}").

(** [_repair_truncated_json]; no operation in its body raises, so the
    [except] branch is never taken. *)
Definition _repair_truncated_json (json_str : string) : option string :=
  let platforms_end := PyStr.rfind json_str summary_key in
  if platforms_end =? -1 then None
  else
    let summary_end := PyStr.find json_str quote (platforms_end + PyStr.len summary_open) in
    if summary_end =? -1 then None
    else
      let summary_end := PyStr.find json_str quote (summary_end + 1) in
      if summary_end =? -1 then None
      else
        let truncated := PyStr.slice_to json_str (summary_end + 1) in
        Some (truncated ++ closure).

(** [re.sub(r'[\x00-\x1F\x7F]', '', s)] *)
Definition is_control (c : ascii) : bool :=
  let n := PyStr.code c in (n <=? 31) || (n =? 127).

Definition remove_control (s : string) : string :=
  PyStr.filter (fun c => negb (is_control c)) s.

Definition is_closer (c : ascii) : bool :=
  let n := PyStr.code c in (n =? 125) || (n =? 93).

(** Does [s] start with [\s*[}\]]]? *)
Fixpoint starts_closer (s : string) : bool :=
  match s with
  | EmptyString => false
  | String c s' => if PyStr.is_space c then starts_closer s' else is_closer c
  end.

(** [re.sub(r',\s*([}\]])', r'\1', s)]: a comma that is followed by
    white space and a closing brace or bracket goes away together with
    that white space.  White space holds no comma, so it passes the
    substitution unchanged and is dropped from the rewritten rest. *)
Fixpoint remove_trailing_commas (s : string) : string :=
  match s with
  | EmptyString => EmptyString
  | String c s' =>
      if (PyStr.code c =? 44) && starts_closer s'
      then PyStr.drop_while PyStr.is_space (remove_trailing_commas s')
      else String c (remove_trailing_commas s')
  end.

(** The loop [while len(truncated.encode('utf-8')) > max_bytes:
    truncated = truncated[:-1]]. *)
Fixpoint truncate_loop (fuel : nat) (truncated : string) (max_bytes : Z) : option string :=
  match fuel with
  | O => None
  | S fuel' =>
      if max_bytes <? PyStr.utf8_len truncated
      then truncate_loop fuel' (PyStr.slice_to truncated (-1)) max_bytes
      else Some truncated
  end.

(** The fence of a Markdown code block. *)
Definition fence : string := "```".

Definition strip_prefix (p s : string) : option string :=
  if String.prefix p s then Some (PyStr.drop (String.length p) s) else None.

(** The lazy body [.*?] up to the first closing brace that white space
    and a fence follow: the text it matched with that brace, and the
    number of characters read up to the end of the fence. *)
Fixpoint lazy_body (s : string) : option (string * nat) :=
  match s with
  | EmptyString => None
  | String c s' =>
      let after_ws := PyStr.drop_while PyStr.is_space s' in
      if (PyStr.code c =? 125) && String.prefix fence after_ws
      then Some (String c EmptyString,
                 (1 + (String.length s' - String.length after_ws) + 3)%nat)
      else
        match lazy_body s' with
        | Some (b, n) => Some (String c b, S n)
        | None => None
        end
  end.

(** One match of the pattern of [extract_json_from_markdown] (a fence,
    an optional [json] tag, white space, a brace-delimited group, white
    space, a fence) at the start of [s]: the group and the length of the
    match. *)
Definition match_fenced (s : string) : option (string * nat) :=
  match strip_prefix fence s with
  | None => None
  | Some s1 =>
      let s2 := match strip_prefix "json" s1 with Some t => t | None => s1 end in
      match PyStr.drop_while PyStr.is_space s2 with
      | String c s4 =>
          if PyStr.code c =? 123 then
            match lazy_body s4 with
            | Some (b, n) =>
                Some (String c b, (String.length s - String.length s4 + n)%nat)
            | None => None
            end
          else None
      | EmptyString => None
      end
  end.

(** [re.findall(json_pattern, text, re.DOTALL)]: matches from left to
    right without overlap; [skip] characters still belong to the last
    match. *)
Fixpoint findall_from (skip : nat) (s : string) : list string :=
  match s with
  | EmptyString => []
  | String _ s' =>
      match skip with
      | S k => findall_from k s'
      | O =>
          match match_fenced s with
          | Some (g, n) => g :: findall_from (Nat.pred n) s'
          | None => findall_from O s'
          end
      end
  end.

Definition findall_fenced (text : string) : list string := findall_from O text.

Section WithDecoder.

(** [json.loads]: [None] stands for [json.JSONDecodeError]; the other
    exceptions of the decoder are in [json_decoder] below. *)
Variable json_loads : string -> option json.

(** Steps 2 to 5 of [try_repair_to_json], on the text step 1 leaves. *)
Definition repair_steps (raw : string) : json :=
  let first_brace := PyStr.find raw "{" 0 in
  let last_brace := PyStr.rfind raw "}" in
  if first_brace =? -1 then JNull
  else
    let extracted :=
      if (last_brace =? -1) || (first_brace >=? last_brace)
      then
        match _repair_truncated_json (PyStr.slice_from raw first_brace) with
        | Some json_str => if PyStr.nonempty json_str then Some json_str else None
        | None => None
        end
      else Some (PyStr.slice raw first_brace (last_brace + 1)) in
    match extracted with
    | None => JNull
    | Some json_str =>
        let json_str := remove_control json_str in
        let json_str := remove_trailing_commas json_str in
        match json_loads json_str with
        | Some v => v
        | None => JNull
        end
    end.

(** [try_repair_to_json(raw, max_bytes)] *)
Definition try_repair_to_json (fuel : nat) (raw : string) (max_bytes : Z) : option json :=
  if negb (PyStr.nonempty raw) then Some JNull
  else
    if max_bytes <? PyStr.utf8_len raw
    then
      match truncate_loop fuel (PyStr.slice_to raw max_bytes) max_bytes with
      | None => None
      | Some truncated => Some (repair_steps truncated)
      end
    else Some (repair_steps raw).

(** [for match in matches: try: return json.loads(match) ...] *)
Fixpoint first_decodable (matches : list string) : option json :=
  match matches with
  | [] => None
  | m :: rest =>
      match json_loads m with
      | Some v => Some v
      | None => first_decodable rest
      end
  end.

(** [extract_json_from_markdown(text)]; the fall-back call takes the
    default [max_bytes=300000]. *)
Definition extract_json_from_markdown (fuel : nat) (text : string) : option json :=
  if negb (PyStr.nonempty text) then Some JNull
  else
    match first_decodable (findall_fenced text) with
    | Some v => Some v
    | None => try_repair_to_json fuel text 300000
    end.

(** [safe_json_parse(raw, max_bytes)] *)
Definition safe_json_parse (fuel : nat) (raw : string) (max_bytes : Z) : option json :=
  if negb (PyStr.nonempty raw) then Some JNull
  else
    match json_loads raw with
    | Some v => Some v
    | None =>
        match extract_json_from_markdown fuel raw with
        | None => None
        | Some result =>
            if truthy result then Some result
            else
              match try_repair_to_json fuel raw max_bytes with
              | None => None
              | Some result => if truthy result then Some result else Some JNull
              end
        end
    end.

End WithDecoder.

End json_repair.

(** ** json_repair.py: what [json.loads] raises

    The three functions that decode once more, for a decoder that may
    raise more than [json.JSONDecodeError].  In [json_repair] above the
    decoder either decodes or raises [json.JSONDecodeError]; it may also
    raise a [ValueError] that is no [json.JSONDecodeError] (an integer
    literal beyond the digit limit of the interpreter) and an exception
    that is no [ValueError] ([RecursionError] on deep nesting).
    [try_repair_to_json] catches [ValueError], the loop of
    [extract_json_from_markdown] and the first strategy of
    [safe_json_parse] catch [json.JSONDecodeError] only; what they do
    not catch leaves the function. *)

Module json_decoder.
Import json_repair.

Inductive load_error := JSONDecodeError | PlainValueError | RecursionError.

(** [json.loads(text)] *)
Inductive loaded :=
| Loaded (v : json)
| Fails (e : load_error).

(** What a call gives: the value it returns or the exception that
    leaves it. *)
Inductive parsed :=
| Value (v : json)
| Escapes (e : load_error).

(** [isinstance(e, ValueError)] and [isinstance(e, json.JSONDecodeError)] *)
Definition is_ValueError (e : load_error) : bool :=
  match e with
  | JSONDecodeError | PlainValueError => true
  | RecursionError => false
  end.

Definition is_JSONDecodeError (e : load_error) : bool :=
  match e with
  | JSONDecodeError => true
  | PlainValueError | RecursionError => false
  end.

Section WithDecoder.

Variable json_loads : string -> loaded.

(** Steps 2 to 5 of [try_repair_to_json], on the text step 1 leaves,
    with the clause [except (json.JSONDecodeError, UnicodeDecodeError,
    ValueError)]. *)
Definition repair_steps (raw : string) : parsed :=
  let first_brace := PyStr.find raw "{" 0 in
  let last_brace := PyStr.rfind raw "}" in
  if first_brace =? -1 then Value JNull
  else
    let extracted :=
      if (last_brace =? -1) || (first_brace >=? last_brace)
      then
        match _repair_truncated_json (PyStr.slice_from raw first_brace) with
        | Some json_str => if PyStr.nonempty json_str then Some json_str else None
        | None => None
        end
      else Some (PyStr.slice raw first_brace (last_brace + 1)) in
    match extracted with
    | None => Value JNull
    | Some json_str =>
        let json_str := remove_control json_str in
        let json_str := remove_trailing_commas json_str in
        match json_loads json_str with
        | Loaded v => Value v
        | Fails e => if is_ValueError e then Value JNull else Escapes e
        end
    end.

(** [try_repair_to_json(raw, max_bytes)] *)
Definition try_repair_to_json (fuel : nat) (raw : string) (max_bytes : Z) : option parsed :=
  if negb (PyStr.nonempty raw) then Some (Value JNull)
  else
    if max_bytes <? PyStr.utf8_len raw
    then
      match truncate_loop fuel (PyStr.slice_to raw max_bytes) max_bytes with
      | None => None
      | Some truncated => Some (repair_steps truncated)
      end
    else Some (repair_steps raw).

(** [for match in matches: try: return json.loads(match) except
    json.JSONDecodeError: continue] *)
Fixpoint first_decodable (matches : list string) : option parsed :=
  match matches with
  | [] => None
  | m :: rest =>
      match json_loads m with
      | Loaded v => Some (Value v)
      | Fails e => if is_JSONDecodeError e then first_decodable rest else Some (Escapes e)
      end
  end.

(** [extract_json_from_markdown(text)] *)
Definition extract_json_from_markdown (fuel : nat) (text : string) : option parsed :=
  if negb (PyStr.nonempty text) then Some (Value JNull)
  else
    match first_decodable (findall_fenced text) with
    | Some r => Some r
    | None => try_repair_to_json fuel text 300000
    end.

(** [safe_json_parse(raw, max_bytes)] *)
Definition safe_json_parse (fuel : nat) (raw : string) (max_bytes : Z) : option parsed :=
  if negb (PyStr.nonempty raw) then Some (Value JNull)
  else
    match json_loads raw with
    | Loaded v => Some (Value v)
    | Fails e =>
        if is_JSONDecodeError e then
          match extract_json_from_markdown fuel raw with
          | None => None
          | Some (Escapes e') => Some (Escapes e')
          | Some (Value result) =>
              if truthy result then Some (Value result)
              else
                match try_repair_to_json fuel raw max_bytes with
                | None => None
                | Some (Escapes e') => Some (Escapes e')
                | Some (Value result) =>
                    if truthy result then Some (Value result) else Some (Value JNull)
                end
          end
        else Some (Escapes e)
    end.

End WithDecoder.

(** The decoder of [json_repair] behind a decoder that raises nothing
    but [json.JSONDecodeError]. *)
Definition decode_or_none (json_loads : string -> loaded) (s : string) : option json :=
  match json_loads s with
  | Loaded v => Some v
  | Fails _ => None
  end.

End json_decoder.

(** ** adaptive_llama.py *)

Module adaptive_llama.

Definition category_indicators : list (string * list string) :=
  [ ("Fragrance", ["perfume"; "eau de parfum"; "eau de toilette"; "cologne"; "fragrance"; "scent"]);
    ("Makeup", ["foundation"; "lipstick"; "mascara"; "eyeshadow"; "blush"; "concealer";
                "powder"; "makeup"; "cosmetic"]);
    ("Skincare", ["serum"; "moisturizer"; "cleanser"; "cream"; "lotion"; "essence";
                  "toner"; "treatment"; "skincare"]);
    ("Tools", ["brush"; "sponge"; "curler"; "applicator"; "tool"; "device"; "blender"]) ].

(** [sum(1 for keyword in keywords if keyword in product_text)] *)
Definition score (product_text : string) (keywords : list string) : Z :=
  Z.of_nat (List.length (List.filter (fun keyword => PyStr.contains product_text keyword) keywords)).

Definition scores_of (product_text : string) : list (string * Z) :=
  List.map (fun ck => (fst ck, score product_text (snd ck))) category_indicators.

(** [max(scores.values())] *)
Definition max_value (scores : list (string * Z)) : Z :=
  match scores with
  | [] => 0
  | kv :: rest => fold_left (fun m kv' => Z.max m (snd kv')) rest (snd kv)
  end.

(** [max(scores, key=scores.get)]: the running best is replaced only by a
    strictly larger score, so the first of several maximal keys wins. *)
Fixpoint max_by_value (best : string * Z) (rest : list (string * Z)) : string :=
  match rest with
  | [] => fst best
  | kv :: rest' =>
      if snd best <? snd kv then max_by_value kv rest' else max_by_value best rest'
  end.

Definition argmax (scores : list (string * Z)) : string :=
  match scores with
  | [] => ""
  | kv :: rest => max_by_value kv rest
  end.

(** [detect_product_category(product_name, brand, description)] *)
Definition detect_product_category (product_name brand description : string) : string :=
  let product_text := PyStr.lower (product_name ++ " " ++ brand ++ " " ++ description) in
  let scores := scores_of product_text in
  if 0 <? max_value scores then argmax scores else "Makeup".

End adaptive_llama.

(** ** models.py

    The records are the validated objects; the field constraints that
    pydantic enforces on construction are boolean checks on them. *)

Module models.

Record Price := {
  amount : option Q;
  currency : option string;
  unit_price : option string;
  availability : option string;
  promo : option string }.

Record Rating := {
  average : option Q;
  count : option Z;
  breakdown : option (list (string * Q)) }.

Record ReviewSnippet := {
  author : option string;
  rating : option Q;
  title : option string;
  body : option string;
  date : option string;
  review_url : option string }.

Record PlatformData := {
  url : option string;
  price : option Price;
  platform_rating : option Rating;
  reviews : option (list ReviewSnippet);
  summary : option string }.

Record EditorialQuote := {
  outlet : string;
  quote : string;
  quote_url : string }.

Record EditorialBlock := { quotes : list EditorialQuote }.

Record Specifications := {
  size : option string;
  form : option string;
  finish_texture : option string;
  spf_pa : option string;
  skin_types : option (list string);
  usage : option string;
  ingredients_inci : option (list string);
  certifications : option (list string);
  awards : option (list string) }.

Record AspectScores := {
  longevity : option Q;
  texture : option Q;
  irritation : option Q;
  value : option Q }.

Record PlatformInsights := {
  retail_consensus : option string;
  influencer_consensus : option string;
  expert_consensus : option string }.

Record SummarizedReview := {
  master_summary : option string;
  platform_insights : option PlatformInsights;
  pros : list string;
  cons : list string;
  aspect_scores : option AspectScores;
  verdict : string }.

Record YoutubeReview := {
  yt_creator : string;
  yt_channel : string;
  yt_title : string;
  yt_summary : string;
  yt_rating : string;
  yt_views : option string;
  yt_date : option string;
  yt_url : string }.

Record YoutubeBlock := {
  yt_reviews : list YoutubeReview;
  yt_block_summary : option string }.

Record InstagramReview := {
  ig_creator : string;
  ig_handle : string;
  ig_post_type : string;
  ig_summary : string;
  ig_likes : option string;
  ig_date : option string;
  ig_url : string }.

Record InstagramBlock := {
  ig_reviews : list InstagramReview;
  ig_block_summary : option string }.

Record ProductIdentity := {
  name : string;
  brand : option string;
  category : option string;
  images : list string }.

(** [Union[PlatformData, EditorialBlock, YoutubeBlock, InstagramBlock,
    Dict[str, Any]]] *)
Inductive platform_value :=
| IsPlatformData (d : PlatformData)
| IsEditorialBlock (b : EditorialBlock)
| IsYoutubeBlock (b : YoutubeBlock)
| IsInstagramBlock (b : InstagramBlock)
| IsDict (d : list (string * json)).

Record RootSnapshot := {
  product_identity : ProductIdentity;
  platforms : list (string * platform_value);
  specifications : Specifications;
  summarized_review : SummarizedReview;
  citations : list (string * string) }.

(** *** Field constraints *)

(** [ge=lo, le=hi] on an optional float *)
Definition in_range (lo hi : Q) (x : option Q) : bool :=
  match x with
  | None => true
  | Some q => Qle_bool lo q && Qle_bool q hi
  end.

(** [max_length=n] on an optional string *)
Definition max_length (n : nat) (s : option string) : bool :=
  match s with
  | None => true
  | Some t => (String.length t <=? n)%nat
  end.

(** [len(s.split())] *)
Fixpoint count_words (in_word : bool) (s : string) : nat :=
  match s with
  | EmptyString => O
  | String c s' =>
      if PyStr.is_space c then count_words false s'
      else if in_word then count_words true s'
      else S (count_words true s')
  end.

Definition validate_Rating (r : Rating) : bool :=
  in_range 0 5 (average r) &&
  match count r with None => true | Some n => 0 <=? n end.

Definition validate_ReviewSnippet (r : ReviewSnippet) : bool :=
  in_range 0 5 (rating r) && max_length 300 (body r).

Definition validate_PlatformData (d : PlatformData) : bool :=
  match platform_rating d with None => true | Some r => validate_Rating r end &&
  match reviews d with
  | None => true
  | Some l => (List.length l <=? 5)%nat && forallb validate_ReviewSnippet l
  end &&
  max_length 150 (summary d).

Definition validate_EditorialQuote (q : EditorialQuote) : bool :=
  (String.length (quote q) <=? 25)%nat && (count_words false (quote q) <=? 25)%nat.

Definition validate_EditorialBlock (b : EditorialBlock) : bool :=
  (List.length (quotes b) <=? 3)%nat && forallb validate_EditorialQuote (quotes b).

Definition validate_AspectScores (a : AspectScores) : bool :=
  in_range 0 1 (longevity a) && in_range 0 1 (texture a) &&
  in_range 0 1 (irritation a) && in_range 0 1 (value a).

Definition validate_PlatformInsights (p : PlatformInsights) : bool :=
  max_length 150 (retail_consensus p) && max_length 150 (influencer_consensus p) &&
  max_length 150 (expert_consensus p).

(** The constraints of [SummarizedReview] on the fields other than
    [pros] and [cons]. *)
Definition validate_review_rest (r : SummarizedReview) : bool :=
  max_length 300 (master_summary r) &&
  match platform_insights r with None => true | Some p => validate_PlatformInsights p end &&
  match aspect_scores r with None => true | Some a => validate_AspectScores a end &&
  (1 <=? String.length (verdict r))%nat.

(** [min_items=3, max_items=3] and the validator [validate_pros_count] *)
Definition validate_pros_count (v : list string) : bool :=
  (3 <=? List.length v)%nat && (List.length v <=? 3)%nat && (List.length v =? 3)%nat.

(** [min_items=3, max_items=3] and the validator [validate_cons_count] *)
Definition validate_cons_count (v : list string) : bool :=
  (3 <=? List.length v)%nat && (List.length v <=? 3)%nat && (List.length v =? 3)%nat.

Definition validate_SummarizedReview (r : SummarizedReview) : bool :=
  validate_review_rest r && validate_pros_count (pros r) && validate_cons_count (cons r).

Definition validate_YoutubeReview (r : YoutubeReview) : bool :=
  (1 <=? String.length (yt_creator r))%nat && (1 <=? String.length (yt_channel r))%nat &&
  (1 <=? String.length (yt_title r))%nat && (String.length (yt_summary r) <=? 200)%nat.

Definition validate_YoutubeBlock (b : YoutubeBlock) : bool :=
  forallb validate_YoutubeReview (yt_reviews b) && max_length 150 (yt_block_summary b).

Definition validate_InstagramReview (r : InstagramReview) : bool :=
  (1 <=? String.length (ig_creator r))%nat && (1 <=? String.length (ig_handle r))%nat &&
  (String.length (ig_summary r) <=? 200)%nat.

Definition validate_InstagramBlock (b : InstagramBlock) : bool :=
  forallb validate_InstagramReview (ig_reviews b) && max_length 150 (ig_block_summary b).

Definition validate_platform_value (v : platform_value) : bool :=
  match v with
  | IsPlatformData d => validate_PlatformData d
  | IsEditorialBlock b => validate_EditorialBlock b
  | IsYoutubeBlock b => validate_YoutubeBlock b
  | IsInstagramBlock b => validate_InstagramBlock b
  | IsDict _ => true
  end.

Definition valid_platforms : list string :=
  ["amazon"; "sephora"; "ulta"; "walmart"; "nordstrom"; "brand_site"; "editorial";
   "youtube"; "instagram"].

Definition mem (k : string) (l : list string) : bool := existsb (String.eqb k) l.

(** The body of the loop of [RootSnapshot.validate_platforms] for one
    entry: [None] is the [ValueError]; a dictionary without [url] gets the
    placeholder. *)
Definition validate_platform_entry (platform_name : string) (platform_data : platform_value)
  : option platform_value :=
  if negb (mem platform_name valid_platforms) then None
  else if mem platform_name ["editorial"; "youtube"; "instagram"] then Some platform_data
  else
    match platform_data with
    | IsPlatformData _ => Some platform_data
    | IsDict d =>
        match PyDict.lookup "url" d with
        | Some _ => Some platform_data
        | None =>
            Some (IsDict (PyDict.set "url"
                    (JStr ("https://" ++ platform_name ++ ".com/placeholder")) d))
        end
    | _ => None
    end.

Fixpoint validate_platforms (ps : list (string * platform_value))
  : option (list (string * platform_value)) :=
  match ps with
  | [] => Some []
  | (k, v) :: rest =>
      match validate_platform_entry k v with
      | None => None
      | Some v' =>
          match validate_platforms rest with
          | None => None
          | Some rest' => Some ((k, v') :: rest')
          end
      end
  end.

(** A validated snapshot: the keys of the [platforms] dictionary are
    distinct, every field constraint holds and [validate_platforms]
    raised no error. *)
Definition valid_RootSnapshot (s : RootSnapshot) : bool :=
  bool_decide (NoDup (List.map fst (platforms s))) &&
  forallb (fun kv => validate_platform_value (snd kv)) (platforms s) &&
  validate_SummarizedReview (summarized_review s) &&
  match validate_platforms (platforms s) with
  | Some _ => true
  | None => false
  end.

End models.

(** ** Outcomes of calls that may raise *)

Inductive exn := TransportFailure | ValueError | TypeError | AttributeError | DatabaseError.

Inductive outcome (A : Type) :=
| Returned (a : A)
| Raised (e : exn).
Arguments Returned {A} a.
Arguments Raised {A} e.

(** ** db.py *)

Module db.
Import models.

(** *** Helper functions *)

Definition usd_variants : list string := ["USD"; "US$"; "$"; "DOLLAR"; "DOLLARS"].
Definition other_currencies : list string := ["EUR"; "GBP"; "CAD"; "AUD"; "JPY"; "CNY"].

(** [ensure_currency_usd(currency)] *)
Definition ensure_currency_usd (currency : option string) : option string :=
  match currency with
  | None => None
  | Some c =>
      if negb (PyStr.nonempty c) then None
      else
        let currency_upper := PyStr.upper c in
        if mem currency_upper usd_variants then Some "USD"
        else if mem currency_upper other_currencies then Some currency_upper
        else Some "USD"
  end.

(** [min(a, b)] and [max(a, b)] of Python: the first argument unless the
    second is strictly smaller (greater). *)
Definition py_min (a b : Q) : Q := if Qlt_le_dec b a then b else a.
Definition py_max (a b : Q) : Q := if Qlt_le_dec a b then b else a.

(** [clamp_float(x, lo, hi)] *)
Definition clamp_float (x : option Q) (lo hi : Q) : option Q :=
  match x with
  | None => None
  | Some q => Some (py_max lo (py_min hi q))
  end.

(** The class [[\x00-\x08\x0B\x0C\x0E-\x1F\x7F]] *)
Definition is_stripped_control (c : ascii) : bool :=
  let n := PyStr.code c in
  (n <=? 8) || (n =? 11) || (n =? 12) || ((14 <=? n) && (n <=? 31)) || (n =? 127).

(** [clean_text(s)] *)
Definition clean_text (s : option string) : option string :=
  match s with
  | None => None
  | Some t =>
      if negb (PyStr.nonempty t) then Some t
      else Some (PyStr.strip (PyStr.filter (fun c => negb (is_stripped_control c)) t))
  end.

(** [word_count(s)] *)
Definition word_count (s : option string) : Z :=
  match s with
  | None => 0
  | Some t => Z.of_nat (count_words false t)
  end.

(** *** Tables

    Each table with an [ON CONFLICT] target is a finite map from that
    key; [reviews] has none and is the list of its rows in insertion
    order.  A column written with [json.dumps] holds the value that is
    serialised. *)

Record offer_row := {
  o_price_amount : option Q;
  o_price_currency : option string;
  o_unit_price : option string;
  o_availability : option string;
  o_promo : option string;
  o_url : option string;
  o_scraped_at : Z }.

Record price_history_row := {
  h_price_amount : option Q;
  h_price_currency : option string;
  h_url : option string }.

Record rating_row := {
  r_average : option Q;
  r_count : option Z;
  r_breakdown : option (list (string * Q));
  r_url : option string;
  r_scraped_at : Z }.

Record review_row := {
  v_product_id : string;
  v_retailer : string;
  v_author : option string;
  v_rating : option Q;
  v_title : option string;
  v_body : option string;
  v_posted_at : option string;
  v_url : option string }.

Inductive spec_value :=
| TextValue (s : option string)
| ListValue (l : list string)
| QuoteValue (outlet : string) (quote : option string) (url : string).

Record spec_row := {
  s_value : spec_value;
  s_url : option string;
  s_scraped_at : Z }.

Record summary_row := {
  m_pros : option (list string);
  m_cons : option (list string);
  m_verdict : option string;
  m_aspect_scores : option AspectScores;
  m_citations : json;
  m_model_name : string;
  m_prompt_hash : string;
  m_updated_at : Z }.

Record database := {
  offers : gmap (string * string) offer_row;
  price_history : gmap (string * string * Z) price_history_row;
  ratings : gmap (string * string) rating_row;
  reviews_table : list review_row;
  specs : gmap (string * string * string) spec_row;
  summaries : gmap string summary_row }.

(** The rows of [reviews] of one product and retailer. *)
Definition review_matches (product_id retailer : string) (r : review_row) : bool :=
  String.eqb (v_product_id r) product_id && String.eqb (v_retailer r) retailer.

Definition reviews_of (product_id retailer : string) (d : database) : list review_row :=
  List.filter (review_matches product_id retailer) (reviews_table d).

(** *** The connection

    What the server does is the environment of a call: whether the
    connection opens, which statements of the transaction raise, whether
    the commit raises, and the time [NOW()] of the transaction with its
    UTC day.  [rollback] and [close] do not raise here; [db_connection]
    below has the connection on which they may. *)

Record db_env := {
  connect_fails : bool;
  stmt_fails : nat -> bool;
  commit_fails : bool;
  now : Z;
  today : Z }.

(** A cursor inside the open transaction: the uncommitted tables and the
    number of statements executed so far. *)
Record cursor := {
  pending : database;
  executed : nat }.

(** Code that runs statements on a cursor and may raise. *)
Definition tx (A : Type) : Type := cursor -> option (A * cursor).

Definition ret {A} (a : A) : tx A := fun c => Some (a, c).

Definition bind {A B} (k : A -> tx B) (m : tx A) : tx B :=
  fun c => match m c with
           | Some (a, c') => k a c'
           | None => None
           end.

#[export] Instance tx_ret : MRet tx := @ret.
#[export] Instance tx_bind : MBind tx := @bind.

Definition when (b : bool) (m : tx unit) : tx unit := if b then m else ret tt.

Section Statements.
Variable env : db_env.

(** [cursor.execute(...)]: one statement, which either raises or
    changes the uncommitted tables. *)
Definition execute (f : database -> database) : tx unit :=
  fun c =>
    if stmt_fails env (executed c) then None
    else Some (tt, {| pending := f (pending c); executed := S (executed c) |}).

(** [INSERT INTO offers ... ON CONFLICT (product_id, retailer) DO UPDATE] *)
Definition upsert_offer (product_id retailer : string) (row : offer_row) (d : database) :=
  {| offers := <[(product_id, retailer) := row]> (offers d);
     price_history := price_history d; ratings := ratings d;
     reviews_table := reviews_table d; specs := specs d; summaries := summaries d |}.

(** [INSERT INTO price_history ... ON CONFLICT (product_id, retailer,
    day) DO NOTHING] *)
Definition insert_price_history (product_id retailer : string) (row : price_history_row)
           (d : database) :=
  {| offers := offers d;
     price_history :=
       match price_history d !! (product_id, retailer, today env) with
       | Some _ => price_history d
       | None => <[(product_id, retailer, today env) := row]> (price_history d)
       end;
     ratings := ratings d; reviews_table := reviews_table d;
     specs := specs d; summaries := summaries d |}.

(** [INSERT INTO ratings ... ON CONFLICT (product_id, retailer) DO UPDATE] *)
Definition upsert_rating (product_id retailer : string) (row : rating_row) (d : database) :=
  {| offers := offers d; price_history := price_history d;
     ratings := <[(product_id, retailer) := row]> (ratings d);
     reviews_table := reviews_table d; specs := specs d; summaries := summaries d |}.

(** [DELETE FROM reviews WHERE product_id = %s AND retailer = %s] *)
Definition delete_reviews (product_id retailer : string) (d : database) :=
  {| offers := offers d; price_history := price_history d; ratings := ratings d;
     reviews_table :=
       List.filter (fun r => negb (review_matches product_id retailer r)) (reviews_table d);
     specs := specs d; summaries := summaries d |}.

(** [INSERT INTO reviews ... VALUES %s] through [execute_values] *)
Definition insert_reviews (rows : list review_row) (d : database) :=
  {| offers := offers d; price_history := price_history d; ratings := ratings d;
     reviews_table := reviews_table d ++ rows;
     specs := specs d; summaries := summaries d |}.

(** [INSERT INTO specs ... ON CONFLICT (product_id, key, source) DO
    UPDATE SET value, url, scraped_at] *)
Definition upsert_spec_with_url (product_id key source : string) (row : spec_row)
           (d : database) :=
  {| offers := offers d; price_history := price_history d; ratings := ratings d;
     reviews_table := reviews_table d;
     specs := <[(product_id, key, source) := row]> (specs d);
     summaries := summaries d |}.

(** [INSERT INTO specs ... ON CONFLICT (product_id, key, source) DO
    UPDATE SET value, scraped_at]: the [url] of an existing row stays. *)
Definition upsert_spec (product_id key source : string) (v : spec_value) (d : database) :=
  {| offers := offers d; price_history := price_history d; ratings := ratings d;
     reviews_table := reviews_table d;
     specs :=
       let old_url := match specs d !! (product_id, key, source) with
                      | Some old => s_url old
                      | None => None
                      end in
       <[(product_id, key, source) :=
           {| s_value := v; s_url := old_url; s_scraped_at := now env |}]> (specs d);
     summaries := summaries d |}.

(** [INSERT INTO summaries ... ON CONFLICT (product_id) DO UPDATE] *)
Definition upsert_summary (product_id : string) (row : summary_row) (d : database) :=
  {| offers := offers d; price_history := price_history d; ratings := ratings d;
     reviews_table := reviews_table d; specs := specs d;
     summaries := <[product_id := row]> (summaries d) |}.

(** The tuple appended to [reviews_data] for one review. *)
Definition review_tuple (product_id platform : string) (review : ReviewSnippet) : review_row :=
  {| v_product_id := product_id;
     v_retailer := platform;
     v_author := clean_text (author review);
     v_rating :=
       match rating review with
       | Some q => if Qeq_bool q 0 then None else clamp_float (rating review) 0 5
       | None => None
       end;
     v_title := clean_text (title review);
     v_body := clean_text (body review);
     v_posted_at := date review;
     v_url := review_url review |}.

(** [store_platform_data(cursor, product_id, platform, platform_data)] *)
Definition store_platform_data (product_id platform : string) (platform_data : PlatformData)
  : tx unit :=
  match price platform_data with
  | Some price =>
      execute (upsert_offer product_id platform
                 {| o_price_amount := amount price;
                    o_price_currency := ensure_currency_usd (currency price);
                    o_unit_price := unit_price price;
                    o_availability := clean_text (availability price);
                    o_promo := clean_text (promo price);
                    o_url := url platform_data;
                    o_scraped_at := now env |}) ;;
      match amount price with
      | Some _ =>
          execute (insert_price_history product_id platform
                     {| h_price_amount := amount price;
                        h_price_currency := ensure_currency_usd (currency price);
                        h_url := url platform_data |})
      | None => ret tt
      end
  | None => ret tt
  end ;;
  match platform_rating platform_data with
  | Some rating =>
      let breakdown_json :=
        match breakdown rating with
        | Some (kv :: l) => Some (kv :: l)
        | _ => None
        end in
      execute (upsert_rating product_id platform
                 {| r_average := clamp_float (average rating) 0 5;
                    r_count := count rating;
                    r_breakdown := breakdown_json;
                    r_url := url platform_data;
                    r_scraped_at := now env |})
  | None => ret tt
  end ;;
  match reviews platform_data with
  | Some (r :: l) =>
      execute (delete_reviews product_id platform) ;;
      let reviews_data :=
        List.map (review_tuple product_id platform) (List.firstn 5 (r :: l)) in
      match reviews_data with
      | [] => ret tt
      | _ => execute (insert_reviews reviews_data)
      end
  | _ => ret tt
  end.

(** [store_editorial_data(cursor, product_id, editorial_block)] *)
Fixpoint store_editorial_quotes (product_id : string) (qs : list EditorialQuote) : tx unit :=
  match qs with
  | [] => ret tt
  | q :: rest =>
      let spec_key :=
        "editorial_quote_" ++ PyStr.replace_char " " "_" (PyStr.lower (outlet q)) in
      let spec_value := QuoteValue (outlet q) (clean_text (Some (quote q))) (quote_url q) in
      execute (upsert_spec_with_url product_id spec_key "editorial"
                 {| s_value := spec_value; s_url := Some (quote_url q);
                    s_scraped_at := now env |}) ;;
      store_editorial_quotes product_id rest
  end.

Definition store_editorial_data (product_id : string) (editorial_block : EditorialBlock)
  : tx unit :=
  store_editorial_quotes product_id (quotes editorial_block).

(** [spec_mappings], with the value each present entry is stored as:
    the cleaned text, or [json.dumps] of a list.  The dump is ASCII: it
    escapes every character outside the range from the blank to the
    tilde, the control characters and the character 127 among them, and
    it begins and ends with a bracket, so [clean_text] takes nothing
    from it and the stored value is the dump of the list itself. *)
Definition text_spec (v : option string) : option spec_value :=
  match v with
  | Some t => Some (TextValue (clean_text (Some t)))
  | None => None
  end.

Definition list_spec (v : option (list string)) : option spec_value :=
  match v with
  | Some l => Some (ListValue l)
  | None => None
  end.

Definition spec_mappings (specs : Specifications) : list (string * option spec_value) :=
  [ ("size", text_spec (size specs));
    ("form", text_spec (form specs));
    ("finish_texture", text_spec (finish_texture specs));
    ("spf_pa", text_spec (spf_pa specs));
    ("skin_types", list_spec (skin_types specs));
    ("usage", text_spec (usage specs));
    ("ingredients_inci", list_spec (ingredients_inci specs));
    ("certifications", list_spec (certifications specs));
    ("awards", list_spec (awards specs)) ].

(** The loop of [store_specifications]; [Specifications] has none of
    the [<source>_source] attributes, so the source is [aggregated]. *)
Fixpoint store_spec_entries (product_id : string) (l : list (string * option spec_value))
  : tx unit :=
  match l with
  | [] => ret tt
  | (spec_key, Some v) :: rest =>
      execute (upsert_spec product_id spec_key "aggregated" v) ;;
      store_spec_entries product_id rest
  | (_, None) :: rest => store_spec_entries product_id rest
  end.

(** [store_specifications(cursor, product_id, specs)] *)
Definition store_specifications (product_id : string) (specs : Specifications) : tx unit :=
  store_spec_entries product_id (spec_mappings specs).

(** [store_summary(cursor, product_id, summary, model_name, prompt_hash)] *)
Definition store_summary (product_id : string) (summary : SummarizedReview)
           (model_name prompt_hash : string) : tx unit :=
  let pros_array := match pros summary with [] => None | l => Some l end in
  let cons_array := match cons summary with [] => None | l => Some l end in
  let aspect_scores_json := aspect_scores summary in
  let citations_json := JObj [] in
  execute (upsert_summary product_id
             {| m_pros := pros_array;
                m_cons := cons_array;
                m_verdict := clean_text (Some (verdict summary));
                m_aspect_scores := aspect_scores_json;
                m_citations := citations_json;
                m_model_name := model_name;
                m_prompt_hash := prompt_hash;
                m_updated_at := now env |}).

(** The body of the loop of [store_snapshot] for one entry of
    [snap.platforms]. *)
Definition store_entry (product_id platform_name : string) (platform_data : platform_value)
  : tx unit :=
  if String.eqb platform_name "editorial" then
    match platform_data with
    | IsEditorialBlock b => store_editorial_data product_id b
    | _ => ret tt
    end
  else
    match platform_data with
    | IsPlatformData d => store_platform_data product_id platform_name d
    | _ => ret tt
    end.

(** The loop of [store_snapshot] over [snap.platforms.items()]. *)
Fixpoint store_platforms (product_id : string) (ps : list (string * platform_value))
  : tx unit :=
  match ps with
  | [] => ret tt
  | (platform_name, platform_data) :: rest =>
      store_entry product_id platform_name platform_data ;;
      store_platforms product_id rest
  end.

(** The statements of the [try] block of [store_snapshot] before the
    commit. *)
Definition store_statements (product_id : string) (snap : RootSnapshot)
           (model_name prompt_hash : string) : tx unit :=
  store_platforms product_id (platforms snap) ;;
  store_specifications product_id (specifications snap) ;;
  store_summary product_id (summarized_review snap) model_name prompt_hash.

(** [store_snapshot(product_id, snap, model_name, prompt_hash)] on the
    committed tables [d]: the outcome of the call and the tables
    committed afterwards.  An exception before [conn] is bound skips the
    rollback; any later one, the commit's included, rolls back. *)
Definition store_snapshot (d : database) (product_id : string) (snap : RootSnapshot)
           (model_name prompt_hash : string) : outcome bool * database :=
  if connect_fails env then (Returned false, d)
  else
    match store_statements product_id snap model_name prompt_hash
            {| pending := d; executed := O |} with
    | Some (_, c) =>
        if commit_fails env then (Returned false, d)
        else (Returned true, pending c)
    | None => (Returned false, d)
    end.

End Statements.

(** The number of statements [store_platform_data] executes. *)
Definition platform_statements (platform_data : PlatformData) : nat :=
  (match price platform_data with
   | Some p => match amount p with Some _ => 2 | None => 1 end
   | None => 0
   end +
   match platform_rating platform_data with Some _ => 1 | None => 0 end +
   match reviews platform_data with Some (_ :: _) => 2 | _ => 0 end)%nat.

(** The number of statements one entry of [snap.platforms] takes. *)
Definition entry_statements (platform_name : string) (platform_data : platform_value) : nat :=
  if String.eqb platform_name "editorial" then
    match platform_data with
    | IsEditorialBlock b => List.length (quotes b)
    | _ => O
    end
  else
    match platform_data with
    | IsPlatformData d => platform_statements d
    | _ => O
    end.

Fixpoint platforms_statements (ps : list (string * platform_value)) : nat :=
  match ps with
  | [] => O
  | (k, v) :: rest => (entry_statements k v + platforms_statements rest)%nat
  end.

Fixpoint present_specs (l : list (string * option spec_value)) : nat :=
  match l with
  | [] => O
  | (_, Some _) :: rest => S (present_specs rest)
  | (_, None) :: rest => present_specs rest
  end.

(** The number of statements the [try] block of [store_snapshot] executes
    before the commit. *)
Definition statement_count (snap : RootSnapshot) : nat :=
  (platforms_statements (platforms snap) +
   present_specs (spec_mappings (specifications snap)) + 1)%nat.

(** [verdict.split('.')[0]] *)
Fixpoint before_dot (s : string) : string :=
  match s with
  | EmptyString => EmptyString
  | String c s' => if PyStr.code c =? 46 then EmptyString else String c (before_dot s')
  end.

(** The verdict snippet that [get_compare_data] builds from a row of
    [summaries]: [None] when the verdict is empty and no entry is made. *)
Definition verdict_snippet (verdict : string) : option string :=
  if PyStr.nonempty verdict then
    let first_sentence :=
      if PyStr.contains verdict "." then before_dot verdict ++ "." else verdict in
    Some (if 100 <? PyStr.len first_sentence
          then PyStr.slice_to first_sentence 100 ++ "..."
          else first_sentence)
  else None.

End db.

(** ** db.py: the connection of [store_snapshot]

    [store_snapshot] once more, with everything its connection may do.
    In [db.store_snapshot] above the calls [conn.cursor()],
    [conn.rollback()] and [conn.close()] do not raise; here they may.
    [rollback] is called in the [except] clause and [close] in the
    [finally] clause, outside every handler, so what they raise leaves
    the function.  Work that is not committed is lost with the
    connection, so the committed tables change only when [commit]
    returns. *)

Module db_connection.
Import models db.

Record connection := {
  server : db_env;
  cursor_fails : bool;
  rollback_fails : bool;
  close_fails : bool }.

(** [finally: if conn: conn.close()]: an exception of [close] takes the
    place of what the call was about to return or to raise. *)
Definition finally_close (env : connection) (r : outcome bool) : outcome bool :=
  if close_fails env then Raised DatabaseError else r.

(** [except Exception as e: if conn: conn.rollback(); print(...); return
    False] with [conn] bound, followed by the [finally] clause. *)
Definition handler (env : connection) : outcome bool :=
  finally_close env
    (if rollback_fails env then Raised DatabaseError else Returned false).

(** [store_snapshot(product_id, snap, model_name, prompt_hash)].  When
    [get_db_connection] raises, [conn] is still [None]: the handler
    returns [False] and nothing is rolled back or closed. *)
Definition store_snapshot (env : connection) (d : database) (product_id : string)
           (snap : RootSnapshot) (model_name prompt_hash : string)
  : outcome bool * database :=
  if connect_fails (server env) then (Returned false, d)
  else if cursor_fails env then (handler env, d)
  else
    match store_statements (server env) product_id snap model_name prompt_hash
            {| pending := d; executed := O |} with
    | Some (_, c) =>
        if commit_fails (server env) then (handler env, d)
        else (finally_close env (Returned true), pending c)
    | None => (handler env, d)
    end.

End db_connection.

(** ** parallel_llama.py *)

Module parallel_llama.

#[export] Instance outcome_ret : MRet outcome := @Returned.
#[export] Instance outcome_bind : MBind outcome :=
  fun A B k m => match m with
                 | Returned a => k a
                 | Raised e => Raised e
                 end.

(** The three independent tasks of phase 1. *)
Inductive chunk := Retail | Editorial | Influencer.

Definition chunk_name (c : chunk) : string :=
  match c with
  | Retail => "retail"
  | Editorial => "editorial"
  | Influencer => "influencer"
  end.

Definition parallel_tasks : list chunk := [Retail; Editorial; Influencer].

(** [d.get(key, {})] on a decoded value: only a dictionary has [get]. *)
Definition py_get (d : json) (key : string) : outcome json :=
  match d with
  | JObj m =>
      Returned (match PyDict.lookup key m with
                | Some v => v
                | None => JObj []
                end)
  | _ => Raised AttributeError
  end.

(** One item of a sequence given to [dict.update]: it is read as a
    sequence of two elements, the key and the value.  Of the decoded
    values a string is the sequence of its characters, a list that of
    its items and a dictionary that of its keys; the others cannot be
    iterated ([TypeError]), and a sequence of another length is a
    [ValueError]. *)
Definition pair_of (item : json) : outcome (json * json) :=
  match item with
  | JStr (String a (String b EmptyString)) =>
      Returned (JStr (String a EmptyString), JStr (String b EmptyString))
  | JStr _ => Raised ValueError
  | JArr [k; v] => Returned (k, v)
  | JArr _ => Raised ValueError
  | JObj [(k1, _); (k2, _)] => Returned (JStr k1, JStr k2)
  | JObj _ => Raised ValueError
  | JNull | JBool _ | JInt _ | JFloat _ => Raised TypeError
  end.

(** [d[k] = v] for the key of such a pair.  A list or a dictionary
    cannot be hashed ([TypeError]).  A number, a boolean or [None] can:
    Python then holds a dictionary with a key that is no string, which
    is no value of the type [json]; this one case the model cannot
    follow, and it answers [TypeError] there as well. *)
Definition set_item (d : list (string * json)) (k v : json)
  : outcome (list (string * json)) :=
  match k with
  | JStr s => Returned (PyDict.set s v d)
  | _ => Raised TypeError
  end.

Fixpoint update_pairs (d : list (string * json)) (items : list json)
  : outcome (list (string * json)) :=
  match items with
  | [] => Returned d
  | item :: rest =>
      match pair_of item with
      | Returned (k, v) =>
          match set_item d k v with
          | Returned d' => update_pairs d' rest
          | Raised e => Raised e
          end
      | Raised e => Raised e
      end
  end.

(** [d.update(other)] for a decoded value [other]: a dictionary is
    merged, a list is read as a sequence of pairs, a string as the
    sequence of its characters, none of which is a pair; a number, a
    boolean or [None] cannot be iterated. *)
Definition dict_update (d : list (string * json)) (other : json)
  : outcome (list (string * json)) :=
  match other with
  | JObj m => Returned (PyDict.update d m)
  | JArr items => update_pairs d items
  | JStr EmptyString => Returned d
  | JStr _ => Raised ValueError
  | JNull | JBool _ | JInt _ | JFloat _ => Raised TypeError
  end.

(** [if p := data.get("platforms", {}): platforms.update(p)] *)
Definition merge_platforms (platforms : list (string * json)) (data : json)
  : outcome (list (string * json)) :=
  p ← py_get data "platforms";
  if truthy p then dict_update platforms p else Returned platforms.

(** [chunk_results.get(name, {})] on the dictionary of results *)
Definition result_of (chunk_results : list (string * json)) (c : chunk) : json :=
  match PyDict.lookup (chunk_name c) chunk_results with
  | Some v => v
  | None => JObj []
  end.

(** [_merge_parallel_results(chunk_results, summary_data)] *)
Definition _merge_parallel_results (chunk_results : list (string * json)) (summary_data : json)
  : outcome json :=
  product_identity ← py_get summary_data "product_identity";
  specifications ← py_get summary_data "specifications";
  summarized_review ← py_get summary_data "summarized_review";
  citations ← py_get summary_data "citations";
  platforms ← merge_platforms [] (result_of chunk_results Retail);
  platforms ← merge_platforms platforms (result_of chunk_results Editorial);
  platforms ← merge_platforms platforms (result_of chunk_results Influencer);
  Returned (JObj [ ("product_identity", product_identity);
                   ("platforms", JObj platforms);
                   ("specifications", specifications);
                   ("summarized_review", summarized_review);
                   ("citations", citations) ]).

Section WithFetchers.

(** The chunk fetchers of [chunked_llama.py]: calls to the hosted
    model, which return the decoded record or raise. *)
Variable fetch_retail_chunk : string -> outcome json.
Variable fetch_brand_editorial_chunk : string -> outcome json.
Variable fetch_influencer_chunk : string -> outcome json.
Variable fetch_summary_chunk : string -> json -> outcome json.

(** [try: return fetch(...) except Exception: return {}] *)
Definition wrap (r : outcome json) : outcome json :=
  match r with
  | Returned d => Returned d
  | Raised _ => Returned (JObj [])
  end.

Definition _fetch_retail_wrapper (product_name : string) : outcome json :=
  wrap (fetch_retail_chunk product_name).

Definition _fetch_editorial_wrapper (product_name : string) : outcome json :=
  wrap (fetch_brand_editorial_chunk product_name).

Definition _fetch_influencer_wrapper (product_name : string) : outcome json :=
  wrap (fetch_influencer_chunk product_name).

(** The fetcher behind each task. *)
Definition fetcher (c : chunk) : string -> outcome json :=
  match c with
  | Retail => fetch_retail_chunk
  | Editorial => fetch_brand_editorial_chunk
  | Influencer => fetch_influencer_chunk
  end.

(** What the loop keeps for a chunk: the record of its fetcher, or the
    empty record when the fetcher raised. *)
Definition kept (product_name : string) (c : chunk) : json :=
  match fetcher c product_name with
  | Returned d => d
  | Raised _ => JObj []
  end.

(** The future submitted for a task, once it is done. *)
Definition future_result (c : chunk) (product_name : string) : outcome json :=
  match c with
  | Retail => _fetch_retail_wrapper product_name
  | Editorial => _fetch_editorial_wrapper product_name
  | Influencer => _fetch_influencer_wrapper product_name
  end.

(** The loop over [as_completed(future_to_chunk)]; [completed] is the
    order in which the futures finish. *)
Fixpoint collect (completed : list chunk) (product_name : string)
         (chunk_results : list (string * json)) : list (string * json) :=
  match completed with
  | [] => chunk_results
  | c :: rest =>
      let chunk_data :=
        match future_result c product_name with
        | Returned d => d
        | Raised _ => JObj []
        end in
      collect rest product_name (PyDict.set (chunk_name c) chunk_data chunk_results)
  end.

(** [fetch_product_snapshot_parallel(product_name)]; the outer handler
    logs and raises again. *)
Definition fetch_product_snapshot_parallel (completed : list chunk) (product_name : string)
  : outcome json :=
  let chunk_results := collect completed product_name [] in
  let all_platform_data :=
    JObj [ ("retail", result_of chunk_results Retail);
           ("editorial", result_of chunk_results Editorial);
           ("influencer", result_of chunk_results Influencer) ] in
  summary_data ← fetch_summary_chunk product_name all_platform_data;
  _merge_parallel_results chunk_results summary_data.

End WithFetchers.

(** The [platforms] dictionary of a segment's record, empty when there is
    none. *)
Definition platforms_of (d : json) : list (string * json) :=
  match d with
  | JObj m =>
      match PyDict.lookup "platforms" m with
      | Some (JObj p) => p
      | _ => []
      end
  | _ => []
  end.

(** A record of the shape the segments return: a dictionary whose
    [platforms] entry, when there is one, is a dictionary or falsy. *)
Definition partial_record (d : json) : bool :=
  match d with
  | JObj m =>
      match PyDict.lookup "platforms" m with
      | Some (JObj _) => true
      | Some v => negb (truthy v)
      | None => true
      end
  | _ => false
  end.

Definition is_dict (d : json) : bool :=
  match d with JObj _ => true | _ => false end.

(** The input of the synthesis stage built from the three records. *)
Definition all_platform_data (records : chunk -> json) : json :=
  JObj [ ("retail", records Retail);
         ("editorial", records Editorial);
         ("influencer", records Influencer) ].

(** The union of the [platforms] of the three records, a later segment
    overwriting an earlier one. *)
Definition merged_platforms (records : chunk -> json) : list (string * json) :=
  PyDict.update
    (PyDict.update (PyDict.update [] (platforms_of (records Retail)))
                   (platforms_of (records Editorial)))
    (platforms_of (records Influencer)).

End parallel_llama.

(** ** chunked_llama.py *)

Module chunked_llama.
Import parallel_llama.

(** [if data.get("platforms"): platforms.update(data["platforms"])] *)
Definition merge_chunk (platforms : list (string * json)) (data : json)
  : outcome (list (string * json)) :=
  match data with
  | JObj m =>
      match PyDict.lookup "platforms" m with
      | Some p => if truthy p then dict_update platforms p else Returned platforms
      | None => Returned platforms
      end
  | _ => Raised AttributeError
  end.

Section WithFetchers.

Variable fetch_retail_chunk : string -> outcome json.
Variable fetch_brand_editorial_chunk : string -> outcome json.
Variable fetch_influencer_chunk : string -> outcome json.
Variable fetch_summary_chunk : string -> json -> outcome json.

(** [str(e)] of a caught exception. *)
Variable str_of_exn : exn -> string.

(** The [try] block of [fetch_product_snapshot_chunked]. *)
Definition chunked_steps (product_name : string) : outcome json :=
  retail_data ← fetch_retail_chunk product_name;
  editorial_data ← fetch_brand_editorial_chunk product_name;
  influencer_data ← fetch_influencer_chunk product_name;
  let all_platform_data :=
    JObj [ ("retail", retail_data);
           ("editorial", editorial_data);
           ("influencer", influencer_data) ] in
  summary_data ← fetch_summary_chunk product_name all_platform_data;
  product_identity ← py_get summary_data "product_identity";
  specifications ← py_get summary_data "specifications";
  summarized_review ← py_get summary_data "summarized_review";
  citations ← py_get summary_data "citations";
  platforms ← merge_chunk [] retail_data;
  platforms ← merge_chunk platforms editorial_data;
  platforms ← merge_chunk platforms influencer_data;
  Returned (JObj [ ("product_identity", product_identity);
                   ("platforms", JObj platforms);
                   ("specifications", specifications);
                   ("summarized_review", summarized_review);
                   ("citations", citations) ]).

(** The error structure the handler returns. *)
Definition error_record (e : exn) (product_name : string) : json :=
  JObj [ ("error", JStr (str_of_exn e));
         ("status", JStr "failed");
         ("product_name", JStr product_name);
         ("approach", JStr "chunked") ].

(** [fetch_product_snapshot_chunked(product_name)] *)
Definition fetch_product_snapshot_chunked (product_name : string) : json :=
  match chunked_steps product_name with
  | Returned final_data => final_data
  | Raised e => error_record e product_name
  end.

End WithFetchers.

End chunked_llama.

(** ** main.py: the corrective rewrites of the ingestion endpoints *)

Module main.






End main.

(** ** Sample data for the examples *)

Module samples.
Import models db.

(** A decoder that knows the empty object only. *)
Definition decode_empty_object (s : string) : option json :=
  if String.eqb s "{}" then Some (JObj []) else None.

(** The text of a retail record cut right after the complete summary
    field of its first platform. *)
Definition cut_after_summary : string :=
  let q := json_repair.quote in
  "{" ++ q ++ "platforms" ++ q ++ ": {" ++
  q ++ "amazon" ++ q ++ ": {" ++
  q ++ "url" ++ q ++ ": " ++ q ++ "https://amazon.com/p" ++ q ++ ", " ++
  q ++ "summary" ++ q ++ ": " ++ q ++ "Customers love it" ++ q.

Definition review_with (p c : list string) : SummarizedReview :=
  {| master_summary := Some "A light serum that most buyers like.";
     platform_insights := None;
     pros := p;
     cons := c;
     aspect_scores := None;
     verdict := "Worth buying." |}.

Definition review_of (who : string) (stars : Q) (text : string) : ReviewSnippet :=
  {| author := Some who; rating := Some stars; title := None;
     body := Some text; date := Some "2024-01-15"; review_url := None |}.

Definition platform_with (l : option (list ReviewSnippet)) : PlatformData :=
  {| url := Some "https://amazon.com/p"; price := None; platform_rating := None;
     reviews := l; summary := Some "Customers love it" |}.

Definition no_specifications : Specifications :=
  {| size := Some "30ml"; form := None; finish_texture := None; spf_pa := None;
     skin_types := None; usage := None; ingredients_inci := None;
     certifications := None; awards := None |}.

Definition snapshot_with (l : option (list ReviewSnippet)) : RootSnapshot :=
  {| product_identity :=
       {| name := "Hydrating Serum X"; brand := Some "AcmeCo"; category := None;
          images := [] |};
     platforms := [("amazon", IsPlatformData (platform_with l))];
     specifications := no_specifications;
     summarized_review := review_with ["a"; "b"; "c"] ["d"; "e"; "f"];
     citations := [("amazon", "https://amazon.com/p")] |}.

Definition review_a : ReviewSnippet := review_of "Ann" (9 # 2) "Lasts all day.".
Definition review_b : ReviewSnippet := review_of "Bob" 0 "No stars given.".

Definition snapshot_A : RootSnapshot := snapshot_with (Some [review_a]).
Definition snapshot_B : RootSnapshot := snapshot_with (Some [review_b]).
Definition snapshot_without_reviews : RootSnapshot := snapshot_with (Some []).

Definition empty_database : database :=
  {| offers := ∅; price_history := ∅; ratings := ∅; reviews_table := [];
     specs := ∅; summaries := ∅ |}.

(** A server on which nothing fails. *)
Definition healthy : db_env :=
  {| connect_fails := false; stmt_fails := fun _ => false; commit_fails := false;
     now := 1705312800; today := 19737 |}.

(** A server on which the statement of index [n] raises. *)
Definition failing_at (n : nat) : db_env :=
  {| connect_fails := false; stmt_fails := Nat.eqb n; commit_fails := false;
     now := 1705312800; today := 19737 |}.

(** A connection that is lost during the first statement: the statement
    raises and so does the rollback. *)
Definition lost_connection : db_connection.connection :=
  {| db_connection.server := failing_at 0;
     db_connection.cursor_fails := false;
     db_connection.rollback_fails := true;
     db_connection.close_fails := false |}.

Definition retail_record : json :=
  JObj [("platforms",
         JObj [("amazon", JObj [("url", JStr "https://amazon.com/p")]);
               ("sephora", JObj [("url", JStr "https://sephora.com/p")])])].

Definition influencer_record : json :=
  JObj [("platforms", JObj [("youtube", JObj [("reviews", JArr [])])])].

Definition summary_record : json :=
  JObj [("product_identity", JObj [("name", JStr "Hydrating Serum X")]);
        ("summarized_review", JObj [("verdict", JStr "Worth buying.")])].

(** The records of a run whose editorial fetcher fails. *)
Definition records_without_editorial (c : parallel_llama.chunk) : json :=
  match c with
  | parallel_llama.Retail => retail_record
  | parallel_llama.Editorial => JObj []
  | parallel_llama.Influencer => influencer_record
  end.

End samples.

(** ** More sample data *)

Module samples_more.
Import models db samples.

(** The text of a small object and the text around it. *)
Definition small_object : string :=
  let q := json_repair.quote in "{" ++ q ++ "a" ++ q ++ ": 1}".

Definition prose_with_object : string := "see " ++ small_object ++ " here".

(** A decoder that knows [small_object] only. *)
Definition decode_small_object (s : string) : option json :=
  if String.eqb s small_object then Some (JObj [("a", JInt 1)]) else None.

(** A decoder that knows [small_object] and gives up on every other
    text as on one that is nested too deeply. *)
Definition decode_or_overflow (s : string) : json_decoder.loaded :=
  if String.eqb s small_object then json_decoder.Loaded (JObj [("a", JInt 1)])
  else json_decoder.Fails json_decoder.RecursionError.

(** Platform data with a price and a rating. *)
Definition priced_platform : PlatformData :=
  {| url := Some "https://amazon.com/p";
     price := Some {| amount := Some (2599 # 100); currency := Some "$";
                      unit_price := None; availability := Some " in_stock ";
                      promo := None |};
     platform_rating := Some {| average := Some (21 # 5); count := Some 1250;
                                breakdown := None |};
     reviews := None;
     summary := None |}.

Definition priced_snapshot : RootSnapshot :=
  {| product_identity :=
       {| name := "Hydrating Serum X"; brand := Some "AcmeCo"; category := None;
          images := [] |};
     platforms :=
       [("amazon", IsPlatformData priced_platform);
        ("editorial",
         IsEditorialBlock
           {| quotes := [ {| outlet := "Allure"; quote := "Best serum this year";
                             quote_url := "https://allure.com/serum" |} ] |})];
     specifications := no_specifications;
     summarized_review := review_with ["a"; "b"; "c"] ["d"; "e"; "f"];
     citations := [] |}.

(** The text of a caught exception, for the examples. *)
Definition exn_name (e : exn) : string :=
  match e with
  | TransportFailure => "TransportFailure"
  | ValueError => "ValueError"
  | TypeError => "TypeError"
  | AttributeError => "AttributeError"
  | DatabaseError => "DatabaseError"
  end.

(** The records of a run in which every fetcher succeeds. *)
Definition records_of_full_run (c : parallel_llama.chunk) : json :=
  match c with
  | parallel_llama.Retail => retail_record
  | parallel_llama.Editorial =>
      JObj [("platforms", JObj [("editorial", JObj [("quotes", JArr [])])])]
  | parallel_llama.Influencer => influencer_record
  end.

(** A [summarized_review] dictionary without verdict and with a long
    insight. *)
Definition long_insight : string :=
  "Retail customers consistently praise the long wear and the coverage of this serum, " ++
  "but many of them also note some dryness after a few hours and a rather strong scent.".

Definition raw_summary : list (string * json) :=
  [("master_summary", JStr "A light serum.");
   ("platform_insights", JObj [("retail_consensus", JStr long_insight)])].

End samples_more.

(** ** Notions used in the properties *)

Module notions.
Import models db.

(** The characters that the removal of trailing commas may take away are
    the comma and white space; these are the others. *)
Definition kept_by_comma_removal (c : ascii) : bool :=
  negb (PyStr.code c =? 44) && negb (PyStr.is_space c).


(** Every character of the text satisfies [p]. *)
Fixpoint all_chars (p : ascii -> bool) (s : string) : bool :=
  match s with
  | EmptyString => true
  | String c s' => p c && all_chars p s'
  end.

(** The text begins with white space. *)
Definition starts_with_space (s : string) : bool :=
  match s with
  | EmptyString => false
  | String c _ => PyStr.is_space c
  end.

(** The text ends with white space. *)
Definition ends_with_space (s : string) : bool := starts_with_space (String.rev s).

(** Code on a cursor that relates the tables before to the tables after
    by [R] whenever it does not raise. *)
Definition maintains (R : database -> database -> Prop) (m : tx unit) : Prop :=
  forall c c' u, m c = Some (u, c') -> R (pending c) (pending c').

(** Code on a cursor that executes exactly [n] statements: it ends after
    them when none of them raises and raises when one of them does. *)
Definition runs (env : db_env) (n : nat) (m : tx unit) : Prop :=
  forall c,
    match m c with
    | Some (_, c') =>
        executed c' = (executed c + n)%nat /\
        forall i, (i < n)%nat -> stmt_fails env (executed c + i) = false
    | None => exists i, (i < n)%nat /\ stmt_fails env (executed c + i) = true
    end.

(** The rows of every product other than [product_id] are the same in
    both states. *)
Definition other_products_kept (product_id : string) (d d' : database) : Prop :=
  forall other, other <> product_id ->
    (forall r, offers d' !! (other, r) = offers d !! (other, r)) /\
    (forall r day, price_history d' !! (other, r, day) = price_history d !! (other, r, day)) /\
    (forall r, ratings d' !! (other, r) = ratings d !! (other, r)) /\
    (forall r, reviews_of other r d' = reviews_of other r d) /\
    (forall k src, specs d' !! (other, k, src) = specs d !! (other, k, src)) /\
    summaries d' !! other = summaries d !! other.

(** The rows that one retailer has for a product in [offers], [ratings],
    [price_history] and [reviews] are the same in both states. *)
Definition retailer_rows_kept (product_id retailer : string) (d d' : database) : Prop :=
  offers d' !! (product_id, retailer) = offers d !! (product_id, retailer) /\
  (forall day, price_history d' !! (product_id, retailer, day)
               = price_history d !! (product_id, retailer, day)) /\
  ratings d' !! (product_id, retailer) = ratings d !! (product_id, retailer) /\
  reviews_of product_id retailer d' = reviews_of product_id retailer d.

(** The row [store_platform_data] writes into [offers]. *)
Definition offer_of (env : db_env) (pd : PlatformData) (p : Price) : offer_row :=
  {| o_price_amount := amount p;
     o_price_currency := ensure_currency_usd (currency p);
     o_unit_price := unit_price p;
     o_availability := clean_text (availability p);
     o_promo := clean_text (promo p);
     o_url := url pd;
     o_scraped_at := now env |}.

(** The row [store_platform_data] writes into [ratings]. *)
Definition rating_of (env : db_env) (pd : PlatformData) (r : Rating) : rating_row :=
  {| r_average := clamp_float (average r) 0 5;
     r_count := count r;
     r_breakdown := match breakdown r with
                    | Some (kv :: l) => Some (kv :: l)
                    | _ => None
                    end;
     r_url := url pd;
     r_scraped_at := now env |}.

(** Code on a cursor whose effect on one observation [look] of the
    tables (the row under a key, the rows of a retailer) is a fixed
    function [g] of a class [C], the same from whatever state it starts. *)
Definition acts_at {V : Type} (C : (option V -> option V) -> Prop)
           (look : database -> option V) (m : tx unit) : Prop :=
  exists g, C g /\
    forall c c' u, m c = Some (u, c') -> look (pending c') = g (look (pending c)).

(** A statement whose effect on the observation is such a function. *)
Definition statement_acts {V : Type} (C : (option V -> option V) -> Prop)
           (look : database -> option V) (f : database -> database) : Prop :=
  exists g, C g /\ forall d, look (f d) = g (look d).

(** The effects of upserts on a row: none, or a fixed row. *)
Definition overwrite_class {V : Type} (g : option V -> option V) : Prop :=
  (forall o, g o = o) \/ (exists r, forall o, g o = Some r).

(** The effects of inserts that leave an existing row alone. *)
Definition fill_class {V : Type} (g : option V -> option V) : Prop :=
  (forall o, g o = o) \/
  (exists r, forall o, g o = match o with Some x => Some x | None => Some r end).

(** The effects on a row of [specs]: none, a fixed row, or a fixed value
    and time with the [url] of the row that was there. *)
Definition spec_class (g : option spec_row -> option spec_row) : Prop :=
  (forall o, g o = o) \/
  (exists r, forall o, g o = Some r) \/
  (exists v t, forall o,
      g o = Some {| s_value := v;
                    s_url := match o with Some old => s_url old | None => None end;
                    s_scraped_at := t |}).

(** The key and the row of [specs] that [store_editorial_data] writes for
    a quote, and the last quote of a list that is written under a key. *)
Definition quote_key (q : EditorialQuote) : string :=
  "editorial_quote_" ++ PyStr.replace_char " " "_" (PyStr.lower (outlet q)).

Definition quote_row (env : db_env) (q : EditorialQuote) : spec_row :=
  {| s_value := QuoteValue (outlet q) (clean_text (Some (quote q))) (quote_url q);
     s_url := Some (quote_url q);
     s_scraped_at := now env |}.

Fixpoint last_quote (k : string) (qs : list EditorialQuote) : option EditorialQuote :=
  match qs with
  | [] => None
  | q :: rest =>
      match last_quote k rest with
      | Some q' => Some q'
      | None => if String.eqb (quote_key q) k then Some q else None
      end
  end.

(** The price points recorded in the first state are still there, as
    they were, in the second. *)
Definition price_history_kept (d d' : database) : Prop :=
  forall key row, price_history d !! key = Some row -> price_history d' !! key = Some row.

End notions.

(** * Properties *)

(** ** The repair parser *)

Section RepairParser.
Import json_repair.
Variable json_loads : string -> option json.

Lemma utf8_len_nonneg (s : string) : 0 <= PyStr.utf8_len s.
Proof.
  induction s as [|c s IH]; simpl; [lia|].
  destruct (PyStr.code c <? 128); lia.
Qed.

(** With a negative limit the test of the loop holds for every text, the
    empty one included, so no amount of fuel lets it finish. *)
Lemma truncate_loop_negative (fuel : nat) (t : string) (max_bytes : Z) :
  max_bytes < 0 -> truncate_loop fuel t max_bytes = None.
Proof.
  intros Hneg. revert t.
  induction fuel as [|fuel IH]; intros t; simpl; [reflexivity|].
  pose proof (utf8_len_nonneg t) as Hlen.
  destruct (max_bytes <? PyStr.utf8_len t) eqn:E.
  - apply IH.
  - apply Z.ltb_ge in E. lia.
Qed.

Lemma utf8_len_take (n : nat) (s : string) :
  PyStr.utf8_len (PyStr.take n s) <= PyStr.utf8_len s.
Proof.
  revert s. induction n as [|n IH]; intros [|c s]; simpl; try lia.
  - pose proof (utf8_len_nonneg s). destruct (PyStr.code c <? 128); lia.
  - specialize (IH s). lia.
Qed.

Lemma length_take (n : nat) (s : string) :
  String.length (PyStr.take n s) = Nat.min n (String.length s).
Proof.
  revert s. induction n as [|n IH]; intros [|c s]; simpl; auto.
Qed.

Lemma utf8_len_empty (s : string) : String.length s = O -> PyStr.utf8_len s = 0.
Proof. destruct s; simpl; [reflexivity | discriminate]. Qed.

Lemma length_drop_last (s : string) :
  String.length (PyStr.slice_to s (-1)) = Nat.pred (String.length s).
Proof.
  unfold PyStr.slice_to, PyStr.bound, PyStr.len. rewrite length_take.
  change (-1 <? 0) with true. cbv iota. lia.
Qed.

(** With a limit that is not negative the loop drops at most every
    character, so fuel beyond the length of the text is enough. *)
Lemma truncate_loop_finishes (fuel : nat) (t : string) (max_bytes : Z) :
  0 <= max_bytes -> (String.length t < fuel)%nat ->
  exists t', truncate_loop fuel t max_bytes = Some t'.
Proof.
  intros Hpos. revert t.
  induction fuel as [|fuel IH]; intros t Hfuel; [lia|].
  simpl. destruct (max_bytes <? PyStr.utf8_len t) eqn:E.
  - apply IH. rewrite length_drop_last.
    destruct (String.length t) eqn:El.
    + apply Z.ltb_lt in E. rewrite (utf8_len_empty t El) in E. lia.
    + simpl. lia.
  - eexists. reflexivity.
Qed.

(** The repair parser returns for every text when the limit is not
    negative. *)
Lemma try_repair_to_json_total (raw : string) (max_bytes : Z) :
  0 <= max_bytes ->
  exists v, try_repair_to_json json_loads (S (String.length raw)) raw max_bytes = Some v.
Proof.
  intros Hpos. unfold try_repair_to_json.
  destruct (negb (PyStr.nonempty raw)); [eexists; reflexivity|].
  destruct (max_bytes <? PyStr.utf8_len raw); [|eexists; reflexivity].
  destruct (truncate_loop_finishes (S (String.length raw))
              (PyStr.slice_to raw max_bytes) max_bytes Hpos) as [t' Ht'].
  - unfold PyStr.slice_to. rewrite length_take. lia.
  - rewrite Ht'. eexists. reflexivity.
Qed.

(** C3: on a text that is not empty and that [json.loads] decodes,
    [safe_json_parse] returns the decoded value itself, whatever the
    limit; no step of the repair path runs. *)
Theorem C3_safe_json_parse_returns_direct_decode
        (fuel : nat) (raw : string) (max_bytes : Z) (v : json) :
  raw <> "" ->
  json_loads raw = Some v ->
  safe_json_parse json_loads fuel raw max_bytes = Some v.
Proof.
  intros Hne Hdec. unfold safe_json_parse.
  destruct raw as [|c raw]; [congruence|].
  simpl. rewrite Hdec. reflexivity.
Qed.

Lemma try_repair_to_json_negative_limit (fuel : nat) (raw : string) (max_bytes : Z) :
  raw <> "" ->
  max_bytes < 0 ->
  try_repair_to_json json_loads fuel raw max_bytes = None.
Proof.
  intros Hne Hneg. unfold try_repair_to_json.
  destruct raw as [|c raw]; [congruence|].
  cbn [PyStr.nonempty negb].
  pose proof (utf8_len_nonneg (String c raw)) as Hlen.
  destruct (max_bytes <? PyStr.utf8_len (String c raw)) eqn:E.
  - rewrite truncate_loop_negative by assumption. reflexivity.
  - apply Z.ltb_ge in E. lia.
Qed.

(** C7: the repair parser does not return for a negative limit.  On
    every text that is not empty the truncation loop of step 1 of
    [try_repair_to_json] is entered and never left, whatever the fuel;
    [safe_json_parse] runs into the same loop as soon as its first two
    strategies give nothing. *)
Theorem C7_negative_limit_never_returns
        (fuel : nat) (raw : string) (max_bytes : Z) :
  raw <> "" ->
  max_bytes < 0 ->
  try_repair_to_json json_loads fuel raw max_bytes = None /\
  (json_loads raw = None ->
   (forall r, extract_json_from_markdown json_loads fuel raw = Some r -> truthy r = false) ->
   safe_json_parse json_loads fuel raw max_bytes = None).
Proof.
  intros Hne Hneg. split.
  - apply try_repair_to_json_negative_limit; assumption.
  - intros Hdec Hmd. unfold safe_json_parse.
    destruct raw as [|c raw]; [congruence|].
    cbn [PyStr.nonempty negb]. rewrite Hdec.
    destruct (extract_json_from_markdown json_loads fuel (String c raw)) as [r|] eqn:E;
      [|reflexivity].
    rewrite (Hmd r eq_refl).
    rewrite try_repair_to_json_negative_limit by assumption. reflexivity.
Qed.

(** C2: on a text with an opening brace, a complete summary field and no
    closing brace the salvage gives nothing: the search that starts
    behind the opening quote of the value already stops at its closing
    quote, and the second search finds no further quote. *)
Theorem C2_salvage_fails_on_complete_summary (fuel : nat) :
  PyStr.find samples.cut_after_summary "{" 0 = 0 /\
  PyStr.rfind samples.cut_after_summary "}" = -1 /\
  PyStr.contains samples.cut_after_summary
    (quote ++ "summary" ++ quote ++ ": " ++ quote ++ "Customers love it" ++ quote) = true /\
  _repair_truncated_json samples.cut_after_summary = None /\
  try_repair_to_json json_loads fuel samples.cut_after_summary 300000 = Some JNull.
Proof. repeat split; vm_compute; reflexivity. Qed.

End RepairParser.

Import samples.

Lemma C3_witness :
  json_repair.safe_json_parse decode_empty_object 0 "{}" 300000 = Some (JObj []).
Proof.
  apply (C3_safe_json_parse_returns_direct_decode decode_empty_object 0 "{}" 300000 (JObj []));
    [discriminate | reflexivity].
Defined.

Lemma C7_witness :
  json_repair.try_repair_to_json decode_empty_object 1000 "a" (-1) = None /\
  json_repair.safe_json_parse decode_empty_object 1000 "a" (-1) = None.
Proof.
  destruct (C7_negative_limit_never_returns decode_empty_object 1000 "a" (-1))
    as [H1 H2]; [discriminate | lia |].
  split; [exact H1 | apply H2].
  - reflexivity.
  - intros r Hr. vm_compute in Hr. injection Hr as <-. reflexivity.
Defined.

(** ** Category detection *)

Section CategoryDetection.
Import adaptive_llama.

(** No score is negative. *)
Lemma score_nonneg (text : string) (keywords : list string) : 0 <= score text keywords.
Proof. unfold score. lia. Qed.

(** When no keyword occurs in the text the default category is
    returned. *)
Lemma detect_product_category_no_match (product_name brand description : string) :
  max_value (scores_of (PyStr.lower (product_name ++ " " ++ brand ++ " " ++ description))) = 0 ->
  detect_product_category product_name brand description = "Makeup".
Proof. intros H. unfold detect_product_category. rewrite H. reflexivity. Qed.

(** C8: a tie at a positive score does not give the default category.
    The text below scores 1 for Fragrance and for Skincare and 0 for the
    other two, and the first of the two maximal categories is returned. *)
Theorem C8_positive_tie_returns_first_maximal :
  scores_of (PyStr.lower ("Rose Perfume Body Lotion" ++ " " ++ "" ++ " " ++ ""))
    = [("Fragrance", 1); ("Makeup", 0); ("Skincare", 1); ("Tools", 0)] /\
  detect_product_category "Rose Perfume Body Lotion" "" "" = "Fragrance".
Proof. split; vm_compute; reflexivity. Qed.

End CategoryDetection.

(** ** Schema validation *)

Section SchemaValidation.
Import models.

Lemma validate_count_exactly_three (v : list string) :
  validate_pros_count v = true <-> List.length v = 3%nat.
Proof.
  unfold validate_pros_count. rewrite !andb_true_iff, !Nat.leb_le, Nat.eqb_eq. lia.
Qed.

(** C6 (as the code has it): a summarized review whose other fields are
    valid passes validation exactly when it has three pros and three
    cons. *)
Theorem C6_validation_requires_exactly_three (r : SummarizedReview) :
  validate_review_rest r = true ->
  (validate_SummarizedReview r = true <->
   List.length (pros r) = 3%nat /\ List.length (cons r) = 3%nat).
Proof.
  intros Hrest. unfold validate_SummarizedReview. rewrite Hrest.
  cbn [andb]. rewrite andb_true_iff.
  change (validate_cons_count (cons r)) with (validate_pros_count (cons r)).
  rewrite !validate_count_exactly_three. reflexivity.
Qed.

Lemma C6_witness :
  validate_SummarizedReview (review_with ["a"; "b"; "c"] ["d"; "e"; "f"]) = true.
Proof.
  apply (C6_validation_requires_exactly_three
           (review_with ["a"; "b"; "c"] ["d"; "e"; "f"])); [reflexivity|].
  split; reflexivity.
Defined.

(** Five pros and two cons lie in the ranges 1..7 and 0..7, the other
    fields are valid, and validation rejects the record. *)
Lemma C6_counterexample :
  let r := review_with ["a"; "b"; "c"; "d"; "e"] ["f"; "g"] in
  validate_review_rest r = true /\
  (1 <= List.length (pros r) <= 7)%nat /\
  (0 <= List.length (cons r) <= 7)%nat /\
  validate_SummarizedReview r = false.
Proof. cbv zeta. repeat split; vm_compute; try reflexivity; try lia. Qed.

End SchemaValidation.

(** ** The store *)

Section Store.
Import models db.
Variable env : db_env.

Lemma bind_Some {A B} (m : tx A) (k : A -> tx B) (c c' : cursor) (b : B) :
  (m ≫= k) c = Some (b, c') ->
  exists a c1, m c = Some (a, c1) /\ k a c1 = Some (b, c').
Proof.
  unfold mbind, tx_bind, bind. destruct (m c) as [[a c1]|]; [|discriminate].
  intros H. exists a, c1. split; [reflexivity | exact H].
Qed.

Lemma ret_Some {A} (a b : A) (c c' : cursor) :
  ret a c = Some (b, c') -> b = a /\ c' = c.
Proof. unfold ret. intros H. injection H as <- <-. split; reflexivity. Qed.

Lemma execute_Some (f : database -> database) (c c' : cursor) (u : unit) :
  execute env f c = Some (u, c') ->
  stmt_fails env (executed c) = false /\ pending c' = f (pending c).
Proof.
  unfold execute. destruct (stmt_fails env (executed c)); [discriminate|].
  intros H. injection H as _ <-. split; reflexivity.
Qed.

(** Code that leaves the [reviews] table as it is. *)
Definition keeps_reviews (m : tx unit) : Prop :=
  forall c c' u, m c = Some (u, c') ->
                 reviews_table (pending c') = reviews_table (pending c).

Lemma keeps_reviews_ret : keeps_reviews (ret tt).
Proof. intros c c' u H. apply ret_Some in H as [_ ->]. reflexivity. Qed.

Lemma keeps_reviews_bind (m k : tx unit) :
  keeps_reviews m -> keeps_reviews k -> keeps_reviews (m ;; k).
Proof.
  intros Hm Hk c c' u H. apply bind_Some in H as (a & c1 & H1 & H2).
  rewrite (Hk _ _ _ H2). apply (Hm _ _ _ H1).
Qed.

Lemma keeps_reviews_execute (f : database -> database) :
  (forall d, reviews_table (f d) = reviews_table d) ->
  keeps_reviews (execute env f).
Proof.
  intros Hf c c' u H. apply execute_Some in H as [_ ->]. apply Hf.
Qed.

Lemma keeps_reviews_editorial (product_id : string) (b : EditorialBlock) :
  keeps_reviews (store_editorial_data env product_id b).
Proof.
  unfold store_editorial_data. induction (quotes b) as [|q qs IH]; simpl.
  - apply keeps_reviews_ret.
  - apply keeps_reviews_bind; [|exact IH].
    apply keeps_reviews_execute. reflexivity.
Qed.

Lemma keeps_reviews_specifications (product_id : string) (s : Specifications) :
  keeps_reviews (store_specifications env product_id s).
Proof.
  unfold store_specifications. induction (spec_mappings s) as [|[k [v|]] l IH]; simpl.
  - apply keeps_reviews_ret.
  - apply keeps_reviews_bind; [|exact IH].
    apply keeps_reviews_execute. reflexivity.
  - exact IH.
Qed.

Lemma keeps_reviews_summary (product_id : string) (s : SummarizedReview) (mn ph : string) :
  keeps_reviews (store_summary env product_id s mn ph).
Proof. apply keeps_reviews_execute. reflexivity. Qed.

(** What [store_platform_data] does to the [reviews] table: nothing
    without reviews, otherwise the rows of the retailer go and the tuples
    of the first five reviews are appended. *)
Lemma store_platform_data_reviews (product_id platform : string) (pd : PlatformData)
      (c c' : cursor) (u : unit) :
  store_platform_data env product_id platform pd c = Some (u, c') ->
  reviews_table (pending c') =
    match reviews pd with
    | Some (r :: l) =>
        (List.filter (fun x => negb (review_matches product_id platform x))
                     (reviews_table (pending c))
         ++ List.map (review_tuple product_id platform) (List.firstn 5 (r :: l)))%list
    | _ => reviews_table (pending c)
    end.
Proof.
  unfold store_platform_data. intros H.
  apply bind_Some in H as ([] & c1 & H1 & H).
  apply bind_Some in H as ([] & c2 & H2 & H3).
  assert (E1 : reviews_table (pending c1) = reviews_table (pending c)).
  { destruct (price pd) as [p|]; [|apply ret_Some in H1 as [_ ->]; reflexivity].
    revert H1. apply keeps_reviews_bind.
    - apply keeps_reviews_execute. reflexivity.
    - destruct (amount p); [apply keeps_reviews_execute; reflexivity
                           | apply keeps_reviews_ret]. }
  assert (E2 : reviews_table (pending c2) = reviews_table (pending c1)).
  { destruct (platform_rating pd) as [r|]; [|apply ret_Some in H2 as [_ ->]; reflexivity].
    revert H2. apply keeps_reviews_execute. reflexivity. }
  destruct (reviews pd) as [[|r l]|].
  - apply ret_Some in H3 as [_ ->]. congruence.
  - apply bind_Some in H3 as ([] & c3 & H3 & H4).
    apply execute_Some in H3 as [_ H3].
    cbn [List.firstn List.map] in H4.
    apply execute_Some in H4 as [_ H4].
    rewrite H4, H3. cbn [reviews_table insert_reviews delete_reviews].
    rewrite E2, E1. reflexivity.
  - apply ret_Some in H3 as [_ ->]. congruence.
Qed.

Lemma review_tuple_matches (product_id platform : string) (r : ReviewSnippet) :
  review_matches product_id platform (review_tuple product_id platform r) = true.
Proof.
  unfold review_matches, review_tuple. cbn. rewrite !String.eqb_refl. reflexivity.
Qed.

Lemma review_tuple_other (product_id platform retailer : string) (r : ReviewSnippet) :
  platform <> retailer ->
  review_matches product_id retailer (review_tuple product_id platform r) = false.
Proof.
  intros Hne. unfold review_matches, review_tuple. cbn.
  apply String.eqb_neq in Hne. rewrite Hne. apply andb_false_r.
Qed.

Lemma filter_all {A} (p : A -> bool) (l : list A) :
  (forall x, In x l -> p x = true) -> List.filter p l = l.
Proof.
  induction l as [|x l IH]; intros H; simpl; [reflexivity|].
  rewrite (H x (or_introl eq_refl)). f_equal. apply IH.
  intros y Hy. apply H. right. exact Hy.
Qed.

Lemma filter_none {A} (p : A -> bool) (l : list A) :
  (forall x, In x l -> p x = false) -> List.filter p l = [].
Proof.
  induction l as [|x l IH]; intros H; simpl; [reflexivity|].
  rewrite (H x (or_introl eq_refl)). apply IH.
  intros y Hy. apply H. right. exact Hy.
Qed.

Lemma filter_filter_neg {A} (p q : A -> bool) (l : list A) :
  (forall x, p x = true -> q x = false) ->
  List.filter p (List.filter (fun x => negb (q x)) l) = List.filter p l.
Proof.
  intros H. induction l as [|x l IH]; simpl; [reflexivity|].
  destruct (q x) eqn:Eq; simpl.
  - destruct (p x) eqn:Ep; [rewrite (H x Ep) in Eq; discriminate | exact IH].
  - rewrite IH. reflexivity.
Qed.

Lemma filter_neg_same {A} (p : A -> bool) (l : list A) :
  List.filter p (List.filter (fun x => negb (p x)) l) = [].
Proof.
  induction l as [|x l IH]; simpl; [reflexivity|].
  destruct (p x) eqn:Ep; simpl; [exact IH | rewrite Ep; exact IH].
Qed.

Lemma review_matches_exclusive (product_id platform retailer : string) (x : review_row) :
  platform <> retailer ->
  review_matches product_id retailer x = true ->
  review_matches product_id platform x = false.
Proof.
  intros Hne. unfold review_matches. rewrite andb_true_iff.
  intros [_ H]. apply String.eqb_eq in H. rewrite H.
  assert (E : (retailer =? platform)%string = false)
    by (apply String.eqb_neq; congruence).
  rewrite E. apply andb_false_r.
Qed.

(** The rows of one retailer after [store_platform_data] for the same
    retailer. *)
Lemma store_platform_data_same (product_id platform : string) (pd : PlatformData)
      (c c' : cursor) (u : unit) :
  store_platform_data env product_id platform pd c = Some (u, c') ->
  reviews_of product_id platform (pending c') =
    match reviews pd with
    | Some (r :: l) =>
        List.map (review_tuple product_id platform) (List.firstn 5 (r :: l))
    | _ => reviews_of product_id platform (pending c)
    end.
Proof.
  intros H. apply store_platform_data_reviews in H.
  unfold reviews_of. rewrite H.
  destruct (reviews pd) as [[|r l]|]; try reflexivity.
  rewrite List.filter_app, filter_neg_same. cbn [app].
  apply filter_all. intros x Hx. apply List.in_map_iff in Hx as (y & <- & _).
  apply review_tuple_matches.
Qed.

(** The rows of another retailer stay. *)
Lemma store_platform_data_other (product_id platform retailer : string) (pd : PlatformData)
      (c c' : cursor) (u : unit) :
  platform <> retailer ->
  store_platform_data env product_id platform pd c = Some (u, c') ->
  reviews_of product_id retailer (pending c') = reviews_of product_id retailer (pending c).
Proof.
  intros Hne H. apply store_platform_data_reviews in H.
  unfold reviews_of. rewrite H.
  destruct (reviews pd) as [[|r l]|]; try reflexivity.
  rewrite List.filter_app.
  rewrite filter_filter_neg
    by (intros x; apply review_matches_exclusive; exact Hne).
  rewrite (filter_none _ (List.map _ _)); [apply List.app_nil_r|].
  intros x Hx. apply List.in_map_iff in Hx as (y & <- & _).
  apply review_tuple_other. exact Hne.
Qed.

Lemma store_platforms_cons (product_id k : string) (v : platform_value)
      (rest : list (string * platform_value)) :
  store_platforms env product_id ((k, v) :: rest) =
    (store_entry env product_id k v ;; store_platforms env product_id rest).
Proof. reflexivity. Qed.

Lemma store_entry_other (product_id k retailer : string) (v : platform_value)
      (c c' : cursor) (u : unit) :
  k <> retailer ->
  store_entry env product_id k v c = Some (u, c') ->
  reviews_of product_id retailer (pending c') = reviews_of product_id retailer (pending c).
Proof.
  intros Hne H. unfold store_entry in H.
  destruct (String.eqb k "editorial").
  - unfold reviews_of. destruct v;
      try (apply ret_Some in H as [_ ->]; reflexivity).
    rewrite (keeps_reviews_editorial _ _ _ _ _ H). reflexivity.
  - destruct v; try (apply ret_Some in H as [_ ->]; reflexivity).
    apply (store_platform_data_other _ _ _ _ _ _ _ Hne H).
Qed.

(** Entries under other keys leave the rows of a retailer alone. *)
Lemma store_platforms_absent (product_id retailer : string)
      (ps : list (string * platform_value)) (c c' : cursor) (u : unit) :
  retailer ∉ List.map fst ps ->
  store_platforms env product_id ps c = Some (u, c') ->
  reviews_of product_id retailer (pending c') = reviews_of product_id retailer (pending c).
Proof.
  revert c. induction ps as [|[k v] ps IH]; intros c Hnot H.
  - apply ret_Some in H as [_ ->]. reflexivity.
  - rewrite store_platforms_cons in H.
    apply bind_Some in H as ([] & c1 & H1 & H2).
    cbn [List.map fst] in Hnot. apply not_elem_of_cons in Hnot as [Hne Hnot].
    rewrite (IH c1 Hnot H2).
    apply (store_entry_other _ k retailer v c c1 tt); [congruence | exact H1].
Qed.

(** The rows of a retailer after the loop over a dictionary that holds
    platform data with reviews under its key. *)
Lemma store_platforms_reviews (product_id retailer : string)
      (ps : list (string * platform_value)) (pd : PlatformData)
      (r : ReviewSnippet) (l : list ReviewSnippet) (c c' : cursor) (u : unit) :
  NoDup (List.map fst ps) ->
  retailer <> "editorial" ->
  PyDict.lookup retailer ps = Some (IsPlatformData pd) ->
  reviews pd = Some (r :: l) ->
  store_platforms env product_id ps c = Some (u, c') ->
  reviews_of product_id retailer (pending c') =
    List.map (review_tuple product_id retailer) (List.firstn 5 (r :: l)).
Proof.
  intros Hnd Hed. revert c.
  induction ps as [|[k v] ps IH]; intros c Hlook Hrev H; [discriminate|].
  rewrite store_platforms_cons in H.
  apply bind_Some in H as ([] & c1 & H1 & H2).
  cbn [List.map fst] in Hnd. apply NoDup_cons in Hnd as [Hk Hnd].
  cbn [PyDict.lookup] in Hlook.
  destruct (String.eqb retailer k) eqn:Ek.
  - apply String.eqb_eq in Ek. subst k. injection Hlook as ->.
    rewrite (store_platforms_absent _ _ _ _ _ _ Hk H2).
    unfold store_entry in H1.
    apply String.eqb_neq in Hed. rewrite Hed in H1.
    rewrite (store_platform_data_same _ _ _ _ _ _ H1), Hrev. reflexivity.
  - apply (IH Hnd c1 Hlook Hrev H2).
Qed.

(** The rows of a retailer after the loop over a dictionary that holds
    platform data under its key, with or without reviews. *)
Lemma store_platforms_reviews_or_kept (product_id retailer : string)
      (ps : list (string * platform_value)) (pd : PlatformData)
      (c c' : cursor) (u : unit) :
  NoDup (List.map fst ps) ->
  retailer <> "editorial" ->
  PyDict.lookup retailer ps = Some (IsPlatformData pd) ->
  store_platforms env product_id ps c = Some (u, c') ->
  reviews_of product_id retailer (pending c') =
    match reviews pd with
    | Some (r :: l) =>
        List.map (review_tuple product_id retailer) (List.firstn 5 (r :: l))
    | _ => reviews_of product_id retailer (pending c)
    end.
Proof.
  intros Hnd Hed. revert c.
  induction ps as [|[k v] ps IH]; intros c Hlook H; [discriminate|].
  rewrite store_platforms_cons in H.
  apply bind_Some in H as ([] & c1 & H1 & H2).
  cbn [List.map fst] in Hnd. apply NoDup_cons in Hnd as [Hk Hnd].
  cbn [PyDict.lookup] in Hlook.
  destruct (String.eqb retailer k) eqn:Ek.
  - apply String.eqb_eq in Ek. subst k. injection Hlook as ->.
    rewrite (store_platforms_absent _ _ _ _ _ _ Hk H2).
    unfold store_entry in H1.
    apply String.eqb_neq in Hed. rewrite Hed in H1.
    apply (store_platform_data_same _ _ _ _ _ _ H1).
  - rewrite (IH Hnd c1 Hlook H2).
    apply String.eqb_neq in Ek.
    destruct (reviews pd) as [[|r l]|]; try reflexivity;
      apply (store_entry_other _ k retailer v c c1 tt); congruence.
Qed.

Lemma store_statements_Some (product_id : string) (snap : RootSnapshot)
      (mn ph : string) (c c' : cursor) (u : unit) :
  store_statements env product_id snap mn ph c = Some (u, c') ->
  exists c1 c2,
    store_platforms env product_id (platforms snap) c = Some (tt, c1) /\
    store_specifications env product_id (specifications snap) c1 = Some (tt, c2) /\
    store_summary env product_id (summarized_review snap) mn ph c2 = Some (u, c').
Proof.
  unfold store_statements. intros H.
  apply bind_Some in H as ([] & c1 & H1 & H).
  apply bind_Some in H as ([] & c2 & H2 & H3).
  exists c1, c2. auto.
Qed.

Lemma store_snapshot_true (d d' : database) (product_id : string) (snap : RootSnapshot)
      (mn ph : string) :
  store_snapshot env d product_id snap mn ph = (Returned true, d') ->
  exists c, store_statements env product_id snap mn ph {| pending := d; executed := O |}
            = Some (tt, c) /\ d' = pending c.
Proof.
  unfold store_snapshot.
  destruct (connect_fails env); [discriminate|].
  destruct (store_statements _ _ _ _ _ _) as [[[] c]|]; [|discriminate].
  destruct (commit_fails env); [discriminate|].
  intros H. injection H as <-. exists c. auto.
Qed.

End Store.

(** ** The store: the properties of the specification *)

Section StoreProperties.
Import models db.

(** C1 (as the code has it): snapshot B holds platform data under a
    retailer key other than [editorial]; A is stored and then B, the
    second call succeeding.  When the platform data of B has at least one
    review, the [reviews] rows of that product and retailer are the
    tuples of the first five reviews of B in their order: at most five
    rows and none of A.  When it has no review, be it no list or an empty
    one, nothing is deleted: the rows are the ones that were there after
    the store of A. *)
Theorem C1_reviews_replaced_only_by_nonempty_reviews
        (envA envB : db_env) (d : database) (product_id retailer : string)
        (A B : RootSnapshot) (mnA phA mnB phB : string)
        (pd : PlatformData) (d2 : database) :
  NoDup (List.map fst (platforms B)) ->
  retailer <> "editorial" ->
  PyDict.lookup retailer (platforms B) = Some (IsPlatformData pd) ->
  store_snapshot envB (snd (store_snapshot envA d product_id A mnA phA))
                 product_id B mnB phB = (Returned true, d2) ->
  match reviews pd with
  | Some (r :: l) =>
      reviews_of product_id retailer d2
        = List.map (review_tuple product_id retailer) (List.firstn 5 (r :: l)) /\
      (List.length (reviews_of product_id retailer d2) <= 5)%nat
  | _ =>
      reviews_of product_id retailer d2
        = reviews_of product_id retailer (snd (store_snapshot envA d product_id A mnA phA))
  end.
Proof.
  intros Hnd Hed Hlook Hstore.
  apply store_snapshot_true in Hstore as (c & Hst & ->).
  apply store_statements_Some in Hst as (c1 & c2 & H1 & H2 & H3).
  assert (E : reviews_of product_id retailer (pending c)
              = reviews_of product_id retailer (pending c1)).
  { unfold reviews_of.
    rewrite (keeps_reviews_summary _ _ _ _ _ _ _ _ H3).
    rewrite (keeps_reviews_specifications _ _ _ _ _ _ H2). reflexivity. }
  rewrite E.
  rewrite (store_platforms_reviews_or_kept envB product_id retailer (platforms B) pd
             _ c1 tt Hnd Hed Hlook H1).
  destruct (reviews pd) as [[|r l]|]; try reflexivity.
  split; [reflexivity|].
  rewrite List.length_map. apply List.firstn_le_length.
Qed.

Lemma C1_witness :
  reviews_of "p1" "amazon"
    (snd (store_snapshot healthy
            (snd (store_snapshot healthy empty_database "p1" snapshot_A "m" "h"))
            "p1" snapshot_B "m" "h"))
    = [review_tuple "p1" "amazon" review_b].
Proof.
  refine (proj1 (C1_reviews_replaced_only_by_nonempty_reviews healthy healthy
                   empty_database "p1" "amazon" snapshot_A snapshot_B "m" "h" "m" "h"
                   (platform_with (Some [review_b])) _ _ _ _ _)).
  - apply NoDup_singleton.
  - discriminate.
  - reflexivity.
  - vm_compute. reflexivity.
Defined.

(** Storing A with one review and then a validated snapshot without
    reviews for the same retailer: both calls succeed and the row of A
    is still there, although the second snapshot has no review. *)
Lemma C1_counterexample :
  valid_RootSnapshot snapshot_A = true /\
  valid_RootSnapshot snapshot_without_reviews = true /\
  PyDict.lookup "amazon" (platforms snapshot_without_reviews)
    = Some (IsPlatformData (platform_with (Some []))) /\
  let first := store_snapshot healthy empty_database "p1" snapshot_A "m" "h" in
  let second := store_snapshot healthy (snd first) "p1" snapshot_without_reviews "m" "h" in
  fst first = Returned true /\
  fst second = Returned true /\
  reviews_of "p1" "amazon" (snd second) = [review_tuple "p1" "amazon" review_a].
Proof. cbv zeta. repeat split; vm_compute; reflexivity. Qed.



End StoreProperties.

(** ** Review ratings *)

Section ReviewRatings.
Import models db.
Local Open Scope Q_scope.

Lemma clamp_in_range (q : Q) : 0 <= py_max 0 (py_min 5 q) <= 5.
Proof.
  unfold py_max, py_min.
  destruct (Qlt_le_dec q 5) as [H5|H5]; destruct (Qlt_le_dec 0 _) as [H0|H0];
    split; try apply Qle_refl; try (apply Qlt_le_weak; assumption);
    try assumption; discriminate.
Qed.

Lemma clamp_inside (q : Q) : 0 < q -> q < 5 -> py_max 0 (py_min 5 q) = q.
Proof.
  intros H0 H5. unfold py_max, py_min.
  destruct (Qlt_le_dec q 5) as [H|H].
  - destruct (Qlt_le_dec 0 q) as [H'|H']; [reflexivity|].
    exfalso. apply (Qlt_irrefl 0). eapply Qlt_le_trans; eassumption.
  - exfalso. apply (Qlt_irrefl q). eapply Qlt_le_trans; eassumption.
Qed.

(** C10: for every review among the first five of a platform with
    reviews, [store_platform_data] writes the tuple of the review into
    [reviews]; its rating is NULL when the review's rating is zero, and
    for a rating above zero it is that rating clamped, a value between 0
    and 5 that is the rating itself when this lies below 5. *)
Theorem C10_zero_rating_stored_as_null
        (env : db_env) (product_id platform : string) (pd : PlatformData)
        (r : ReviewSnippet) (l : list ReviewSnippet) (review : ReviewSnippet)
        (c c' : cursor) :
  reviews pd = Some (r :: l) ->
  In review (List.firstn 5 (r :: l)) ->
  store_platform_data env product_id platform pd c = Some (tt, c') ->
  In (review_tuple product_id platform review) (reviews_table (pending c')) /\
  (forall q, rating review = Some q -> q == 0 ->
             v_rating (review_tuple product_id platform review) = None) /\
  (forall q, rating review = Some q -> 0 < q ->
             v_rating (review_tuple product_id platform review)
               = Some (py_max 0 (py_min 5 q)) /\
             0 <= py_max 0 (py_min 5 q) <= 5 /\
             (q < 5 -> py_max 0 (py_min 5 q) = q)).
Proof.
  intros Hrev Hin Hstore. split; [|split].
  - rewrite (store_platform_data_reviews env _ _ _ _ _ _ Hstore), Hrev.
    apply List.in_or_app. right. apply List.in_map. exact Hin.
  - intros q Hq Hzero. unfold review_tuple. cbn [v_rating]. rewrite Hq.
    apply Qeq_bool_iff in Hzero. rewrite Hzero. reflexivity.
  - intros q Hq Hpos. unfold review_tuple. cbn [v_rating]. rewrite Hq.
    destruct (Qeq_bool q 0) eqn:E.
    + apply Qeq_bool_iff in E. rewrite E in Hpos. discriminate.
    + split; [reflexivity|]. split; [apply clamp_in_range|].
      intros H5. apply clamp_inside; assumption.
Qed.

Lemma C10_witness :
  v_rating (review_tuple "p1" "amazon" review_b) = None /\
  v_rating (review_tuple "p1" "amazon" review_a) = Some (py_max 0 (py_min 5 (9 # 2))).
Proof.
  destruct (store_platform_data healthy "p1" "amazon"
              (platform_with (Some [review_b; review_a]))
              {| pending := empty_database; executed := O |}) as [[[] c']|] eqn:E;
    [|vm_compute in E; discriminate].
  split.
  - eapply (proj1 (proj2 (C10_zero_rating_stored_as_null healthy "p1" "amazon"
               (platform_with (Some [review_b; review_a])) review_b [review_a] review_b
               _ c' eq_refl (or_introl eq_refl) E)) 0); reflexivity.
  - eapply (proj1 (proj2 (proj2 (C10_zero_rating_stored_as_null healthy "p1" "amazon"
               (platform_with (Some [review_b; review_a])) review_b [review_a] review_a
               _ c' eq_refl (or_intror (or_introl eq_refl)) E)) (9 # 2) eq_refl eq_refl)).
Defined.

End ReviewRatings.

(** ** Parallel aggregation *)

Section Dictionaries.
Context {V : Type}.
Implicit Types (d o : list (string * V)) (k : string) (v : V).

Lemma lookup_set_eq k v d : PyDict.lookup k (PyDict.set k v d) = Some v.
Proof.
  induction d as [|[k' v'] d IH]; simpl.
  - rewrite String.eqb_refl. reflexivity.
  - destruct (String.eqb k k') eqn:E; simpl.
    + rewrite String.eqb_refl. reflexivity.
    + rewrite E. exact IH.
Qed.

Lemma lookup_set_ne k k' v d :
  k <> k' -> PyDict.lookup k (PyDict.set k' v d) = PyDict.lookup k d.
Proof.
  intros Hne. apply String.eqb_neq in Hne.
  induction d as [|[k2 v2] d IH]; simpl.
  - rewrite Hne. reflexivity.
  - destruct (String.eqb k' k2) eqn:E; simpl.
    + apply String.eqb_eq in E. subst k2. rewrite Hne. reflexivity.
    + destruct (String.eqb k k2); [reflexivity | exact IH].
Qed.

(** A key of the updated dictionary keeps a value: its own, or one the
    update brings. *)
Lemma lookup_update_old k v d o :
  PyDict.lookup k d = Some v ->
  exists v', PyDict.lookup k (PyDict.update d o) = Some v' /\ (v' = v \/ In (k, v') o).
Proof.
  unfold PyDict.update. revert d v.
  induction o as [|[k1 v1] o IH]; intros d v Hd; simpl.
  - exists v. auto.
  - destruct (String.string_dec k k1) as [->|Hne].
    + destruct (IH (PyDict.set k1 v1 d) v1 (lookup_set_eq _ _ _)) as (v' & Hv' & Hor).
      exists v'. split; [exact Hv'|]. right. destruct Hor as [->|Hin]; auto.
    + destruct (IH (PyDict.set k1 v1 d) v) as (v' & Hv' & Hor).
      * rewrite lookup_set_ne by exact Hne. exact Hd.
      * exists v'. split; [exact Hv'|]. destruct Hor; auto.
Qed.

(** A key that the update brings is there afterwards, with a value the
    update brings. *)
Lemma lookup_update_new k v d o :
  In (k, v) o ->
  exists v', PyDict.lookup k (PyDict.update d o) = Some v' /\ In (k, v') o.
Proof.
  unfold PyDict.update. revert d.
  induction o as [|[k1 v1] o IH]; intros d Hin; simpl; [destruct Hin|].
  destruct Hin as [Heq|Hin].
  - injection Heq as -> ->.
    destruct (lookup_update_old k v (PyDict.set k v d) o (lookup_set_eq _ _ _))
      as (v' & Hv' & Hor).
    exists v'. split; [exact Hv'|]. destruct Hor as [->|Ho]; auto.
  - destruct (IH (PyDict.set k1 v1 d) Hin) as (v' & Hv' & Ho).
    exists v'. auto.
Qed.

End Dictionaries.

Section ParallelAggregation.
Import parallel_llama.

Variable fetch_retail_chunk : string -> outcome json.
Variable fetch_brand_editorial_chunk : string -> outcome json.
Variable fetch_influencer_chunk : string -> outcome json.
Variable fetch_summary_chunk : string -> json -> outcome json.

Local Abbreviation fetcher_of :=
  (fetcher fetch_retail_chunk fetch_brand_editorial_chunk fetch_influencer_chunk).
Local Abbreviation collected :=
  (collect fetch_retail_chunk fetch_brand_editorial_chunk fetch_influencer_chunk).

Lemma chunk_name_inj (c c' : chunk) : chunk_name c = chunk_name c' -> c = c'.
Proof. destruct c, c'; simpl; intros H; try reflexivity; discriminate. Qed.

Lemma chunk_eq_dec (c c' : chunk) : {c = c'} + {c <> c'}.
Proof. decide equality. Qed.

Local Abbreviation kept_of :=
  (kept fetch_retail_chunk fetch_brand_editorial_chunk fetch_influencer_chunk).

Lemma future_result_kept (product_name : string) (c : chunk) :
  future_result fetch_retail_chunk fetch_brand_editorial_chunk fetch_influencer_chunk
                c product_name = Returned (kept_of product_name c).
Proof.
  unfold kept. destruct c; simpl;
    unfold _fetch_retail_wrapper, _fetch_editorial_wrapper, _fetch_influencer_wrapper, wrap;
    match goal with |- context [match ?x with _ => _ end] => destruct x end; reflexivity.
Qed.

Lemma collect_skips (product_name : string) (c : chunk) (completed : list chunk)
      (acc : list (string * json)) :
  ~ In c completed ->
  PyDict.lookup (chunk_name c) (collected completed product_name acc)
    = PyDict.lookup (chunk_name c) acc.
Proof.
  revert acc. induction completed as [|c' l IH]; intros acc Hnot; simpl; [reflexivity|].
  rewrite IH by (intros H; apply Hnot; right; exact H).
  apply lookup_set_ne. intros E. apply chunk_name_inj in E. apply Hnot. left. congruence.
Qed.

(** The result stored for a completed chunk does not depend on the
    order of completion. *)
Lemma collect_keeps (product_name : string) (c : chunk) (completed : list chunk)
      (acc : list (string * json)) :
  In c completed ->
  PyDict.lookup (chunk_name c) (collected completed product_name acc)
    = Some (kept_of product_name c).
Proof.
  revert acc. induction completed as [|c' l IH]; intros acc Hin; [destruct Hin|].
  simpl. destruct (in_dec chunk_eq_dec c l) as [Hl|Hl].
  - apply IH. exact Hl.
  - destruct Hin as [->|Hin]; [|contradiction].
    rewrite collect_skips by exact Hl.
    rewrite future_result_kept. apply lookup_set_eq.
Qed.

Lemma merge_platforms_partial (acc : list (string * json)) (d : json) :
  partial_record d = true ->
  merge_platforms acc d = Returned (PyDict.update acc (platforms_of d)).
Proof.
  unfold partial_record, merge_platforms, platforms_of, py_get.
  destruct d as [| | | | | |m]; try discriminate.
  cbn. destruct (PyDict.lookup "platforms" m) as [v|]; [|reflexivity].
  destruct v as [| | | | | |p]; cbn; intros H;
    try (apply negb_true_iff in H; cbn in H; rewrite H; reflexivity);
    try reflexivity.
  destruct p; reflexivity.
Qed.

(** C4 (as the code has it): when one of the three fetchers raises, the
    other two return partial records (dictionaries whose [platforms], if
    any, is a dictionary or falsy) and the synthesis returns a
    dictionary, the aggregation returns the merged snapshot, in whatever
    order the tasks complete.  The failed segment counts as the empty record, also in the
    input of the synthesis; [platforms] is the union of the platforms of
    the records, so every platform key of a successful segment is in it,
    with a value that a successful segment gave for that key. *)
Theorem C4_one_failed_segment_degrades_to_empty
        (completed : list chunk) (product_name : string) (failed : chunk) (e : exn)
        (records : chunk -> json) (summary_data : json) :
  Permutation completed parallel_tasks ->
  fetcher_of failed product_name = Raised e ->
  records failed = JObj [] ->
  (forall c, c <> failed ->
             fetcher_of c product_name = Returned (records c) /\
             partial_record (records c) = true) ->
  fetch_summary_chunk product_name (all_platform_data records) = Returned summary_data ->
  is_dict summary_data = true ->
  exists product_identity specifications summarized_review citations,
    fetch_product_snapshot_parallel fetch_retail_chunk fetch_brand_editorial_chunk
      fetch_influencer_chunk fetch_summary_chunk completed product_name
    = Returned (JObj [ ("product_identity", product_identity);
                       ("platforms", JObj (merged_platforms records));
                       ("specifications", specifications);
                       ("summarized_review", summarized_review);
                       ("citations", citations) ]) /\
    result_of (collected completed product_name []) failed = JObj [] /\
    (forall c k v,
        c <> failed ->
        In (k, v) (platforms_of (records c)) ->
        exists v' c',
          PyDict.lookup k (merged_platforms records) = Some v' /\
          c' <> failed /\ In (k, v') (platforms_of (records c'))).
Proof.
  intros Hperm Hfail Hempty Hok Hsum Hdict.
  assert (Hkept : forall c, kept_of product_name c = records c).
  { intros c. unfold kept. destruct (chunk_eq_dec c failed) as [->|Hne].
    - rewrite Hfail, Hempty. reflexivity.
    - destruct (Hok c Hne) as [-> _]. reflexivity. }
  assert (Hres : forall c, result_of (collected completed product_name []) c = records c).
  { intros c. unfold result_of. rewrite collect_keeps.
    - apply Hkept.
    - apply (Permutation_in _ (Permutation_sym Hperm)). destruct c; simpl; auto. }
  assert (Hpart : forall c, partial_record (records c) = true).
  { intros c. destruct (chunk_eq_dec c failed) as [->|Hne].
    - rewrite Hempty. reflexivity.
    - apply (Hok c Hne). }
  destruct summary_data as [| | | | | |sm]; try discriminate.
  unfold fetch_product_snapshot_parallel. rewrite !Hres.
  change (JObj [("retail", records Retail); ("editorial", records Editorial);
                ("influencer", records Influencer)])
    with (all_platform_data records).
  rewrite Hsum. cbn [mbind outcome_bind].
  unfold _merge_parallel_results. cbn [py_get mbind outcome_bind].
  rewrite !Hres.
  rewrite (merge_platforms_partial [] _ (Hpart Retail)). cbn [mbind outcome_bind].
  rewrite (merge_platforms_partial _ _ (Hpart Editorial)). cbn [mbind outcome_bind].
  rewrite (merge_platforms_partial _ _ (Hpart Influencer)). cbn [mbind outcome_bind].
  do 4 eexists. split; [reflexivity|]. split; [exact Hempty|].
  intros c k v Hc Hin. unfold merged_platforms.
  assert (Hnone : platforms_of (records failed) = []) by (rewrite Hempty; reflexivity).
  assert (Hsrc : forall c0 v0, In (k, v0) (platforms_of (records c0)) -> c0 <> failed).
  { intros c0 v0 H0 ->. rewrite Hnone in H0. destruct H0. }
  set (P := fun c0 => platforms_of (records c0)) in *.
  assert (Hstep : forall d o,
             (exists v1, PyDict.lookup k d = Some v1 /\ exists c1, In (k, v1) (P c1)) ->
             forall c2, o = P c2 ->
             exists v1, PyDict.lookup k (PyDict.update d o) = Some v1 /\
                        exists c1, In (k, v1) (P c1)).
  { intros d o (v1 & Hv1 & c1 & Hc1) c2 ->.
    destruct (lookup_update_old k v1 d (P c2) Hv1) as (v2 & Hv2 & [->|Hin2]).
    - exists v1. split; [exact Hv2 | exists c1; exact Hc1].
    - exists v2. split; [exact Hv2 | exists c2; exact Hin2]. }
  assert (Hnew : forall d c2, In (k, v) (P c2) ->
             exists v1, PyDict.lookup k (PyDict.update d (P c2)) = Some v1 /\
                        exists c1, In (k, v1) (P c1)).
  { intros d c2 H2. destruct (lookup_update_new k v d (P c2) H2) as (v1 & Hv1 & Hin1).
    exists v1. split; [exact Hv1 | exists c2; exact Hin1]. }
  assert (Hfinal : exists v1,
             PyDict.lookup k (PyDict.update (PyDict.update (PyDict.update [] (P Retail))
                                              (P Editorial)) (P Influencer)) = Some v1 /\
             exists c1, In (k, v1) (P c1)).
  { destruct c.
    - apply (Hstep _ _ (Hstep _ _ (Hnew [] Retail Hin) Editorial eq_refl) Influencer eq_refl).
    - apply (Hstep _ _ (Hnew _ Editorial Hin) Influencer eq_refl).
    - apply (Hnew _ Influencer Hin). }
  destruct Hfinal as (v1 & Hv1 & c1 & Hc1).
  exists v1, c1. split; [exact Hv1|]. split; [apply (Hsrc c1 v1 Hc1) | exact Hc1].
Qed.

End ParallelAggregation.

Section ParallelAggregationExample.
Import parallel_llama.

(** A run in which the editorial fetcher fails and the tasks complete
    in the order influencer, retail, editorial. *)
Lemma C4_witness :
  exists final,
    fetch_product_snapshot_parallel
      (fun _ => Returned retail_record)
      (fun _ => Raised TransportFailure)
      (fun _ => Returned influencer_record)
      (fun _ _ => Returned summary_record)
      [Influencer; Retail; Editorial] "Hydrating Serum X" = Returned final /\
    PyDict.lookup "platforms" match final with JObj m => m | _ => [] end
      = Some (JObj (merged_platforms records_without_editorial)).
Proof.
  destruct (C4_one_failed_segment_degrades_to_empty
              (fun _ => Returned retail_record)
              (fun _ => Raised TransportFailure)
              (fun _ => Returned influencer_record)
              (fun _ _ => Returned summary_record)
              [Influencer; Retail; Editorial] "Hydrating Serum X" Editorial
              TransportFailure records_without_editorial summary_record)
    as (pi & sp & sr & ci & Hrun & _).
  - unfold parallel_tasks.
    apply perm_trans with (l' := [Retail; Influencer; Editorial]);
      [apply perm_swap | apply perm_skip, perm_swap].
  - reflexivity.
  - reflexivity.
  - intros c Hc. destruct c; [split; reflexivity | contradiction | split; reflexivity].
  - reflexivity.
  - reflexivity.
  - eexists. split; [exact Hrun | reflexivity].
Defined.

(** Without the condition on the records the run can still abort: the
    editorial fetcher raises the transport failure, the other two
    fetchers and the synthesis return, but the retail record has a text
    as its [platforms]; [update] raises on it and the aggregation raises
    with it. *)
Lemma C4_counterexample :
  fetch_product_snapshot_parallel
    (fun _ => Returned (JObj [("platforms", JStr "abc")]))
    (fun _ => Raised TransportFailure)
    (fun _ => Returned influencer_record)
    (fun _ _ => Returned summary_record)
    [Retail; Editorial; Influencer] "Hydrating Serum X"
  = Raised ValueError.
Proof. vm_compute. reflexivity. Qed.

End ParallelAggregationExample.

(** * Further properties of the code *)

Import notions.

(** ** String primitives *)

Section StringFacts.

Lemma length_le_utf8_len (s : string) : Z.of_nat (String.length s) <= PyStr.utf8_len s.
Proof.
  induction s as [|c s IH]; simpl String.length; simpl PyStr.utf8_len; [lia|].
  destruct (PyStr.code c <? 128); lia.
Qed.

Lemma take_take (j k : nat) (s : string) :
  PyStr.take j (PyStr.take k s) = PyStr.take (Nat.min j k) s.
Proof.
  revert k s. induction j as [|j IH]; intros [|k] [|c s]; simpl; try reflexivity.
  rewrite IH. reflexivity.
Qed.

Lemma take_all (n : nat) (s : string) : (String.length s <= n)%nat -> PyStr.take n s = s.
Proof.
  revert s. induction n as [|n IH]; intros [|c s] H; simpl in *; try reflexivity; try lia.
  rewrite IH by lia. reflexivity.
Qed.

Lemma drop_drop (a b : nat) (s : string) :
  PyStr.drop a (PyStr.drop b s) = PyStr.drop (b + a) s.
Proof.
  revert s. induction b as [|b IH]; intros s; simpl; [reflexivity|].
  destruct s as [|c s]; [destruct a; reflexivity | apply IH].
Qed.

Lemma length_drop (n : nat) (s : string) :
  String.length (PyStr.drop n s) = (String.length s - n)%nat.
Proof.
  revert s. induction n as [|n IH]; intros [|c s]; simpl; try lia. apply IH.
Qed.

Lemma slice_to_nonneg (s : string) (n : Z) :
  0 <= n -> PyStr.slice_to s n = PyStr.take (Nat.min (String.length s) (Z.to_nat n)) s.
Proof.
  intros Hn. unfold PyStr.slice_to, PyStr.bound, PyStr.len.
  destruct (n <? 0) eqn:E; [apply Z.ltb_lt in E; lia|].
  f_equal. lia.
Qed.

Lemma prefix_take (sub s : string) (j : nat) :
  String.prefix sub (PyStr.take j s) = true -> String.prefix sub s = true.
Proof.
  revert s j. induction sub as [|a sub IH]; intros s j H; [destruct s; reflexivity|].
  destruct s as [|c s]; [destruct j; discriminate|].
  destruct j as [|j]; [discriminate|].
  simpl in *. destruct (ascii_dec a c); [|discriminate]. apply (IH s j H).
Qed.

(** A search that starts at a position that is not negative answers -1
    or a position from there on, where the text searched for begins. *)
Lemma find_aux_found (sub s : string) (pos : Z) :
  0 <= pos ->
  PyStr.find_aux sub s pos = -1 \/
  exists k : nat,
    PyStr.find_aux sub s pos = pos + Z.of_nat k /\
    (k <= String.length s)%nat /\
    String.prefix sub (PyStr.drop k s) = true.
Proof.
  revert pos. induction s as [|c s IH]; intros pos Hpos.
  - cbn [PyStr.find_aux]. destruct (String.prefix sub "") eqn:E; [|left; reflexivity].
    right. exists O. cbn [PyStr.drop String.length]. rewrite E. repeat split; lia.
  - cbn [PyStr.find_aux]. destruct (String.prefix sub (String c s)) eqn:E.
    + right. exists O. cbn [PyStr.drop]. rewrite E. simpl. repeat split; lia.
    + destruct (IH (pos + 1)) as [H|(k & Hk & Hlen & Hpre)]; [lia | left; exact H |].
      right. exists (S k). cbn [PyStr.drop]. simpl String.length.
      repeat split; [lia | lia | exact Hpre].
Qed.

(** Nothing found: the text searched for begins nowhere. *)
Lemma find_aux_none (sub s : string) (pos : Z) (k : nat) :
  0 <= pos ->
  PyStr.find_aux sub s pos = -1 ->
  String.prefix sub (PyStr.drop k s) = false.
Proof.
  revert pos k. induction s as [|c s IH]; intros pos k Hpos H.
  - cbn [PyStr.find_aux] in H. destruct k; cbn [PyStr.drop];
      destruct (String.prefix sub "") eqn:E; try reflexivity; lia.
  - cbn [PyStr.find_aux] in H. destruct (String.prefix sub (String c s)) eqn:E; [lia|].
    destruct k as [|k]; [exact E|]. cbn [PyStr.drop]. apply (IH (pos + 1)); [lia | exact H].
Qed.

Lemma find_from_start (s sub : string) (start : Z) :
  0 <= start ->
  PyStr.find s sub start = -1 \/
  exists n : nat,
    PyStr.find s sub start = Z.of_nat n /\
    start <= Z.of_nat n /\ (n <= String.length s)%nat /\
    String.prefix sub (PyStr.drop n s) = true.
Proof.
  intros Hs. unfold PyStr.find, PyStr.len.
  destruct (start <? 0) eqn:E; [apply Z.ltb_lt in E; lia|].
  destruct (Z.of_nat (String.length s) <? start) eqn:E2; [left; reflexivity|].
  apply Z.ltb_ge in E2.
  destruct (find_aux_found sub (PyStr.drop (Z.to_nat start) s) start Hs)
    as [H|(k & Hk & Hlen & Hpre)]; [left; exact H|].
  right. exists (Z.to_nat start + k)%nat. rewrite Hk.
  rewrite length_drop in Hlen. rewrite drop_drop in Hpre.
  repeat split; [lia | lia | lia | exact Hpre].
Qed.

Lemma rfind_aux_found (sub s : string) (pos : Z) :
  0 <= pos ->
  PyStr.rfind_aux sub s pos = -1 \/
  exists k : nat,
    PyStr.rfind_aux sub s pos = pos + Z.of_nat k /\
    (k <= String.length s)%nat /\
    String.prefix sub (PyStr.drop k s) = true.
Proof.
  revert pos. induction s as [|c s IH]; intros pos Hpos.
  - cbn [PyStr.rfind_aux]. destruct (String.prefix sub "") eqn:E; [|left; reflexivity].
    right. exists O. cbn [PyStr.drop String.length]. rewrite E. repeat split; lia.
  - cbn [PyStr.rfind_aux].
    destruct (IH (pos + 1)) as [H|(k & Hk & Hlen & Hpre)]; [lia | |].
    + rewrite H. change (0 <=? -1) with false. cbv iota.
      destruct (String.prefix sub (String c s)) eqn:E; [|left; reflexivity].
      right. exists O. cbn [PyStr.drop]. rewrite E. simpl. repeat split; lia.
    + rewrite Hk. destruct (0 <=? pos + 1 + Z.of_nat k) eqn:E; [|apply Z.leb_gt in E; lia].
      right. exists (S k). cbn [PyStr.drop]. simpl String.length.
      repeat split; [lia | lia | exact Hpre].
Qed.

Lemma prefix_quote_get (s : string) (n : nat) :
  String.prefix json_repair.quote (PyStr.drop n s) = true ->
  (n < String.length s)%nat /\ String.get n s = Some (ascii_of_nat 34).
Proof.
  revert s. induction n as [|n IH]; intros [|c s] H; cbn [PyStr.drop] in H.
  - discriminate.
  - unfold json_repair.quote in H. cbn [String.prefix] in H.
    destruct (ascii_dec (ascii_of_nat 34) c) as [Hc|]; [|discriminate]. subst c.
    simpl. split; [lia | reflexivity].
  - discriminate.
  - destruct (IH s H) as [Hlt Hget]. simpl. split; [lia | exact Hget].
Qed.

End StringFacts.

(** ** The repair parser, further *)

Section RepairParserFurther.
Import json_repair.
Variable json_loads : string -> option json.

Lemma drop_last_take (k : nat) (raw : string) :
  (k <= String.length raw)%nat ->
  PyStr.slice_to (PyStr.take k raw) (-1) = PyStr.take (Nat.pred k) raw.
Proof.
  intros Hk. unfold PyStr.slice_to, PyStr.bound, PyStr.len.
  rewrite length_take. change (-1 <? 0) with true. cbv iota.
  rewrite take_take. f_equal. lia.
Qed.

(** The loop of step 1, started on the first [k] characters, stops at the
    longest of the prefixes of at most [k] characters that fit into the
    limit. *)
Lemma truncate_loop_longest (fuel k : nat) (raw t : string) (max_bytes : Z) :
  0 <= max_bytes ->
  (k <= String.length raw)%nat ->
  truncate_loop fuel (PyStr.take k raw) max_bytes = Some t ->
  exists j, (j <= k)%nat /\ t = PyStr.take j raw /\
            PyStr.utf8_len t <= max_bytes /\
            forall i, (j < i <= k)%nat -> max_bytes < PyStr.utf8_len (PyStr.take i raw).
Proof.
  intros Hmb. revert k.
  induction fuel as [|fuel IH]; intros k Hk H; [discriminate|].
  cbn [truncate_loop] in H.
  destruct (max_bytes <? PyStr.utf8_len (PyStr.take k raw)) eqn:E.
  - apply Z.ltb_lt in E. rewrite drop_last_take in H by exact Hk.
    destruct (IH (Nat.pred k)) as (j & Hj & Ht & Hfit & Hlong); [lia | exact H|].
    exists j. repeat split; [lia | exact Ht | exact Hfit|].
    intros i Hi. destruct (Nat.eq_dec i k) as [->|Hne]; [exact E|].
    apply Hlong. lia.
  - apply Z.ltb_ge in E. injection H as <-.
    exists k. repeat split; [lia | exact E|]. intros i Hi. lia.
Qed.

Lemma truncation_longest_prefix (fuel : nat) (raw : string) (max_bytes : Z) :
  0 <= max_bytes ->
  (String.length raw < fuel)%nat ->
  exists j,
    truncate_loop fuel (PyStr.slice_to raw max_bytes) max_bytes = Some (PyStr.take j raw) /\
    PyStr.utf8_len (PyStr.take j raw) <= max_bytes /\
    forall i, (i <= String.length raw)%nat ->
              PyStr.utf8_len (PyStr.take i raw) <= max_bytes -> (i <= j)%nat.
Proof.
  intros Hmb Hfuel. rewrite slice_to_nonneg by exact Hmb.
  set (k := Nat.min (String.length raw) (Z.to_nat max_bytes)).
  destruct (truncate_loop_finishes fuel (PyStr.take k raw) max_bytes Hmb) as [t Ht].
  { rewrite length_take. lia. }
  destruct (truncate_loop_longest fuel k raw t max_bytes Hmb) as (j & Hj & -> & Hfit & Hlong);
    [subst k; lia | exact Ht|].
  exists j. repeat split; [exact Ht | exact Hfit|].
  intros i Hi Hifit.
  destruct (Nat.le_gt_cases i j) as [Hle|Hgt]; [exact Hle|].
  destruct (Nat.le_gt_cases i k) as [Hik|Hik].
  - specialize (Hlong i (conj Hgt Hik)). lia.
  - pose proof (length_le_utf8_len (PyStr.take i raw)) as Hlen.
    rewrite length_take in Hlen. subst k. lia.
Qed.



(** X2: step 1 cuts whole characters only and keeps as many as fit: the
    text the truncation loop leaves is the longest prefix of the input
    whose UTF-8 encoding has at most [max_bytes] bytes. *)
Theorem X2_truncation_keeps_longest_prefix
        (fuel : nat) (raw : string) (max_bytes : Z) :
  0 <= max_bytes ->
  (String.length raw < fuel)%nat ->
  exists j,
    truncate_loop fuel (PyStr.slice_to raw max_bytes) max_bytes = Some (PyStr.take j raw) /\
    PyStr.utf8_len (PyStr.take j raw) <= max_bytes /\
    forall i, (i <= String.length raw)%nat ->
              PyStr.utf8_len (PyStr.take i raw) <= max_bytes -> (i <= j)%nat.
Proof. apply truncation_longest_prefix. Qed.

Lemma prefix_drop_take (sub s : string) (j n : nat) :
  String.prefix sub (PyStr.drop n (PyStr.take j s)) = true ->
  String.prefix sub (PyStr.drop n s) = true.
Proof.
  revert s j. induction n as [|n IH]; intros s j H.
  - cbn [PyStr.drop] in *. apply (prefix_take _ _ _ H).
  - destruct s as [|c s].
    + destruct j; exact H.
    + destruct j as [|j]; cbn [PyStr.take PyStr.drop] in *.
      * destruct sub; [|discriminate]. destruct (PyStr.drop n s); reflexivity.
      * apply (IH s j H).
Qed.

Lemma contains_take (s sub : string) (j : nat) :
  PyStr.contains s sub = false -> PyStr.find (PyStr.take j s) sub 0 = -1.
Proof.
  unfold PyStr.contains. intros H. apply Z.leb_gt in H.
  destruct (find_from_start (PyStr.take j s) sub 0) as [H1|(n & Hn & _ & Hlen & Hpre)];
    [lia | exact H1 | exfalso].
  assert (Hs : PyStr.find s sub 0 = -1).
  { destruct (find_from_start s sub 0) as [H1|(m & Hm & _)]; [lia | exact H1 | lia]. }
  revert Hs. unfold PyStr.find, PyStr.len. cbn [Z.ltb Z.compare].
  change (0 <? 0) with false. cbv iota.
  destruct (Z.of_nat (String.length s) <? 0) eqn:E; [apply Z.ltb_lt in E; lia|].
  cbn [Z.to_nat PyStr.drop]. intros Hs.
  assert (Hp : String.prefix sub (PyStr.drop n s) = true)
    by (apply (prefix_drop_take _ _ _ _ Hpre)).
  rewrite (find_aux_none sub s 0 n) in Hp; [discriminate | lia | exact Hs].
Qed.

(** X3: a text without an opening brace is not repaired: the parser
    returns [None] of Python (the value [JNull]), whatever the limit (not
    negative) cut from it. *)
Theorem X3_no_opening_brace_gives_none (raw : string) (max_bytes : Z) :
  0 <= max_bytes ->
  PyStr.contains raw "{" = false ->
  try_repair_to_json json_loads (S (String.length raw)) raw max_bytes = Some JNull.
Proof.
  intros Hmb Hno. unfold try_repair_to_json.
  destruct (negb (PyStr.nonempty raw)); [reflexivity|].
  assert (Hsteps : forall j, repair_steps json_loads (PyStr.take j raw) = JNull).
  { intros j. unfold repair_steps. rewrite (contains_take raw "{" j Hno). reflexivity. }
  destruct (max_bytes <? PyStr.utf8_len raw).
  - destruct (truncation_longest_prefix (S (String.length raw)) raw max_bytes Hmb)
      as (j & -> & _); [lia|].
    rewrite Hsteps. reflexivity.
  - pose proof (Hsteps (String.length raw)) as Hs.
    rewrite take_all in Hs by lia. rewrite Hs. reflexivity.
Qed.



End RepairParserFurther.

(** ** The repair parser and the exceptions of the decoder *)

Section DecoderExceptions.
Import json_repair.
Variable json_loads : string -> json_decoder.loaded.

Local Abbreviation passed_on e :=
  (exists s, json_loads s = json_decoder.Fails e).

Lemma repair_steps_escapes (raw : string) (e : json_decoder.load_error) :
  json_decoder.repair_steps json_loads raw = json_decoder.Escapes e ->
  json_decoder.is_ValueError e = false /\ passed_on e.
Proof.
  unfold json_decoder.repair_steps. cbv zeta.
  destruct (PyStr.find raw "{" 0 =? -1); [discriminate|].
  match goal with |- context [match ?x with Some _ => _ | None => json_decoder.Value JNull end] =>
    destruct x as [t|] end; [|discriminate].
  destruct (json_loads (remove_trailing_commas (remove_control t))) as [v|e'] eqn:E;
    [discriminate|].
  destruct (json_decoder.is_ValueError e') eqn:Ev; [discriminate|].
  intros H. injection H as <-. split; [exact Ev | eexists; exact E].
Qed.

Lemma try_repair_to_json_returns_or_passes_on (raw : string) (max_bytes : Z) :
  0 <= max_bytes ->
  exists r,
    json_decoder.try_repair_to_json json_loads (S (String.length raw)) raw max_bytes = Some r /\
    forall e, r = json_decoder.Escapes e ->
              json_decoder.is_ValueError e = false /\ passed_on e.
Proof.
  intros Hpos. unfold json_decoder.try_repair_to_json.
  destruct (negb (PyStr.nonempty raw)); [eexists; split; [reflexivity | discriminate]|].
  destruct (max_bytes <? PyStr.utf8_len raw).
  - destruct (truncate_loop_finishes (S (String.length raw))
                (PyStr.slice_to raw max_bytes) max_bytes Hpos) as [t' Ht'].
    + unfold PyStr.slice_to. rewrite length_take. lia.
    + rewrite Ht'. eexists. split; [reflexivity|]. apply repair_steps_escapes.
  - eexists. split; [reflexivity|]. apply repair_steps_escapes.
Qed.

Lemma first_decodable_escapes (matches : list string) (e : json_decoder.load_error) :
  json_decoder.first_decodable json_loads matches = Some (json_decoder.Escapes e) ->
  json_decoder.is_JSONDecodeError e = false /\ passed_on e.
Proof.
  induction matches as [|m rest IH]; cbn [json_decoder.first_decodable]; [discriminate|].
  destruct (json_loads m) as [v|e'] eqn:E; [discriminate|].
  destruct (json_decoder.is_JSONDecodeError e') eqn:Ej; [exact IH|].
  intros H. injection H as <-. split; [exact Ej | eexists; exact E].
Qed.

Lemma not_ValueError_not_JSONDecodeError (e : json_decoder.load_error) :
  json_decoder.is_ValueError e = false -> json_decoder.is_JSONDecodeError e = false.
Proof. destruct e; [discriminate | discriminate | reflexivity]. Qed.

(** X1: with a limit that is not negative both entry points of the repair
    parser end on every text, whatever [json.loads] does; fuel beyond the
    length of the text is enough for the truncation loop.  They return a
    value or [None], or an exception leaves them, and that only when
    [json.loads] raised it and no clause catches it: for
    [try_repair_to_json] an exception that is no [ValueError], for
    [safe_json_parse] one that is no [json.JSONDecodeError].  So with a
    decoder that raises only [json.JSONDecodeError] both return. *)
Theorem X1_repair_parser_returns_or_passes_on
        (raw : string) (max_bytes : Z) :
  0 <= max_bytes ->
  (exists r,
      json_decoder.try_repair_to_json json_loads (S (String.length raw)) raw max_bytes
        = Some r /\
      forall e, r = json_decoder.Escapes e ->
                json_decoder.is_ValueError e = false /\ passed_on e) /\
  (exists r,
      json_decoder.safe_json_parse json_loads (S (String.length raw)) raw max_bytes
        = Some r /\
      forall e, r = json_decoder.Escapes e ->
                json_decoder.is_JSONDecodeError e = false /\ passed_on e).
Proof.
  intros Hmb. split; [apply try_repair_to_json_returns_or_passes_on; exact Hmb|].
  assert (Hthird : exists r,
             match json_decoder.try_repair_to_json json_loads (S (String.length raw))
                     raw max_bytes with
             | None => None
             | Some (json_decoder.Escapes e') => Some (json_decoder.Escapes e')
             | Some (json_decoder.Value result) =>
                 if truthy result then Some (json_decoder.Value result)
                 else Some (json_decoder.Value JNull)
             end = Some r /\
             forall e, r = json_decoder.Escapes e ->
                       json_decoder.is_JSONDecodeError e = false /\ passed_on e).
  { destruct (try_repair_to_json_returns_or_passes_on raw max_bytes Hmb) as (r & -> & Hr).
    destruct r as [v|e'].
    - destruct (truthy v); eexists; (split; [reflexivity | discriminate]).
    - eexists. split; [reflexivity|]. intros e H. injection H as <-.
      destruct (Hr e' eq_refl) as [Hv Hp].
      split; [apply not_ValueError_not_JSONDecodeError; exact Hv | exact Hp]. }
  unfold json_decoder.safe_json_parse.
  destruct (negb (PyStr.nonempty raw)); [eexists; split; [reflexivity | discriminate]|].
  destruct (json_loads raw) as [v|e0] eqn:E0;
    [eexists; split; [reflexivity | discriminate]|].
  destruct (json_decoder.is_JSONDecodeError e0) eqn:Ej0.
  2:{ eexists. split; [reflexivity|]. intros e H. injection H as <-.
      split; [exact Ej0 | eexists; exact E0]. }
  assert (Hsecond : exists r,
             json_decoder.extract_json_from_markdown json_loads (S (String.length raw)) raw
               = Some r /\
             forall e, r = json_decoder.Escapes e ->
                       json_decoder.is_JSONDecodeError e = false /\ passed_on e).
  { unfold json_decoder.extract_json_from_markdown.
    destruct (negb (PyStr.nonempty raw)); [eexists; split; [reflexivity | discriminate]|].
    destruct (json_decoder.first_decodable json_loads (findall_fenced raw)) as [r|] eqn:Ef.
    - exists r. split; [reflexivity|]. intros e ->. apply (first_decodable_escapes _ _ Ef).
    - destruct (try_repair_to_json_returns_or_passes_on raw 300000) as (r & -> & Hr); [lia|].
      exists r. split; [reflexivity|]. intros e He. destruct (Hr e He) as [Hv Hp].
      split; [apply not_ValueError_not_JSONDecodeError; exact Hv | exact Hp]. }
  destruct Hsecond as (r2 & -> & Hr2).
  destruct r2 as [v2|e2].
  - destruct (truthy v2); [eexists; split; [reflexivity | discriminate]|].
    exact Hthird.
  - eexists. split; [reflexivity|]. intros e H. injection H as <-. apply Hr2. reflexivity.
Qed.

(** For a decoder that raises nothing but [json.JSONDecodeError] the
    functions of [json_decoder] are those of [json_repair]. *)
Lemma try_repair_to_json_plain_decoder (fuel : nat) (raw : string) (max_bytes : Z) :
  (forall s e, json_loads s = json_decoder.Fails e -> e = json_decoder.JSONDecodeError) ->
  json_decoder.try_repair_to_json json_loads fuel raw max_bytes
  = option_map json_decoder.Value
      (try_repair_to_json (json_decoder.decode_or_none json_loads) fuel raw max_bytes).
Proof.
  intros Hplain.
  assert (Hsteps : forall t,
             json_decoder.repair_steps json_loads t
             = json_decoder.Value (repair_steps (json_decoder.decode_or_none json_loads) t)).
  { intros t. unfold json_decoder.repair_steps, repair_steps. cbv zeta.
    destruct (PyStr.find t "{" 0 =? -1); [reflexivity|].
    match goal with |- context [match ?x with Some _ => _ | None => json_decoder.Value JNull end] =>
      destruct x as [u|] end; [|reflexivity].
    unfold json_decoder.decode_or_none.
    destruct (json_loads (remove_trailing_commas (remove_control u))) as [v|e] eqn:E;
      [reflexivity|].
    rewrite (Hplain _ _ E). reflexivity. }
  unfold json_decoder.try_repair_to_json, try_repair_to_json.
  destruct (negb (PyStr.nonempty raw)); [reflexivity|].
  destruct (max_bytes <? PyStr.utf8_len raw).
  - destruct (truncate_loop fuel (PyStr.slice_to raw max_bytes) max_bytes); [|reflexivity].
    cbn [option_map]. rewrite Hsteps. reflexivity.
  - cbn [option_map]. rewrite Hsteps. reflexivity.
Qed.

Lemma safe_json_parse_plain_decoder (fuel : nat) (raw : string) (max_bytes : Z) :
  (forall s e, json_loads s = json_decoder.Fails e -> e = json_decoder.JSONDecodeError) ->
  json_decoder.safe_json_parse json_loads fuel raw max_bytes
  = option_map json_decoder.Value
      (safe_json_parse (json_decoder.decode_or_none json_loads) fuel raw max_bytes).
Proof.
  intros Hplain.
  assert (Hfirst : forall l,
             json_decoder.first_decodable json_loads l
             = option_map json_decoder.Value
                 (first_decodable (json_decoder.decode_or_none json_loads) l)).
  { induction l as [|m rest IH]; cbn [json_decoder.first_decodable first_decodable];
      [reflexivity|].
    unfold json_decoder.decode_or_none at 1.
    destruct (json_loads m) as [v|e] eqn:E; [reflexivity|].
    rewrite (Hplain _ _ E). exact IH. }
  unfold json_decoder.safe_json_parse, safe_json_parse,
    json_decoder.extract_json_from_markdown, extract_json_from_markdown.
  destruct (negb (PyStr.nonempty raw)); [reflexivity|].
  unfold json_decoder.decode_or_none at 1.
  destruct (json_loads raw) as [v|e] eqn:E; [reflexivity|].
  rewrite (Hplain _ _ E). cbn [json_decoder.is_JSONDecodeError].
  rewrite Hfirst, !try_repair_to_json_plain_decoder by exact Hplain.
  destruct (first_decodable (json_decoder.decode_or_none json_loads) (findall_fenced raw))
    as [r|]; cbn [option_map].
  - destruct (truthy r); [reflexivity|].
    destruct (try_repair_to_json _ fuel raw max_bytes) as [r'|]; [|reflexivity].
    cbn [option_map]. destruct (truthy r'); reflexivity.
  - destruct (try_repair_to_json _ fuel raw 300000) as [r|]; [|reflexivity].
    cbn [option_map]. destruct (truthy r); [reflexivity|].
    destruct (try_repair_to_json _ fuel raw max_bytes) as [r'|]; [|reflexivity].
    cbn [option_map]. destruct (truthy r'); reflexivity.
Qed.

End DecoderExceptions.

Import samples_more.

Lemma X1_witness :
  (exists r,
      json_decoder.try_repair_to_json decode_or_overflow 3 "{}" 1 = Some r /\
      forall e, r = json_decoder.Escapes e ->
                json_decoder.is_ValueError e = false /\
                exists s, decode_or_overflow s = json_decoder.Fails e) /\
  (exists r,
      json_decoder.safe_json_parse decode_or_overflow 3 "{}" 1 = Some r /\
      forall e, r = json_decoder.Escapes e ->
                json_decoder.is_JSONDecodeError e = false /\
                exists s, decode_or_overflow s = json_decoder.Fails e).
Proof. apply (X1_repair_parser_returns_or_passes_on decode_or_overflow "{}" 1). lia. Defined.

Lemma X2_witness :
  exists j,
    json_repair.truncate_loop 10 (PyStr.slice_to "abcdef" 4) 4 = Some (PyStr.take j "abcdef") /\
    PyStr.utf8_len (PyStr.take j "abcdef") <= 4 /\
    forall i, (i <= String.length "abcdef")%nat ->
              PyStr.utf8_len (PyStr.take i "abcdef") <= 4 -> (i <= j)%nat.
Proof.
  apply (X2_truncation_keeps_longest_prefix 10 "abcdef" 4); [lia | simpl; lia].
Defined.

Lemma X3_witness :
  json_repair.try_repair_to_json decode_empty_object 12 "no json here" 300000 = Some JNull.
Proof.
  apply (X3_no_opening_brace_gives_none decode_empty_object "no json here" 300000);
    [lia | reflexivity].
Defined.

Section RepairStrategies.
Import json_repair.
Variable json_loads : string -> option json.

Lemma findall_without_fence (s : string) (skip : nat) :
  (forall k, String.prefix fence (PyStr.drop k s) = false) ->
  findall_from skip s = [].
Proof.
  revert skip. induction s as [|c s IH]; intros skip H; [reflexivity|].
  cbn [findall_from].
  assert (Hs : forall k, String.prefix fence (PyStr.drop k s) = false)
    by (intros k; apply (H (S k))).
  destruct skip as [|skip]; [|apply IH; exact Hs].
  pose proof (H O) as H0. cbn [PyStr.drop] in H0.
  unfold match_fenced, strip_prefix. rewrite H0. apply IH. exact Hs.
Qed.

Lemma no_fence_no_match (text : string) :
  PyStr.contains text fence = false -> findall_fenced text = [].
Proof.
  intros H. apply findall_without_fence. intros k.
  apply (find_aux_none fence text 0 k); [lia|].
  unfold PyStr.contains in H. apply Z.leb_gt in H.
  destruct (find_from_start text fence 0) as [H1|(n & Hn & _)]; [lia | | lia].
  revert H1. unfold PyStr.find, PyStr.len. change (0 <? 0) with false. cbv iota.
  destruct (Z.of_nat (String.length text) <? 0) eqn:E; [apply Z.ltb_lt in E; lia|].
  cbn [Z.to_nat PyStr.drop]. tauto.
Qed.

(** X4: on a text without a code fence the second strategy is the repair
    of the whole text under the default limit of 300000, not under the
    limit of the caller.  So when the direct decode fails and that repair
    recovers a non-empty record, [safe_json_parse] returns this record
    for every [max_bytes]. *)
Theorem X4_markdown_strategy_uses_default_limit
        (fuel : nat) (raw : string) (max_bytes : Z) (v : json) :
  raw <> "" ->
  PyStr.contains raw fence = false ->
  extract_json_from_markdown json_loads fuel raw
    = try_repair_to_json json_loads fuel raw 300000 /\
  (json_loads raw = None ->
   try_repair_to_json json_loads fuel raw 300000 = Some v ->
   truthy v = true ->
   safe_json_parse json_loads fuel raw max_bytes = Some v).
Proof.
  intros Hne Hno.
  assert (E : extract_json_from_markdown json_loads fuel raw
              = try_repair_to_json json_loads fuel raw 300000).
  { unfold extract_json_from_markdown. destruct raw as [|c raw]; [congruence|].
    cbn [PyStr.nonempty negb]. rewrite (no_fence_no_match _ Hno). reflexivity. }
  split; [exact E|].
  intros Hdec Hrep Htrue. unfold safe_json_parse.
  destruct raw as [|c raw]; [congruence|].
  cbn [PyStr.nonempty negb]. rewrite Hdec, E, Hrep, Htrue. reflexivity.
Qed.

(** X5: whenever the salvage gives a text, that text is the input up to
    and including a double quote, followed by the fixed closure; the quote
    lies at least 13 characters behind the start of an occurrence of the
    summary key. *)
Theorem X5_salvage_cuts_after_a_quote (json_str t : string) :
  _repair_truncated_json json_str = Some t ->
  exists p n : nat,
    String.prefix summary_key (PyStr.drop p json_str) = true /\
    (p + 13 <= n)%nat /\
    (n < String.length json_str)%nat /\
    String.get n json_str = Some (ascii_of_nat 34) /\
    t = PyStr.take (S n) json_str ++ closure.
Proof.
  unfold _repair_truncated_json, PyStr.rfind.
  destruct (rfind_aux_found summary_key json_str 0) as [Hr|(p & Hp & _ & Hkey)]; [lia | |].
  { rewrite Hr. discriminate. }
  rewrite Z.add_0_l in Hp. rewrite Hp.
  destruct (Z.of_nat p =? -1) eqn:E1; [discriminate|].
  change (PyStr.len summary_open) with 12.
  destruct (find_from_start json_str quote (Z.of_nat p + 12))
    as [Hq|(q1 & Hq1 & Hge1 & _ & _)]; [lia | |].
  { rewrite Hq. discriminate. }
  rewrite Hq1.
  destruct (Z.of_nat q1 =? -1) eqn:E2; [discriminate|].
  destruct (find_from_start json_str quote (Z.of_nat q1 + 1))
    as [Hq|(n & Hn & Hge & _ & Hpre)]; [lia | |].
  { rewrite Hq. discriminate. }
  rewrite Hn.
  destruct (Z.of_nat n =? -1) eqn:E3; [discriminate|].
  intros H. injection H as <-.
  destruct (prefix_quote_get json_str n Hpre) as [Hlt Hget].
  exists p, n. repeat split; [exact Hkey | lia | exact Hlt | exact Hget |].
  rewrite slice_to_nonneg by lia. do 2 f_equal. lia.
Qed.

Lemma filter_drop_spaces (s : string) :
  PyStr.filter kept_by_comma_removal (PyStr.drop_while PyStr.is_space s)
  = PyStr.filter kept_by_comma_removal s.
Proof.
  induction s as [|c s IH]; [reflexivity|].
  cbn [PyStr.drop_while PyStr.filter].
  destruct (PyStr.is_space c) eqn:E; [|reflexivity].
  unfold kept_by_comma_removal at 2. rewrite E, andb_false_r. exact IH.
Qed.

(** X6: the removal of trailing commas takes away commas and white space
    only: every other character of the text stays, in its order. *)
Theorem X6_comma_removal_keeps_other_characters (s : string) :
  PyStr.filter kept_by_comma_removal (remove_trailing_commas s)
  = PyStr.filter kept_by_comma_removal s.
Proof.
  induction s as [|c s IH]; [reflexivity|].
  cbn [remove_trailing_commas].
  destruct ((PyStr.code c =? 44) && starts_closer s) eqn:E.
  - rewrite filter_drop_spaces, IH. cbn [PyStr.filter].
    apply andb_true_iff in E as [E _].
    unfold kept_by_comma_removal at 2. rewrite E. reflexivity.
  - cbn [PyStr.filter]. rewrite IH. reflexivity.
Qed.

End RepairStrategies.

Import samples_more.

Lemma X4_witness :
  json_repair.safe_json_parse decode_small_object 0 prose_with_object 0
    = Some (JObj [("a", JInt 1)]).
Proof.
  apply (X4_markdown_strategy_uses_default_limit decode_small_object 0 prose_with_object 0
           (JObj [("a", JInt 1)])); try reflexivity.
  discriminate.
Defined.

Lemma X5_witness :
  exists (t : string) (p n : nat),
    json_repair._repair_truncated_json (cut_after_summary ++ ", " ++ json_repair.quote)
      = Some t /\
    String.prefix json_repair.summary_key
      (PyStr.drop p (cut_after_summary ++ ", " ++ json_repair.quote)) = true /\
    (p + 13 <= n)%nat /\
    (n < String.length (cut_after_summary ++ ", " ++ json_repair.quote))%nat /\
    String.get n (cut_after_summary ++ ", " ++ json_repair.quote) = Some (ascii_of_nat 34) /\
    t = PyStr.take (S n) (cut_after_summary ++ ", " ++ json_repair.quote)
          ++ json_repair.closure.
Proof.
  destruct (json_repair._repair_truncated_json
              (cut_after_summary ++ ", " ++ json_repair.quote)) as [t|] eqn:E;
    [|vm_compute in E; discriminate].
  destruct (X5_salvage_cuts_after_a_quote _ t E) as (p & n & H1 & H2 & H3 & H4 & H5).
  exists t, p, n. repeat split; assumption.
Defined.

(** ** Category detection, further *)

Section CategoryFurther.
Import adaptive_llama.

Lemma max_by_value_in (best : string * Z) (rest : list (string * Z)) :
  In (max_by_value best rest) (List.map fst (best :: rest)).
Proof.
  revert best. induction rest as [|kv rest IH]; intros best; cbn [max_by_value].
  - left. reflexivity.
  - destruct (snd best <? snd kv).
    + right. apply IH.
    + destruct (IH best) as [H|H]; [left; exact H | right; right; exact H].
Qed.

(** X7: whatever the name, brand and description are, the detected
    category is one of the four categories of the table. *)
Theorem X7_detected_category_is_in_the_table (product_name brand description : string) :
  In (detect_product_category product_name brand description)
     ["Fragrance"; "Makeup"; "Skincare"; "Tools"].
Proof.
  unfold detect_product_category.
  destruct (0 <? max_value _); [|right; left; reflexivity].
  unfold argmax, scores_of, category_indicators. cbn [List.map fst snd].
  match goal with
  | |- In (max_by_value ?b ?r) _ => exact (max_by_value_in b r)
  end.
Qed.

(** The running best of [max] splits the list: strictly smaller scores
    before the winner, none larger behind it. *)
Lemma max_by_value_split (pre mid : list (string * Z)) (best : string * Z)
      (rest : list (string * Z)) :
  (forall kv, In kv pre -> snd kv < snd best) ->
  (forall kv, In kv mid -> snd kv <= snd best) ->
  exists l1 v l2,
    (pre ++ best :: mid ++ rest)%list = (l1 ++ (max_by_value best rest, v) :: l2)%list /\
    (forall kv, In kv l1 -> snd kv < v) /\
    (forall kv, In kv l2 -> snd kv <= v).
Proof.
  revert pre mid best. induction rest as [|kv rest IH]; intros pre mid best Hpre Hmid.
  - exists pre, (snd best), mid. cbn [max_by_value]. rewrite List.app_nil_r.
    destruct best; auto.
  - cbn [max_by_value]. destruct (snd best <? snd kv) eqn:E.
    + apply Z.ltb_lt in E.
      destruct (IH (pre ++ best :: mid)%list [] kv) as (l1 & v & l2 & Heq & H1 & H2).
      * intros x Hx. apply List.in_app_or in Hx as [Hx|[<-|Hx]];
          [specialize (Hpre x Hx) | | specialize (Hmid x Hx)]; lia.
      * intros x [].
      * exists l1, v, l2. split; [|auto].
        rewrite <- Heq. rewrite <- List.app_assoc. reflexivity.
    + apply Z.ltb_ge in E.
      destruct (IH pre (mid ++ [kv])%list best Hpre) as (l1 & v & l2 & Heq & H1 & H2).
      * intros x Hx. apply List.in_app_or in Hx as [Hx|[<-|[]]]; [apply Hmid; exact Hx | exact E].
      * exists l1, v, l2. split; [|auto].
        rewrite <- Heq. rewrite <- List.app_assoc. reflexivity.
Qed.

Lemma max_value_ge (scores : list (string * Z)) (kv : string * Z) :
  In kv scores -> snd kv <= max_value scores.
Proof.
  destruct scores as [|kv0 rest]; [intros []|]. cbn [max_value].
  assert (G : forall (l : list (string * Z)) m,
             m <= fold_left (fun m kv' => Z.max m (snd kv')) l m /\
             forall x, In x l ->
                       snd x <= fold_left (fun m kv' => Z.max m (snd kv')) l m).
  { induction l as [|y l IH]; intros m; cbn [fold_left]; [split; [lia | intros x []]|].
    destruct (IH (Z.max m (snd y))) as [H1 H2]. split; [lia|].
    intros x [<-|Hx]; [lia | apply H2; exact Hx]. }
  destruct (G rest (snd kv0)) as [H1 H2].
  intros [<-|Hin]; [exact H1 | apply H2; exact Hin].
Qed.

(** X8: when some keyword of the table occurs in the lower-cased text,
    the detected category has the highest score and is the first to
    reach it in the order of the table: every category before it scores
    strictly less, none behind it scores more. *)
Theorem X8_detected_category_is_first_maximal
        (product_name brand description category keyword : string)
        (keywords : list string) :
  In (category, keywords) category_indicators ->
  In keyword keywords ->
  PyStr.contains (PyStr.lower (product_name ++ " " ++ brand ++ " " ++ description))
                 keyword = true ->
  exists l1 v l2,
    scores_of (PyStr.lower (product_name ++ " " ++ brand ++ " " ++ description))
      = (l1 ++ (detect_product_category product_name brand description, v) :: l2)%list /\
    0 < v /\
    (forall kv, In kv l1 -> snd kv < v) /\
    (forall kv, In kv l2 -> snd kv <= v).
Proof.
  intros Hcat Hkw Hin. unfold detect_product_category.
  set (text := PyStr.lower (product_name ++ " " ++ brand ++ " " ++ description)) in *.
  assert (Hscore : 0 < score text keywords).
  { unfold score.
    assert (In keyword (List.filter (fun k => PyStr.contains text k) keywords))
      by (apply List.filter_In; auto).
    destruct (List.filter _ keywords); [contradiction | simpl; lia]. }
  assert (Hmax : 0 < max_value (scores_of text)).
  { pose proof (max_value_ge (scores_of text) (category, score text keywords)) as Hge.
    cbn [snd] in Hge. assert (score text keywords <= max_value (scores_of text)); [|lia].
    apply Hge. unfold scores_of.
    apply (List.in_map (fun ck => (fst ck, score text (snd ck))) _ _ Hcat). }
  apply Z.ltb_lt in Hmax as Hmaxb. rewrite Hmaxb.
  unfold argmax. destruct (scores_of text) as [|kv0 rest] eqn:Es; [cbn in Hmax; lia|].
  destruct (max_by_value_split [] [] kv0 rest) as (l1 & v & l2 & Heq & H1 & H2);
    [intros x [] | intros x [] |].
  cbn [app] in Heq. exists l1, v, l2. repeat split; [exact Heq | | exact H1 | exact H2].
  assert (Hv : max_value (kv0 :: rest) <= v).
  { assert (G : forall x, In x (kv0 :: rest) -> snd x <= v).
    { rewrite Heq. intros x Hx. apply List.in_app_or in Hx as [Hx|[<-|Hx]];
        [specialize (H1 x Hx); lia | cbn; lia | apply H2; exact Hx]. }
    clear - G. cbn [max_value].
    assert (F : forall (l : list (string * Z)) m,
               m <= v -> (forall x, In x l -> snd x <= v) ->
               fold_left (fun m kv' => Z.max m (snd kv')) l m <= v).
    { induction l as [|y l IH]; intros m Hm Hl; cbn [fold_left]; [exact Hm|].
      apply IH; [specialize (Hl y (or_introl eq_refl)); lia|].
      intros x Hx. apply Hl. right. exact Hx. }
    apply F; [apply G; left; reflexivity | intros x Hx; apply G; right; exact Hx]. }
  lia.
Qed.

End CategoryFurther.

Lemma X8_witness :
  exists l1 v l2,
    adaptive_llama.scores_of (PyStr.lower ("Rose Perfume Body Lotion" ++ " " ++ "" ++ " " ++ ""))
      = (l1 ++ (adaptive_llama.detect_product_category "Rose Perfume Body Lotion" "" "", v)
            :: l2)%list /\
    0 < v /\
    (forall kv, In kv l1 -> snd kv < v) /\
    (forall kv, In kv l2 -> snd kv <= v).
Proof.
  apply (X8_detected_category_is_first_maximal "Rose Perfume Body Lotion" "" ""
           "Skincare" "lotion"
           ["serum"; "moisturizer"; "cleanser"; "cream"; "lotion"; "essence";
            "toner"; "treatment"; "skincare"]).
  - right. right. left. reflexivity.
  - do 4 right. left. reflexivity.
  - vm_compute. reflexivity.
Defined.

(** ** Schema validation, further *)

Section ValidationFurther.
Import models.

Lemma count_words_le_length (in_word : bool) (s : string) :
  (count_words in_word s <= String.length s)%nat.
Proof.
  revert in_word. induction s as [|c s IH]; intros in_word; simpl; [lia|].
  destruct (PyStr.is_space c); [specialize (IH false); lia|].
  destruct in_word; [specialize (IH true); lia | specialize (IH true); lia].
Qed.

(** X9: an editorial quote passes validation exactly when it has at most
    25 characters: [max_length=25] counts characters, and a quote of 25
    characters has no more than 25 words, so the validator of the word
    count rejects nothing that passed the length. *)
Theorem X9_editorial_quote_limit_is_25_characters (q : EditorialQuote) :
  validate_EditorialQuote q = true <-> (String.length (quote q) <= 25)%nat.
Proof.
  unfold validate_EditorialQuote. rewrite andb_true_iff, !Nat.leb_le.
  pose proof (count_words_le_length false (quote q)). lia.
Qed.


(** X10: a snapshot with a platform key outside the nine known names is
    rejected by [validate_platforms], wherever the key stands and whatever
    it holds. *)
Theorem X10_unknown_platform_key_is_rejected
        (ps : list (string * platform_value)) (k : string) (v : platform_value) :
  In (k, v) ps ->
  mem k valid_platforms = false ->
  validate_platforms ps = None.
Proof.
  intros Hin Hk. induction ps as [|[k0 v0] ps IH]; [destruct Hin|].
  cbn [validate_platforms]. destruct Hin as [Heq|Hin].
  - injection Heq as -> ->. unfold validate_platform_entry. rewrite Hk. reflexivity.
  - rewrite (IH Hin). destruct (validate_platform_entry k0 v0); reflexivity.
Qed.


End ValidationFurther.

Lemma X10_witness :
  models.validate_platforms
    [("amazon", models.IsPlatformData (platform_with None));
     ("tiktok", models.IsDict [])] = None.
Proof.
  apply (X10_unknown_platform_key_is_rejected _ "tiktok" (models.IsDict []));
    [right; left; reflexivity | reflexivity].
Defined.


(** ** The helper functions of the store *)

Section StoreHelpers.
Import models db.




Local Open Scope Q_scope.

(** X13: for bounds in order [clamp_float] gives a value between them,
    and a value that lies between them already is returned as it is (up
    to equality of numbers); [None] stays [None]. *)
Theorem X13_clamp_float_stays_within_bounds (x : option Q) (lo hi : Q) :
  lo <= hi ->
  match x, clamp_float x lo hi with
  | Some q, Some r => lo <= r <= hi /\ (lo <= q <= hi -> r == q)
  | None, None => True
  | _, _ => False
  end.
Proof.
  intros Hord. destruct x as [q|]; cbn [clamp_float]; [|exact I].
  unfold py_max, py_min.
  destruct (Qlt_le_dec q hi) as [H1|H1]; destruct (Qlt_le_dec lo _) as [H2|H2].
  - split; [split; [apply Qlt_le_weak; exact H2 | apply Qlt_le_weak; exact H1]|].
    intros _. reflexivity.
  - split; [split; [apply Qle_refl | exact Hord]|].
    intros [Hq _]. apply Qle_antisym; assumption.
  - split; [split; [exact Hord | apply Qle_refl]|].
    intros [_ Hq]. apply Qle_antisym; assumption.
  - split; [split; [apply Qle_refl | exact Hord]|].
    intros [Hq0 Hq]. apply Qle_antisym; [exact Hq0|].
    apply (Qle_trans _ hi); [exact Hq | exact H2].
Qed.

End StoreHelpers.

Lemma X13_witness :
  match db.clamp_float (Some (7 # 1)) 0 5 with
  | Some r => (0 <= r <= 5)%Q
  | None => False
  end.
Proof.
  pose proof (X13_clamp_float_stays_within_bounds (Some (7 # 1)) 0 5) as H.
  cbn [db.clamp_float] in *. apply H. discriminate.
Defined.

(** ** Text cleaning *)

Section TextCleaning.
Import models db.
Local Arguments String.append !_ _ / : simpl nomatch.

Lemma append_nil_r (s : string) : s ++ "" = s.
Proof. induction s as [|c s IH]; cbn [String.append]; [reflexivity | rewrite IH; reflexivity]. Qed.

Lemma append_assoc (a b c : string) : (a ++ b) ++ c = a ++ (b ++ c).
Proof. induction a as [|x a IH]; cbn [String.append]; [reflexivity | rewrite IH; reflexivity]. Qed.

Lemma rev_app_append (s acc : string) : String.rev_app s acc = String.rev s ++ acc.
Proof.
  unfold String.rev. revert acc. induction s as [|c s IH]; intros acc; [reflexivity|].
  cbn [String.rev_app]. rewrite (IH (String c acc)), (IH (String c "")).
  rewrite append_assoc. reflexivity.
Qed.

Lemma rev_cons (c : ascii) (s : string) :
  String.rev (String c s) = String.rev s ++ String c "".
Proof. unfold String.rev at 1. cbn [String.rev_app]. apply rev_app_append. Qed.

Lemma rev_append (a b : string) : String.rev (a ++ b) = String.rev b ++ String.rev a.
Proof.
  induction a as [|x a IH]; cbn [String.append].
  - change (String.rev "") with "". rewrite append_nil_r. reflexivity.
  - rewrite !rev_cons, IH, append_assoc. reflexivity.
Qed.

Lemma rev_involutive (s : string) : String.rev (String.rev s) = s.
Proof.
  induction s as [|c s IH]; [reflexivity|].
  rewrite rev_cons, rev_append, IH. reflexivity.
Qed.

Lemma all_chars_append (p : ascii -> bool) (a b : string) :
  all_chars p (a ++ b) = all_chars p a && all_chars p b.
Proof.
  induction a as [|x a IH]; cbn [String.append all_chars]; [reflexivity|].
  rewrite IH, andb_assoc. reflexivity.
Qed.

Lemma all_chars_rev (p : ascii -> bool) (s : string) :
  all_chars p (String.rev s) = all_chars p s.
Proof.
  induction s as [|c s IH]; [reflexivity|].
  rewrite rev_cons, all_chars_append, IH. cbn [all_chars].
  rewrite andb_true_r, andb_comm. reflexivity.
Qed.

Lemma all_chars_drop_while (p q : ascii -> bool) (s : string) :
  all_chars p s = true -> all_chars p (PyStr.drop_while q s) = true.
Proof.
  induction s as [|c s IH]; [reflexivity|]. cbn [PyStr.drop_while all_chars].
  intros H. destruct (q c); [|exact H].
  apply andb_true_iff in H as [_ H]. apply IH. exact H.
Qed.

Lemma all_chars_filter (p : ascii -> bool) (s : string) :
  all_chars p (PyStr.filter p s) = true.
Proof.
  induction s as [|c s IH]; [reflexivity|]. cbn [PyStr.filter].
  destruct (p c) eqn:E; [|exact IH]. cbn [all_chars]. rewrite E, IH. reflexivity.
Qed.

Lemma filter_all_chars (p : ascii -> bool) (s : string) :
  all_chars p s = true -> PyStr.filter p s = s.
Proof.
  induction s as [|c s IH]; [reflexivity|]. cbn [all_chars PyStr.filter].
  intros H. apply andb_true_iff in H as [Hc H]. rewrite Hc, (IH H). reflexivity.
Qed.

Lemma drop_while_starts (s : string) :
  starts_with_space (PyStr.drop_while PyStr.is_space s) = false.
Proof.
  induction s as [|c s IH]; [reflexivity|]. cbn [PyStr.drop_while].
  destruct (PyStr.is_space c) eqn:E; [exact IH | cbn; exact E].
Qed.

Lemma drop_while_id (s : string) :
  starts_with_space s = false -> PyStr.drop_while PyStr.is_space s = s.
Proof. destruct s as [|c s]; [reflexivity|]. cbn. intros ->. reflexivity. Qed.

Lemma starts_append (a b : string) :
  a <> "" -> starts_with_space (a ++ b) = starts_with_space a.
Proof. destruct a; [congruence | reflexivity]. Qed.

Lemma drop_while_suffix (s : string) :
  exists pre, s = pre ++ PyStr.drop_while PyStr.is_space s.
Proof.
  induction s as [|c s [pre IH]]; [exists ""; reflexivity|]. cbn [PyStr.drop_while].
  destruct (PyStr.is_space c); [|exists ""; reflexivity].
  exists (String c pre). cbn [String.append]. rewrite <- IH. reflexivity.
Qed.

Lemma rev_nonempty (s : string) : s <> "" -> String.rev s <> "".
Proof.
  intros H E. apply H. rewrite <- (rev_involutive s), E. reflexivity.
Qed.

Lemma drop_while_ends (s : string) :
  ends_with_space s = false ->
  ends_with_space (PyStr.drop_while PyStr.is_space s) = false.
Proof.
  unfold ends_with_space. intros H.
  destruct (drop_while_suffix s) as [pre Hpre].
  destruct (PyStr.drop_while PyStr.is_space s) as [|c t] eqn:E; [reflexivity|].
  rewrite Hpre, rev_append, starts_append in H by (apply rev_nonempty; discriminate).
  exact H.
Qed.

Lemma strip_trimmed (s : string) :
  starts_with_space (PyStr.strip s) = false /\ ends_with_space (PyStr.strip s) = false.
Proof.
  unfold PyStr.strip, ends_with_space. rewrite rev_involutive. split.
  - apply drop_while_ends. unfold ends_with_space. rewrite rev_involutive.
    apply drop_while_starts.
  - apply drop_while_starts.
Qed.

Lemma strip_id (s : string) :
  starts_with_space s = false -> ends_with_space s = false -> PyStr.strip s = s.
Proof.
  unfold PyStr.strip, ends_with_space. intros H1 H2.
  rewrite (drop_while_id s H1), (drop_while_id _ H2). apply rev_involutive.
Qed.

Lemma all_chars_strip (p : ascii -> bool) (s : string) :
  all_chars p s = true -> all_chars p (PyStr.strip s) = true.
Proof.
  intros H. unfold PyStr.strip. rewrite all_chars_rev.
  apply all_chars_drop_while. rewrite all_chars_rev.
  apply all_chars_drop_while. exact H.
Qed.

(** X14: the text [clean_text] returns holds none of the control
    characters it strips and neither begins nor ends with white space, so
    cleaning a cleaned text changes nothing; [None] stays [None]. *)
Theorem X14_clean_text_is_clean_and_idempotent (s : option string) :
  match clean_text s with
  | Some r =>
      all_chars (fun c => negb (is_stripped_control c)) r = true /\
      starts_with_space r = false /\
      ends_with_space r = false
  | None => s = None
  end /\
  clean_text (clean_text s) = clean_text s.
Proof.
  destruct s as [t|]; [|split; reflexivity].
  unfold clean_text at 1 3.
  destruct t as [|c t]; [split; [repeat split|]; reflexivity|].
  cbn [PyStr.nonempty negb].
  set (r := PyStr.strip (PyStr.filter (fun c0 => negb (is_stripped_control c0)) (String c t))).
  assert (Hall : all_chars (fun c0 => negb (is_stripped_control c0)) r = true)
    by (apply all_chars_strip, all_chars_filter).
  destruct (strip_trimmed (PyStr.filter (fun c0 => negb (is_stripped_control c0)) (String c t)))
    as [Hs He]. fold r in Hs, He.
  split; [repeat split; assumption|].
  unfold clean_text. destruct (negb (PyStr.nonempty r)); [reflexivity|].
  rewrite (filter_all_chars _ r Hall), (strip_id r Hs He). reflexivity.
Qed.

Lemma length_append (a b : string) :
  String.length (a ++ b) = (String.length a + String.length b)%nat.
Proof.
  induction a as [|x a IH]; cbn [String.append String.length]; [reflexivity | rewrite IH; reflexivity].
Qed.

(** X15: the verdict snippet of [get_compare_data] is missing exactly for
    an empty verdict; otherwise it is the first sentence (the verdict up
    to its first full stop, or the whole verdict when it has none) when
    this has at most 100 characters, and else its first 100 characters
    followed by three dots: never more than 103 characters. *)
Theorem X15_verdict_snippet_has_at_most_103_characters (verdict : string) :
  (verdict_snippet verdict = None <-> verdict = "") /\
  forall r, verdict_snippet verdict = Some r ->
    let first_sentence :=
      if PyStr.contains verdict "." then before_dot verdict ++ "." else verdict in
    (String.length r <= 103)%nat /\
    ((String.length first_sentence <= 100)%nat -> r = first_sentence) /\
    ((100 < String.length first_sentence)%nat -> r = PyStr.take 100 first_sentence ++ "...").
Proof.
  unfold verdict_snippet.
  set (fs := if PyStr.contains verdict "." then before_dot verdict ++ "." else verdict).
  clearbody fs.
  destruct verdict as [|c t]; cbn [PyStr.nonempty].
  - split; [split; reflexivity | discriminate].
  - split; [split; discriminate|]. intros r H. injection H as <-. cbv zeta.
    unfold PyStr.len. destruct (100 <? Z.of_nat (String.length fs)) eqn:E.
    + apply Z.ltb_lt in E. rewrite slice_to_nonneg by lia.
      replace (Nat.min (String.length fs) (Z.to_nat 100)) with 100%nat by lia.
      split; [|split; [lia | reflexivity]].
      rewrite length_append, length_take. cbn [String.length]. lia.
    + apply Z.ltb_ge in E. split; [lia | split; [reflexivity | lia]].
Qed.

End TextCleaning.

(** ** The store, further *)

Section StoreRelations.
Import models db.
Variable env : db_env.
Variable product_id : string.

(** A relation between states that every statement the store may issue
    for the platforms in [allowed] respects. *)
Variable R : database -> database -> Prop.
Variable allowed : string -> Prop.
Hypothesis R_refl : forall d, R d d.
Hypothesis R_trans : forall a b c, R a b -> R b c -> R a c.
Hypothesis R_offer : forall r row d, allowed r -> R d (upsert_offer product_id r row d).
Hypothesis R_price : forall r row d,
    allowed r -> R d (insert_price_history env product_id r row d).
Hypothesis R_rating : forall r row d, allowed r -> R d (upsert_rating product_id r row d).
Hypothesis R_delete : forall r d, allowed r -> R d (delete_reviews product_id r d).
Hypothesis R_insert : forall r l d,
    allowed r -> R d (insert_reviews (List.map (review_tuple product_id r) l) d).
Hypothesis R_quote : forall k src row d, R d (upsert_spec_with_url product_id k src row d).
Hypothesis R_spec : forall k src v d, R d (upsert_spec env product_id k src v d).
Hypothesis R_summary : forall row d, R d (upsert_summary product_id row d).

Lemma maintains_ret : maintains R (ret tt).
Proof. intros c c' u H. apply ret_Some in H as [_ ->]. apply R_refl. Qed.

Lemma maintains_bind (m k : tx unit) :
  maintains R m -> maintains R k -> maintains R (m ;; k).
Proof.
  intros Hm Hk c c' u H. apply bind_Some in H as (a & c1 & H1 & H2).
  apply (R_trans _ (pending c1)); [apply (Hm _ _ _ H1) | apply (Hk _ _ _ H2)].
Qed.

Lemma maintains_execute (f : database -> database) :
  (forall d, R d (f d)) -> maintains R (execute env f).
Proof. intros Hf c c' u H. apply (execute_Some env) in H as [_ ->]. apply Hf. Qed.

Lemma maintains_platform_data (platform : string) (pd : PlatformData) :
  allowed platform -> maintains R (store_platform_data env product_id platform pd).
Proof.
  intros Hal. unfold store_platform_data.
  repeat apply maintains_bind.
  - destruct (price pd) as [p|]; [|apply maintains_ret].
    apply maintains_bind; [apply maintains_execute; intros d; apply R_offer; exact Hal|].
    destruct (amount p); [|apply maintains_ret].
    apply maintains_execute. intros d. apply R_price. exact Hal.
  - destruct (platform_rating pd); [|apply maintains_ret].
    apply maintains_execute. intros d. apply R_rating. exact Hal.
  - destruct (reviews pd) as [[|r l]|]; try apply maintains_ret.
    apply maintains_bind; [apply maintains_execute; intros d; apply R_delete; exact Hal|].
    cbn [List.firstn List.map].
    apply maintains_execute. intros d.
    apply (R_insert platform (r :: List.firstn 4 l) d Hal).
Qed.

Lemma maintains_editorial (b : EditorialBlock) :
  maintains R (store_editorial_data env product_id b).
Proof.
  unfold store_editorial_data. induction (quotes b) as [|q qs IH]; cbn [store_editorial_quotes].
  - apply maintains_ret.
  - apply maintains_bind; [|exact IH]. apply maintains_execute. intros d. apply R_quote.
Qed.

Lemma maintains_specifications (s : Specifications) :
  maintains R (store_specifications env product_id s).
Proof.
  unfold store_specifications.
  induction (spec_mappings s) as [|[k [v|]] l IH]; cbn [store_spec_entries].
  - apply maintains_ret.
  - apply maintains_bind; [|exact IH]. apply maintains_execute. intros d. apply R_spec.
  - exact IH.
Qed.

Lemma maintains_summary (s : SummarizedReview) (mn ph : string) :
  maintains R (store_summary env product_id s mn ph).
Proof. apply maintains_execute. intros d. apply R_summary. Qed.

Lemma maintains_entry (k : string) (v : platform_value) :
  allowed k -> maintains R (store_entry env product_id k v).
Proof.
  intros Hal. unfold store_entry. destruct (String.eqb k "editorial").
  - destruct v; try apply maintains_ret. apply maintains_editorial.
  - destruct v; try apply maintains_ret. apply maintains_platform_data. exact Hal.
Qed.

Lemma maintains_platforms (ps : list (string * platform_value)) :
  (forall k, In k (List.map fst ps) -> allowed k) ->
  maintains R (store_platforms env product_id ps).
Proof.
  induction ps as [|[k v] ps IH]; intros Hal; cbn [store_platforms].
  - apply maintains_ret.
  - apply maintains_bind.
    + apply maintains_entry. apply Hal. left. reflexivity.
    + apply IH. intros k0 Hk0. apply Hal. right. exact Hk0.
Qed.

Lemma maintains_statements (snap : RootSnapshot) (mn ph : string) :
  (forall k, In k (List.map fst (platforms snap)) -> allowed k) ->
  maintains R (store_statements env product_id snap mn ph).
Proof.
  intros Hal. unfold store_statements.
  apply maintains_bind; [apply maintains_platforms; exact Hal|].
  apply maintains_bind; [apply maintains_specifications | apply maintains_summary].
Qed.

(** Whatever the outcome of [store_snapshot], the committed tables after
    the call are related to those before. *)
Lemma store_snapshot_related (d : database) (snap : RootSnapshot) (mn ph : string) :
  (forall k, In k (List.map fst (platforms snap)) -> allowed k) ->
  R d (snd (store_snapshot env d product_id snap mn ph)).
Proof.
  intros Hal. unfold store_snapshot.
  destruct (connect_fails env); [apply R_refl|].
  destruct (store_statements _ _ _ _ _ _) as [[u c]|] eqn:E; [|apply R_refl].
  destruct (commit_fails env); [apply R_refl|].
  apply (maintains_statements snap mn ph Hal _ _ _ E).
Qed.

End StoreRelations.

Section StoreInvariants.
Import models db.
Variable env : db_env.

Lemma review_matches_product (product_id other r r0 : string) (x : review_row) :
  other <> product_id ->
  review_matches other r x = true -> review_matches product_id r0 x = false.
Proof.
  intros Hne. unfold review_matches. rewrite andb_true_iff.
  intros [H _]. apply String.eqb_eq in H. rewrite H.
  assert (E : (other =? product_id)%string = false) by (apply String.eqb_neq; exact Hne).
  rewrite E. reflexivity.
Qed.

Lemma review_tuple_other_product (product_id other r r0 : string) (y : ReviewSnippet) :
  other <> product_id ->
  review_matches other r (review_tuple product_id r0 y) = false.
Proof.
  intros Hne. unfold review_matches, review_tuple. cbn.
  assert (E : (product_id =? other)%string = false)
    by (apply String.eqb_neq; congruence).
  rewrite E. reflexivity.
Qed.

(** X16: [store_snapshot] never overwrites or removes a price point: a
    row that [price_history] holds before the call, for whatever product,
    retailer and day, is there unchanged after it, whether the call
    succeeds or not. *)
Theorem X16_price_history_is_append_only
        (d : database) (product_id : string) (snap : RootSnapshot)
        (model_name prompt_hash : string) :
  price_history_kept d (snd (store_snapshot env d product_id snap model_name prompt_hash)).
Proof.
  apply (store_snapshot_related env product_id price_history_kept (fun _ => True));
    unfold price_history_kept; try (intros; assumption); try (intros; exact I).
  - intros a b c Hab Hbc key row H. apply Hbc, Hab, H.
  - intros r row d0 _ key row0 H. cbn [price_history insert_price_history].
    destruct (price_history d0 !! (product_id, r, today env)) as [old|] eqn:E; [exact H|].
    rewrite lookup_insert_ne; [exact H|]. intros <-. congruence.
Qed.

(** X17: [store_snapshot] for one product leaves the rows of every other
    product as they are, in all six tables. *)
Theorem X17_other_products_are_untouched
        (d : database) (product_id : string) (snap : RootSnapshot)
        (model_name prompt_hash : string) :
  other_products_kept product_id d
    (snd (store_snapshot env d product_id snap model_name prompt_hash)).
Proof.
  apply (store_snapshot_related env product_id (other_products_kept product_id)
           (fun _ => True)); unfold other_products_kept; try (intros; exact I).
  - intros d0 other Hne. repeat split; reflexivity.
  - intros a b c Hab Hbc other Hne.
    destruct (Hab other Hne) as (A1 & A2 & A3 & A4 & A5 & A6).
    destruct (Hbc other Hne) as (B1 & B2 & B3 & B4 & B5 & B6).
    repeat split; intros;
      [rewrite B1; apply A1 | rewrite B2; apply A2 | rewrite B3; apply A3
       | rewrite B4; apply A4 | rewrite B5; apply A5 | rewrite B6; apply A6].
  - intros r row d0 _ other Hne. repeat split; try reflexivity.
    intros r0. cbn [offers upsert_offer]. apply lookup_insert_ne. congruence.
  - intros r row d0 _ other Hne. repeat split; try reflexivity.
    intros r0 day. cbn [price_history insert_price_history].
    destruct (price_history d0 !! (product_id, r, today env)); [reflexivity|].
    apply lookup_insert_ne. congruence.
  - intros r row d0 _ other Hne. repeat split; try reflexivity.
    intros r0. cbn [ratings upsert_rating]. apply lookup_insert_ne. congruence.
  - intros r d0 _ other Hne. repeat split; try reflexivity.
    intros r0. unfold reviews_of. cbn [reviews_table delete_reviews].
    apply filter_filter_neg. intros x. apply review_matches_product. exact Hne.
  - intros r l d0 _ other Hne. repeat split; try reflexivity.
    intros r0. unfold reviews_of. cbn [reviews_table insert_reviews].
    rewrite List.filter_app, (filter_none _ (List.map _ _)); [apply List.app_nil_r|].
    intros x Hx. apply List.in_map_iff in Hx as (y & <- & _).
    apply review_tuple_other_product. exact Hne.
  - intros k src row d0 other Hne. repeat split; try reflexivity.
    intros k0 src0. cbn [specs upsert_spec_with_url]. apply lookup_insert_ne. congruence.
  - intros k src v d0 other Hne. repeat split; try reflexivity.
    intros k0 src0. cbn [specs upsert_spec]. apply lookup_insert_ne. congruence.
  - intros row d0 other Hne. repeat split; try reflexivity.
    cbn [summaries upsert_summary]. apply lookup_insert_ne. congruence.
Qed.

Lemma kept_refl (product_id retailer : string) (d : database) :
  retailer_rows_kept product_id retailer d d.
Proof. repeat split; reflexivity. Qed.

Lemma kept_trans (product_id retailer : string) (a b c : database) :
  retailer_rows_kept product_id retailer a b ->
  retailer_rows_kept product_id retailer b c ->
  retailer_rows_kept product_id retailer a c.
Proof.
  intros (A1 & A2 & A3 & A4) (B1 & B2 & B3 & B4).
  repeat split; intros;
    [rewrite B1; apply A1 | rewrite B2; apply A2 | rewrite B3; apply A3
     | rewrite B4; apply A4].
Qed.

Lemma kept_offer (product_id retailer r : string) (row : offer_row) (d : database) :
  r <> retailer ->
  retailer_rows_kept product_id retailer d (upsert_offer product_id r row d).
Proof.
  intros Hne. repeat split; try reflexivity.
  cbn [offers upsert_offer]. apply lookup_insert_ne. congruence.
Qed.

Lemma kept_price (product_id retailer r : string) (row : price_history_row) (d : database) :
  r <> retailer ->
  retailer_rows_kept product_id retailer d (insert_price_history env product_id r row d).
Proof.
  intros Hne. repeat split; try reflexivity.
  intros day. cbn [price_history insert_price_history].
  destruct (price_history d !! (product_id, r, today env)); [reflexivity|].
  apply lookup_insert_ne. congruence.
Qed.

Lemma kept_rating (product_id retailer r : string) (row : rating_row) (d : database) :
  r <> retailer ->
  retailer_rows_kept product_id retailer d (upsert_rating product_id r row d).
Proof.
  intros Hne. repeat split; try reflexivity.
  cbn [ratings upsert_rating]. apply lookup_insert_ne. congruence.
Qed.

Lemma kept_delete (product_id retailer r : string) (d : database) :
  r <> retailer ->
  retailer_rows_kept product_id retailer d (delete_reviews product_id r d).
Proof.
  intros Hne. repeat split; try reflexivity.
  unfold reviews_of. cbn [reviews_table delete_reviews].
  apply filter_filter_neg. intros x. apply review_matches_exclusive. exact Hne.
Qed.

Lemma kept_insert (product_id retailer r : string) (l : list ReviewSnippet) (d : database) :
  r <> retailer ->
  retailer_rows_kept product_id retailer d
    (insert_reviews (List.map (review_tuple product_id r) l) d).
Proof.
  intros Hne. repeat split; try reflexivity.
  unfold reviews_of. cbn [reviews_table insert_reviews].
  rewrite List.filter_app, (filter_none _ (List.map _ _)); [apply List.app_nil_r|].
  intros x Hx. apply List.in_map_iff in Hx as (y & <- & _).
  apply review_tuple_other. exact Hne.
Qed.

Lemma kept_quote (product_id retailer k src : string) (row : spec_row) (d : database) :
  retailer_rows_kept product_id retailer d (upsert_spec_with_url product_id k src row d).
Proof. repeat split; reflexivity. Qed.

Lemma kept_spec (product_id retailer k src : string) (v : spec_value) (d : database) :
  retailer_rows_kept product_id retailer d (upsert_spec env product_id k src v d).
Proof. repeat split; reflexivity. Qed.

Lemma kept_summary (product_id retailer : string) (row : summary_row) (d : database) :
  retailer_rows_kept product_id retailer d (upsert_summary product_id row d).
Proof. repeat split; reflexivity. Qed.

Ltac kept_rows :=
  first [ exact (kept_refl _ _) | exact (kept_trans _ _) | exact (kept_offer _ _)
        | exact (kept_price _ _) | exact (kept_rating _ _) | exact (kept_delete _ _)
        | exact (kept_insert _ _) | exact (kept_quote _ _) | exact (kept_spec _ _)
        | exact (kept_summary _ _) ].

(** The entries under other keys leave the rows of the retailer alone. *)
Lemma other_entries_keep (product_id retailer : string)
      (ps : list (string * platform_value)) :
  ~ In retailer (List.map fst ps) ->
  maintains (retailer_rows_kept product_id retailer) (store_platforms env product_id ps).
Proof.
  intros Habsent.
  apply (maintains_platforms env product_id (retailer_rows_kept product_id retailer)
           (fun k => k <> retailer)); try kept_rows.
  intros k Hk ->. apply Habsent. exact Hk.
Qed.

Lemma other_entry_keeps (product_id retailer k : string) (v : platform_value) :
  k <> retailer ->
  maintains (retailer_rows_kept product_id retailer) (store_entry env product_id k v).
Proof.
  intros Hne.
  apply (maintains_entry env product_id (retailer_rows_kept product_id retailer)
           (fun k => k <> retailer)); try kept_rows.
  exact Hne.
Qed.

Lemma tail_statements_keep (product_id retailer : string)
      (s : Specifications) (r : SummarizedReview) (mn ph : string) :
  maintains (retailer_rows_kept product_id retailer)
            (store_specifications env product_id s ;; store_summary env product_id r mn ph).
Proof.
  apply (maintains_bind (retailer_rows_kept product_id retailer)); [kept_rows | |].
  - apply (maintains_specifications env product_id (retailer_rows_kept product_id retailer));
      kept_rows.
  - apply (maintains_summary env product_id (retailer_rows_kept product_id retailer)).
    kept_rows.
Qed.

(** X18: a retailer that the snapshot has no entry for keeps its offer,
    its price points, its rating and its reviews of the product: the store
    writes nothing and deletes nothing for it. *)
Theorem X18_absent_retailer_keeps_its_rows
        (d : database) (product_id retailer : string) (snap : RootSnapshot)
        (model_name prompt_hash : string) :
  ~ In retailer (List.map fst (platforms snap)) ->
  retailer_rows_kept product_id retailer d
    (snd (store_snapshot env d product_id snap model_name prompt_hash)).
Proof.
  intros Habsent.
  apply (store_snapshot_related env product_id (retailer_rows_kept product_id retailer)
           (fun k => k <> retailer));
    try kept_rows.
  intros k Hk ->. apply Habsent. exact Hk.
Qed.

End StoreInvariants.

Lemma X18_witness :
  retailer_rows_kept "p1" "sephora"
    (snd (db.store_snapshot healthy empty_database "p1" snapshot_A "m" "h"))
    (snd (db.store_snapshot healthy
            (snd (db.store_snapshot healthy empty_database "p1" snapshot_A "m" "h"))
            "p1" snapshot_B "m" "h")).
Proof.
  apply (X18_absent_retailer_keeps_its_rows healthy _ "p1" "sephora" snapshot_B "m" "h").
  cbn. intros [H|[]]. discriminate.
Defined.

Section StatementCount.
Import models db.
Variable env : db_env.

Lemma runs_ret : runs env 0 (ret tt).
Proof. intros c. cbn. split; [lia | intros i Hi; lia]. Qed.

Lemma runs_execute (f : database -> database) : runs env 1 (execute env f).
Proof.
  intros c. unfold execute. destruct (stmt_fails env (executed c)) eqn:E.
  - exists O. rewrite Nat.add_0_r. split; [lia | exact E].
  - cbn [executed]. split; [lia|]. intros i Hi.
    replace i with O by lia. rewrite Nat.add_0_r. exact E.
Qed.

Lemma runs_bind (n n' : nat) (m k : tx unit) :
  runs env n m -> runs env n' k -> runs env (n + n') (m ;; k).
Proof.
  intros Hm Hk c. specialize (Hm c).
  unfold mbind, tx_bind, bind. destruct (m c) as [[u c1]|].
  - destruct Hm as [Hex Hok]. specialize (Hk c1).
    destruct (k c1) as [[u' c']|].
    + destruct Hk as [Hex' Hok']. split; [lia|]. intros i Hi.
      destruct (Nat.lt_ge_cases i n) as [Hlt|Hge]; [apply Hok; exact Hlt|].
      replace (executed c + i)%nat with (executed c1 + (i - n))%nat by lia.
      apply Hok'. lia.
    + destruct Hk as (i & Hi & Hfail). exists (n + i)%nat. split; [lia|].
      replace (executed c + (n + i))%nat with (executed c1 + i)%nat by lia. exact Hfail.
  - destruct Hm as (i & Hi & Hfail). exists i. split; [lia | exact Hfail].
Qed.

Lemma runs_platform_data (product_id platform : string) (pd : PlatformData) :
  runs env (platform_statements pd) (store_platform_data env product_id platform pd).
Proof.
  unfold store_platform_data, platform_statements. rewrite <- Nat.add_assoc.
  apply runs_bind; [|apply runs_bind].
  - destruct (price pd) as [p|]; [|apply runs_ret].
    destruct (amount p).
    + apply (runs_bind 1 1); apply runs_execute.
    + apply (runs_bind 1 0); [apply runs_execute | apply runs_ret].
  - destruct (platform_rating pd); [apply runs_execute | apply runs_ret].
  - destruct (reviews pd) as [[|r l]|]; try apply runs_ret.
    cbn [List.firstn List.map]. apply (runs_bind 1 1); apply runs_execute.
Qed.

Lemma runs_editorial (product_id : string) (b : EditorialBlock) :
  runs env (List.length (quotes b)) (store_editorial_data env product_id b).
Proof.
  unfold store_editorial_data.
  induction (quotes b) as [|q qs IH]; cbn [store_editorial_quotes List.length].
  - apply runs_ret.
  - apply (runs_bind 1 (List.length qs)); [apply runs_execute | exact IH].
Qed.

Lemma runs_entry (product_id k : string) (v : platform_value) :
  runs env (entry_statements k v) (store_entry env product_id k v).
Proof.
  unfold store_entry, entry_statements. destruct (String.eqb k "editorial").
  - destruct v; try apply runs_ret. apply runs_editorial.
  - destruct v; try apply runs_ret. apply runs_platform_data.
Qed.

Lemma runs_platforms (product_id : string) (ps : list (string * platform_value)) :
  runs env (platforms_statements ps) (store_platforms env product_id ps).
Proof.
  induction ps as [|[k v] ps IH]; cbn [store_platforms platforms_statements].
  - apply runs_ret.
  - apply runs_bind; [apply runs_entry | exact IH].
Qed.

Lemma runs_specifications (product_id : string) (s : Specifications) :
  runs env (present_specs (spec_mappings s)) (store_specifications env product_id s).
Proof.
  unfold store_specifications.
  induction (spec_mappings s) as [|[k [v|]] l IH]; cbn [store_spec_entries present_specs].
  - apply runs_ret.
  - apply (runs_bind 1 (present_specs l)); [apply runs_execute | exact IH].
  - exact IH.
Qed.

Lemma runs_statements (product_id : string) (snap : RootSnapshot) (mn ph : string) :
  runs env (statement_count snap) (store_statements env product_id snap mn ph).
Proof.
  unfold store_statements, statement_count.
  rewrite <- Nat.add_assoc.
  apply runs_bind; [apply runs_platforms|].
  apply runs_bind; [apply runs_specifications | apply runs_execute].
Qed.


End StatementCount.

(** ** The store and its connection *)

Section StoreConnection.
Import models db db_connection.

Lemma failing_statement_raises (env : db_env) (d : database) (product_id : string)
      (snap : RootSnapshot) (mn ph : string) (i : nat) :
  (i < statement_count snap)%nat ->
  stmt_fails env i = true ->
  store_statements env product_id snap mn ph {| pending := d; executed := O |} = None.
Proof.
  intros Hi Hfail.
  pose proof (runs_statements env product_id snap mn ph
                {| pending := d; executed := O |}) as Hruns.
  cbn [executed Nat.add] in Hruns.
  destruct (store_statements _ _ _ _ _ _) as [[u c]|]; [|reflexivity].
  destruct Hruns as [_ Hok]. rewrite (Hok i Hi) in Hfail. discriminate.
Qed.

(** With a connection whose cursor, rollback and close do not raise this
    is the [store_snapshot] of the sections above. *)
Lemma store_snapshot_quiet_connection (env : connection) (d : database)
      (product_id : string) (snap : RootSnapshot) (mn ph : string) :
  cursor_fails env = false ->
  rollback_fails env = false ->
  close_fails env = false ->
  db_connection.store_snapshot env d product_id snap mn ph
  = db.store_snapshot (server env) d product_id snap mn ph.
Proof.
  intros Hc Hr Hcl.
  unfold db_connection.store_snapshot, db.store_snapshot, handler, finally_close.
  rewrite Hc, Hr, Hcl. reflexivity.
Qed.

(** When [close] raises after the commit the call raises although the
    snapshot is stored. *)
Lemma close_failure_escapes_after_commit (env : connection) (d d' : database)
      (product_id : string) (snap : RootSnapshot) (mn ph : string) :
  cursor_fails env = false ->
  close_fails env = true ->
  db.store_snapshot (server env) d product_id snap mn ph = (Returned true, d') ->
  db_connection.store_snapshot env d product_id snap mn ph = (Raised DatabaseError, d').
Proof.
  intros Hc Hcl. unfold db_connection.store_snapshot, db.store_snapshot, finally_close.
  rewrite Hc, Hcl.
  destruct (connect_fails (server env)); [discriminate|].
  destruct (store_statements _ _ _ _ _ _) as [[u c]|]; [|discriminate].
  destruct (commit_fails (server env)); [discriminate|].
  intros H. injection H as <-. reflexivity.
Qed.

(** C5 (the code differs): [store_snapshot] does not always return.  The
    connection opens; then an exception reaches the handler, from
    [conn.cursor()], from one of the statements the snapshot calls for
    or from the commit; the handler calls [conn.rollback()], and when
    this raises too (as on a connection that was lost) nothing catches
    it: the call raises instead of returning [False].  The committed
    tables are unchanged. *)
Theorem C5_store_snapshot_raises_when_rollback_raises
        (env : connection) (d : database) (product_id : string) (snap : RootSnapshot)
        (model_name prompt_hash : string) :
  connect_fails (server env) = false ->
  (cursor_fails env = true \/
   (exists i, (i < statement_count snap)%nat /\ stmt_fails (server env) i = true) \/
   commit_fails (server env) = true) ->
  rollback_fails env = true ->
  db_connection.store_snapshot env d product_id snap model_name prompt_hash
  = (Raised DatabaseError, d).
Proof.
  intros Hconn Hexn Hroll.
  assert (Hh : handler env = Raised DatabaseError).
  { unfold handler, finally_close. rewrite Hroll. destruct (close_fails env); reflexivity. }
  unfold db_connection.store_snapshot. rewrite Hconn.
  destruct (cursor_fails env) eqn:Hcur; [rewrite Hh; reflexivity|].
  destruct Hexn as [Hc | [(i & Hi & Hfail) | Hcommit]].
  - discriminate.
  - rewrite (failing_statement_raises _ d product_id snap model_name prompt_hash i Hi Hfail).
    rewrite Hh. reflexivity.
  - destruct (store_statements _ _ _ _ _ _) as [[u c]|].
    + rewrite Hcommit, Hh. reflexivity.
    + rewrite Hh. reflexivity.
Qed.

End StoreConnection.

(** The first statement raises on a lost connection and so does the
    rollback: the call raises. *)
Lemma C5_witness :
  db_connection.store_snapshot lost_connection empty_database "p1" snapshot_A "m" "h"
  = (Raised DatabaseError, empty_database).
Proof.
  apply (C5_store_snapshot_raises_when_rollback_raises lost_connection empty_database
           "p1" snapshot_A "m" "h").
  - reflexivity.
  - right. left. exists O. split; [vm_compute; lia | reflexivity].
  - reflexivity.
Defined.

Section OfferAndRating.
Import models db.
Variable env : db_env.

(** What [store_platform_data] leaves in [offers] and [ratings] under its
    own key. *)
Lemma store_platform_data_rows (product_id platform : string) (pd : PlatformData)
      (c c' : cursor) (u : unit) :
  store_platform_data env product_id platform pd c = Some (u, c') ->
  offers (pending c') !! (product_id, platform)
    = match price pd with
      | Some p => Some (offer_of env pd p)
      | None => offers (pending c) !! (product_id, platform)
      end /\
  ratings (pending c') !! (product_id, platform)
    = match platform_rating pd with
      | Some r => Some (rating_of env pd r)
      | None => ratings (pending c) !! (product_id, platform)
      end.
Proof.
  unfold store_platform_data. intros H.
  apply bind_Some in H as ([] & c1 & H1 & H).
  apply bind_Some in H as ([] & c2 & H2 & H3).
  assert (E3 : offers (pending c') = offers (pending c2) /\
               ratings (pending c') = ratings (pending c2)).
  { destruct (reviews pd) as [[|r l]|];
      try (apply ret_Some in H3 as [_ ->]; split; reflexivity).
    apply bind_Some in H3 as ([] & c3 & H3 & H4).
    apply (execute_Some env) in H3 as [_ H3].
    cbn [List.firstn List.map] in H4. apply (execute_Some env) in H4 as [_ H4].
    rewrite H4, H3. split; reflexivity. }
  destruct E3 as [E3o E3r]. rewrite E3o, E3r. clear H3 E3o E3r.
  assert (E2 : offers (pending c2) = offers (pending c1) /\
               ratings (pending c2) !! (product_id, platform)
               = match platform_rating pd with
                 | Some r => Some (rating_of env pd r)
                 | None => ratings (pending c1) !! (product_id, platform)
                 end).
  { destruct (platform_rating pd) as [r|].
    - apply (execute_Some env) in H2 as [_ ->]. split; [reflexivity|].
      cbn [ratings upsert_rating]. apply lookup_insert_eq.
    - apply ret_Some in H2 as [_ ->]. split; reflexivity. }
  destruct E2 as [E2o E2r]. rewrite E2o, E2r. clear H2 E2o E2r.
  destruct (price pd) as [p|].
  - apply bind_Some in H1 as ([] & c0 & H0 & H1).
    apply (execute_Some env) in H0 as [_ H0].
    assert (E1 : offers (pending c1) = offers (pending c0) /\
                 ratings (pending c1) = ratings (pending c0)).
    { destruct (amount p).
      - apply (execute_Some env) in H1 as [_ ->]. split; reflexivity.
      - apply ret_Some in H1 as [_ ->]. split; reflexivity. }
    destruct E1 as [-> ->]. rewrite H0. cbn [offers ratings upsert_offer]. split.
    + apply lookup_insert_eq.
    + reflexivity.
  - apply ret_Some in H1 as [_ ->]. split; reflexivity.
Qed.

Lemma store_platforms_rows (product_id retailer : string)
      (ps : list (string * platform_value)) (pd : PlatformData)
      (c c' : cursor) (u : unit) :
  NoDup (List.map fst ps) ->
  retailer <> "editorial" ->
  PyDict.lookup retailer ps = Some (IsPlatformData pd) ->
  store_platforms env product_id ps c = Some (u, c') ->
  offers (pending c') !! (product_id, retailer)
    = match price pd with
      | Some p => Some (offer_of env pd p)
      | None => offers (pending c) !! (product_id, retailer)
      end /\
  ratings (pending c') !! (product_id, retailer)
    = match platform_rating pd with
      | Some r => Some (rating_of env pd r)
      | None => ratings (pending c) !! (product_id, retailer)
      end.
Proof.
  intros Hnd Hed. revert c.
  induction ps as [|[k v] ps IH]; intros c Hlook H; [discriminate|].
  rewrite store_platforms_cons in H.
  apply bind_Some in H as ([] & c1 & H1 & H2).
  cbn [List.map fst] in Hnd. apply NoDup_cons in Hnd as [Hk Hnd].
  cbn [PyDict.lookup] in Hlook.
  destruct (String.eqb retailer k) eqn:Ek.
  - apply String.eqb_eq in Ek. subst k. injection Hlook as ->.
    assert (Habs : ~ In retailer (List.map fst ps))
      by (intros Hin; apply Hk, list_elem_of_In; exact Hin).
    destruct (other_entries_keep env product_id retailer ps Habs _ _ _ H2)
      as (Ho & _ & Hr & _).
    rewrite Ho, Hr.
    unfold store_entry in H1. apply String.eqb_neq in Hed. rewrite Hed in H1.
    apply (store_platform_data_rows _ _ _ _ _ _ H1).
  - apply String.eqb_neq in Ek.
    destruct (other_entry_keeps env product_id retailer k v (not_eq_sym Ek) _ _ _ H1)
      as (Ho & _ & Hr & _).
    rewrite <- Ho, <- Hr. apply (IH Hnd c1 Hlook H2).
Qed.

Local Open Scope Q_scope.

(** X20: after a successful [store_snapshot] the offer and the rating of
    a retailer that the snapshot holds platform data for are the ones of
    the snapshot: the offer row is built from its price (currency
    normalised, texts cleaned), the rating row from its rating, with an
    average between 0 and 5.  Without a price (rating) the row of before
    stays. *)
Theorem X20_offer_and_rating_are_overwritten
        (d d' : database) (product_id retailer : string) (snap : RootSnapshot)
        (pd : PlatformData) (model_name prompt_hash : string) :
  NoDup (List.map fst (platforms snap)) ->
  retailer <> "editorial" ->
  PyDict.lookup retailer (platforms snap) = Some (IsPlatformData pd) ->
  store_snapshot env d product_id snap model_name prompt_hash = (Returned true, d') ->
  offers d' !! (product_id, retailer)
    = match price pd with
      | Some p => Some (offer_of env pd p)
      | None => offers d !! (product_id, retailer)
      end /\
  ratings d' !! (product_id, retailer)
    = match platform_rating pd with
      | Some r => Some (rating_of env pd r)
      | None => ratings d !! (product_id, retailer)
      end /\
  (forall r q, platform_rating pd = Some r -> r_average (rating_of env pd r) = Some q ->
               0 <= q <= 5).
Proof.
  intros Hnd Hed Hlook Hstore.
  apply store_snapshot_true in Hstore as (c & Hst & ->).
  unfold store_statements in Hst.
  apply bind_Some in Hst as ([] & c1 & H1 & H2).
  destruct (tail_statements_keep env product_id retailer _ _ _ _ _ _ _ H2)
    as (Ho & _ & Hr & _).
  rewrite Ho, Hr.
  destruct (store_platforms_rows product_id retailer _ pd _ _ _ Hnd Hed Hlook H1)
    as [Hoffer Hrating].
  cbn [pending] in Hoffer, Hrating.
  split; [exact Hoffer|]. split; [exact Hrating|].
  intros r q _ Hq. unfold rating_of in Hq. cbn [r_average] in Hq.
  destruct (average r) as [a|]; [|discriminate].
  cbn [clamp_float] in Hq. injection Hq as <-. apply clamp_in_range.
Qed.

End OfferAndRating.

Lemma X20_witness :
  db.offers (snd (db.store_snapshot healthy empty_database "p1" priced_snapshot "m" "h"))
    !! ("p1", "amazon")
  = Some {| db.o_price_amount := Some (2599 # 100);
            db.o_price_currency := Some "USD";
            db.o_unit_price := None;
            db.o_availability := Some "in_stock";
            db.o_promo := None;
            db.o_url := Some "https://amazon.com/p";
            db.o_scraped_at := 1705312800 |}.
Proof.
  destruct (db.store_snapshot healthy empty_database "p1" priced_snapshot "m" "h")
    as [r d'] eqn:E.
  assert (Hr : r = Returned true) by (vm_compute in E; congruence).
  subst r.
  destruct (X20_offer_and_rating_are_overwritten healthy empty_database d' "p1" "amazon"
              priced_snapshot priced_platform "m" "h") as [Hoffer _].
  - cbn. apply NoDup_cons. split; [|apply NoDup_singleton].
    apply not_elem_of_cons. split; [discriminate | apply not_elem_of_nil].
  - discriminate.
  - reflexivity.
  - exact E.
  - cbn [snd]. rewrite Hoffer. reflexivity.
Defined.

(** ** Aggregation, further *)

Section AggregationFurther.
Import parallel_llama chunked_llama.

Variable fetch_retail_chunk : string -> outcome json.
Variable fetch_brand_editorial_chunk : string -> outcome json.
Variable fetch_influencer_chunk : string -> outcome json.
Variable fetch_summary_chunk : string -> json -> outcome json.
Variable str_of_exn : exn -> string.

Local Abbreviation parallel :=
  (fetch_product_snapshot_parallel fetch_retail_chunk fetch_brand_editorial_chunk
     fetch_influencer_chunk fetch_summary_chunk).
Local Abbreviation chunked :=
  (fetch_product_snapshot_chunked fetch_retail_chunk fetch_brand_editorial_chunk
     fetch_influencer_chunk fetch_summary_chunk str_of_exn).
Local Abbreviation kept_record :=
  (kept fetch_retail_chunk fetch_brand_editorial_chunk fetch_influencer_chunk).
Local Abbreviation results :=
  (collect fetch_retail_chunk fetch_brand_editorial_chunk fetch_influencer_chunk).

Lemma results_of_all (completed : list chunk) (product_name : string) (c : chunk) :
  Permutation completed parallel_tasks ->
  result_of (results completed product_name []) c = kept_record product_name c.
Proof.
  intros Hperm. unfold result_of. rewrite collect_keeps; [reflexivity|].
  apply (Permutation_in _ (Permutation_sym Hperm)). destruct c; simpl; auto.
Qed.

(** The aggregation, once the three futures are collected. *)
Lemma parallel_unfolded (completed : list chunk) (product_name : string) :
  Permutation completed parallel_tasks ->
  parallel completed product_name =
    (summary_data ← fetch_summary_chunk product_name
                      (all_platform_data (kept_record product_name));
     _merge_parallel_results (results completed product_name []) summary_data).
Proof.
  intros Hperm. unfold fetch_product_snapshot_parallel, all_platform_data.
  rewrite !(results_of_all _ _ _ Hperm). reflexivity.
Qed.

Lemma merge_results_by_record (cr cr' : list (string * json)) (summary_data : json) :
  (forall c, result_of cr c = result_of cr' c) ->
  _merge_parallel_results cr summary_data = _merge_parallel_results cr' summary_data.
Proof.
  intros H. unfold _merge_parallel_results. rewrite !H. reflexivity.
Qed.

(** X21: the order in which the three futures complete has no influence
    on what the aggregation returns or raises. *)
Theorem X21_completion_order_is_irrelevant
        (completed completed' : list chunk) (product_name : string) :
  Permutation completed parallel_tasks ->
  Permutation completed' parallel_tasks ->
  parallel completed product_name = parallel completed' product_name.
Proof.
  intros H1 H2. rewrite (parallel_unfolded _ _ H1), (parallel_unfolded _ _ H2).
  destruct (fetch_summary_chunk _ _) as [summary_data|e]; [|reflexivity].
  cbn [mbind outcome_bind]. apply merge_results_by_record.
  intros c. rewrite (results_of_all _ _ _ H1), (results_of_all _ _ _ H2). reflexivity.
Qed.

(** X22: a failure of the synthesis is not absorbed: the aggregation
    raises the exception of [fetch_summary_chunk], whatever the three
    segments gave. *)
Theorem X22_synthesis_failure_is_raised
        (completed : list chunk) (product_name : string) (e : exn) :
  Permutation completed parallel_tasks ->
  fetch_summary_chunk product_name (all_platform_data (kept_record product_name))
    = Raised e ->
  parallel completed product_name = Raised e.
Proof.
  intros Hperm Hsum. rewrite (parallel_unfolded _ _ Hperm), Hsum. reflexivity.
Qed.

Lemma lookup_absent {V : Type} (k : string) (d : list (string * V)) :
  ~ In k (List.map fst d) -> PyDict.lookup k d = None.
Proof.
  induction d as [|[k' v] d IH]; [reflexivity|]. cbn [List.map fst In PyDict.lookup].
  intros H. destruct (String.eqb k k') eqn:E.
  - apply String.eqb_eq in E. subst k'. exfalso. apply H. left. reflexivity.
  - apply IH. intros Hin. apply H. right. exact Hin.
Qed.

(** An update with a dictionary of distinct keys: its values win, the
    other keys keep theirs. *)
Lemma lookup_update {V : Type} (k : string) (d o : list (string * V)) :
  List.NoDup (List.map fst o) ->
  PyDict.lookup k (PyDict.update d o)
  = match PyDict.lookup k o with
    | Some v => Some v
    | None => PyDict.lookup k d
    end.
Proof.
  unfold PyDict.update. revert d.
  induction o as [|[k1 v1] o IH]; intros d Hnd; [reflexivity|].
  cbn [List.map fst] in Hnd. apply List.NoDup_cons_iff in Hnd as [Hk1 Hnd].
  cbn [fold_left fst snd PyDict.lookup]. rewrite (IH _ Hnd).
  destruct (String.eqb k k1) eqn:E.
  - apply String.eqb_eq in E. subst k1.
    rewrite (lookup_absent k o Hk1). apply lookup_set_eq.
  - apply String.eqb_neq in E. destruct (PyDict.lookup k o); [reflexivity|].
    apply lookup_set_ne. exact E.
Qed.

(** X23: the [platforms] of the merged snapshot is the union of the
    platforms of the three records in which, on a key that several
    segments give, the influencer segment wins over the editorial and the
    editorial over the retail segment; a collision does not raise. *)
Theorem X23_merge_is_a_right_biased_union
        (chunk_results : list (string * json)) (summary_data : json) :
  is_dict summary_data = true ->
  (forall c, partial_record (result_of chunk_results c) = true) ->
  (forall c, List.NoDup (List.map fst (platforms_of (result_of chunk_results c)))) ->
  exists product_identity platforms specifications summarized_review citations,
    _merge_parallel_results chunk_results summary_data
    = Returned (JObj [ ("product_identity", product_identity);
                       ("platforms", JObj platforms);
                       ("specifications", specifications);
                       ("summarized_review", summarized_review);
                       ("citations", citations) ]) /\
    forall k,
      PyDict.lookup k platforms
      = match PyDict.lookup k (platforms_of (result_of chunk_results Influencer)) with
        | Some v => Some v
        | None =>
            match PyDict.lookup k (platforms_of (result_of chunk_results Editorial)) with
            | Some v => Some v
            | None => PyDict.lookup k (platforms_of (result_of chunk_results Retail))
            end
        end.
Proof.
  intros Hdict Hpart Hnd.
  destruct summary_data as [| | | | | |sm]; try discriminate.
  unfold _merge_parallel_results. cbn [py_get mbind outcome_bind].
  rewrite (merge_platforms_partial [] _ (Hpart Retail)). cbn [mbind outcome_bind].
  rewrite (merge_platforms_partial _ _ (Hpart Editorial)). cbn [mbind outcome_bind].
  rewrite (merge_platforms_partial _ _ (Hpart Influencer)). cbn [mbind outcome_bind].
  do 5 eexists. split; [reflexivity|]. intros k.
  rewrite (lookup_update k _ _ (Hnd Influencer)).
  rewrite (lookup_update k _ _ (Hnd Editorial)).
  rewrite (lookup_update k _ _ (Hnd Retail)).
  destruct (PyDict.lookup k (platforms_of (result_of chunk_results Retail))); reflexivity.
Qed.

Lemma merge_chunk_is_merge_platforms (platforms : list (string * json)) (data : json) :
  merge_chunk platforms data = merge_platforms platforms data.
Proof.
  unfold merge_chunk, merge_platforms, py_get.
  destruct data as [| | | | | |m]; try reflexivity.
  cbn [mbind outcome_bind]. destruct (PyDict.lookup "platforms" m); reflexivity.
Qed.

(** X24: when the three fetchers return, the sequential aggregation of
    [chunked_llama] and the parallel one agree: if the parallel one
    returns a snapshot, the sequential one returns the same snapshot, in
    whatever order the parallel tasks complete. *)
Theorem X24_chunked_and_parallel_agree_on_success
        (completed : list chunk) (product_name : string)
        (retail editorial influencer final : json) :
  Permutation completed parallel_tasks ->
  fetch_retail_chunk product_name = Returned retail ->
  fetch_brand_editorial_chunk product_name = Returned editorial ->
  fetch_influencer_chunk product_name = Returned influencer ->
  parallel completed product_name = Returned final ->
  chunked product_name = final.
Proof.
  intros Hperm Hr He Hi Hpar. rewrite (parallel_unfolded _ _ Hperm) in Hpar.
  unfold fetch_product_snapshot_chunked, chunked_steps.
  rewrite Hr, He, Hi. cbn [mbind outcome_bind].
  unfold all_platform_data, kept, fetcher in Hpar. rewrite Hr, He, Hi in Hpar.
  destruct (fetch_summary_chunk product_name _) as [summary_data|e]; [|discriminate].
  cbn [mbind outcome_bind] in *. unfold _merge_parallel_results in Hpar.
  rewrite !(results_of_all _ _ _ Hperm) in Hpar.
  unfold kept, fetcher in Hpar. rewrite Hr, He, Hi in Hpar.
  do 4 (match type of Hpar with
        | context [py_get summary_data ?key] =>
            destruct (py_get summary_data key);
            cbn [mbind outcome_bind] in *; [|discriminate]
        end).
  rewrite merge_chunk_is_merge_platforms.
  destruct (merge_platforms [] retail) as [p1|]; cbn [mbind outcome_bind] in *; [|discriminate].
  rewrite merge_chunk_is_merge_platforms.
  destruct (merge_platforms p1 editorial) as [p2|]; cbn [mbind outcome_bind] in *;
    [|discriminate].
  rewrite merge_chunk_is_merge_platforms.
  destruct (merge_platforms p2 influencer) as [p3|]; cbn [mbind outcome_bind] in *;
    [|discriminate].
  injection Hpar as <-. reflexivity.
Qed.

(** X25: the sequential aggregation does not degrade a failed segment:
    when a fetcher raises, [fetch_product_snapshot_chunked] returns the
    error structure with status [failed], which holds no platforms at all,
    and it never raises itself. *)
Theorem X25_chunked_turns_a_failure_into_an_error_record
        (product_name : string) (e : exn) :
  fetch_retail_chunk product_name = Raised e \/
  (exists retail, fetch_retail_chunk product_name = Returned retail /\
                  fetch_brand_editorial_chunk product_name = Raised e) \/
  (exists retail editorial,
      fetch_retail_chunk product_name = Returned retail /\
      fetch_brand_editorial_chunk product_name = Returned editorial /\
      fetch_influencer_chunk product_name = Raised e) ->
  chunked product_name = error_record str_of_exn e product_name /\
  py_get (chunked product_name) "status" = Returned (JStr "failed") /\
  py_get (chunked product_name) "platforms" = Returned (JObj []).
Proof.
  intros H.
  assert (E : chunked product_name = error_record str_of_exn e product_name).
  { unfold fetch_product_snapshot_chunked, chunked_steps.
    destruct H as [Hr|[(retail & Hr & He)|(retail & editorial & Hr & He & Hi)]].
    - rewrite Hr. reflexivity.
    - rewrite Hr, He. reflexivity.
    - rewrite Hr, He, Hi. reflexivity. }
  rewrite E. repeat split.
Qed.

End AggregationFurther.

Lemma X21_witness :
  parallel_llama.fetch_product_snapshot_parallel
    (fun _ => Returned retail_record) (fun _ => Raised TransportFailure)
    (fun _ => Returned influencer_record) (fun _ _ => Returned summary_record)
    [parallel_llama.Influencer; parallel_llama.Retail; parallel_llama.Editorial]
    "Hydrating Serum X"
  = parallel_llama.fetch_product_snapshot_parallel
      (fun _ => Returned retail_record) (fun _ => Raised TransportFailure)
      (fun _ => Returned influencer_record) (fun _ _ => Returned summary_record)
      [parallel_llama.Retail; parallel_llama.Editorial; parallel_llama.Influencer]
      "Hydrating Serum X".
Proof.
  apply X21_completion_order_is_irrelevant.
  - apply perm_trans with (l' := [parallel_llama.Retail; parallel_llama.Influencer;
                                   parallel_llama.Editorial]);
      [apply perm_swap | apply perm_skip, perm_swap].
  - apply Permutation_refl.
Defined.

Lemma X22_witness :
  parallel_llama.fetch_product_snapshot_parallel
    (fun _ => Returned retail_record) (fun _ => Returned (JObj []))
    (fun _ => Returned influencer_record) (fun _ _ => Raised ValueError)
    [parallel_llama.Retail; parallel_llama.Editorial; parallel_llama.Influencer]
    "Hydrating Serum X"
  = Raised ValueError.
Proof.
  apply X22_synthesis_failure_is_raised; [apply Permutation_refl | reflexivity].
Defined.

Lemma X24_witness :
  chunked_llama.fetch_product_snapshot_chunked
    (fun _ => Returned retail_record) (fun _ => Returned (JObj []))
    (fun _ => Returned influencer_record) (fun _ _ => Returned summary_record)
    exn_name "Hydrating Serum X"
  = JObj [ ("product_identity", JObj [("name", JStr "Hydrating Serum X")]);
           ("platforms", JObj (parallel_llama.merged_platforms
                                 (fun c => match c with
                                           | parallel_llama.Editorial => JObj []
                                           | _ => records_without_editorial c
                                           end)));
           ("specifications", JObj []);
           ("summarized_review", JObj [("verdict", JStr "Worth buying.")]);
           ("citations", JObj []) ].
Proof.
  apply (X24_chunked_and_parallel_agree_on_success
           (fun _ => Returned retail_record) (fun _ => Returned (JObj []))
           (fun _ => Returned influencer_record) (fun _ _ => Returned summary_record)
           exn_name
           [parallel_llama.Retail; parallel_llama.Editorial; parallel_llama.Influencer]
           "Hydrating Serum X" retail_record (JObj []) influencer_record);
    reflexivity.
Defined.

Lemma X25_witness :
  chunked_llama.fetch_product_snapshot_chunked
    (fun _ => Returned retail_record) (fun _ => Raised TransportFailure)
    (fun _ => Returned influencer_record) (fun _ _ => Returned summary_record)
    exn_name "Hydrating Serum X"
  = JObj [ ("error", JStr "TransportFailure"); ("status", JStr "failed");
           ("product_name", JStr "Hydrating Serum X"); ("approach", JStr "chunked") ].
Proof.
  apply (X25_chunked_turns_a_failure_into_an_error_record
           (fun _ => Returned retail_record) (fun _ => Raised TransportFailure)
           (fun _ => Returned influencer_record) (fun _ _ => Returned summary_record)
           exn_name "Hydrating Serum X" TransportFailure).
  right. left. exists retail_record. split; reflexivity.
Defined.

Lemma X23_witness :
  exists product_identity platforms specifications summarized_review citations,
    parallel_llama._merge_parallel_results
      [("retail", retail_record); ("influencer", influencer_record)] summary_record
    = Returned (JObj [ ("product_identity", product_identity);
                       ("platforms", JObj platforms);
                       ("specifications", specifications);
                       ("summarized_review", summarized_review);
                       ("citations", citations) ]) /\
    PyDict.lookup "amazon" platforms
    = Some (JObj [("url", JStr "https://amazon.com/p")]).
Proof.
  destruct (X23_merge_is_a_right_biased_union
              [("retail", retail_record); ("influencer", influencer_record)] summary_record)
    as (pi & ps & sp & sr & ci & Hrun & Hlook).
  - reflexivity.
  - intros c. destruct c; reflexivity.
  - intros c. destruct c; cbn; repeat constructor; cbn; intuition discriminate.
  - exists pi, ps, sp, sr, ci. split; [exact Hrun|]. rewrite Hlook. reflexivity.
Defined.

(** ** The corrective rewrites of the endpoints *)

Section CorrectiveRewrites.
Import main.





End CorrectiveRewrites.

(** ** Storing a snapshot twice *)

Section ActsAt.
Import models db.
Variable env : db_env.
Variable product_id : string.
Context {V : Type}.
Variable C : (option V -> option V) -> Prop.
Variable look : database -> option V.

Hypothesis C_id : forall g, (forall o, g o = o) -> C g.
Hypothesis C_comp : forall g1 g2, C g1 -> C g2 -> C (fun o => g2 (g1 o)).
Hypothesis C_idem : forall g, C g -> forall o, g (g o) = g o.

Hypothesis A_offer : forall r row, statement_acts C look (upsert_offer product_id r row).
Hypothesis A_price : forall r row, statement_acts C look (insert_price_history env product_id r row).
Hypothesis A_rating : forall r row, statement_acts C look (upsert_rating product_id r row).
Hypothesis A_replace : forall r l,
    statement_acts C look (fun d => insert_reviews (List.map (review_tuple product_id r) l)
                               (delete_reviews product_id r d)).
Hypothesis A_quote : forall k src row, statement_acts C look (upsert_spec_with_url product_id k src row).
Hypothesis A_spec : forall k src v, statement_acts C look (upsert_spec env product_id k src v).
Hypothesis A_summary : forall row, statement_acts C look (upsert_summary product_id row).

Lemma acts_ret : acts_at C look (ret tt).
Proof.
  exists (fun o => o). split; [apply C_id; reflexivity|].
  intros c c' u H. apply ret_Some in H as [_ ->]. reflexivity.
Qed.

Lemma acts_bind (m k : tx unit) :
  acts_at C look m -> acts_at C look k -> acts_at C look (m ;; k).
Proof.
  intros (g1 & Hg1 & H1) (g2 & Hg2 & H2).
  exists (fun o => g2 (g1 o)). split; [apply C_comp; assumption|].
  intros c c' u H. apply bind_Some in H as (a & c1 & Hm & Hk).
  rewrite (H2 _ _ _ Hk), (H1 _ _ _ Hm). reflexivity.
Qed.

Lemma acts_execute (f : database -> database) :
  statement_acts C look f -> acts_at C look (execute env f).
Proof.
  intros (g & Hg & Hf). exists g. split; [exact Hg|].
  intros c c' u H. apply (execute_Some env) in H as [_ ->]. apply Hf.
Qed.

Lemma acts_execute_twice (f f' : database -> database) :
  statement_acts C look (fun d => f' (f d)) ->
  acts_at C look (execute env f ;; execute env f').
Proof.
  intros (g & Hg & Hf). exists g. split; [exact Hg|].
  intros c c' u H. apply bind_Some in H as (a & c1 & H1 & H2).
  apply (execute_Some env) in H1 as [_ H1]. apply (execute_Some env) in H2 as [_ H2].
  rewrite H2, H1. apply Hf.
Qed.

Lemma acts_platform_data (platform : string) (pd : PlatformData) :
  acts_at C look (store_platform_data env product_id platform pd).
Proof.
  unfold store_platform_data. repeat apply acts_bind.
  - destruct (price pd) as [p|]; [|apply acts_ret].
    apply acts_bind; [apply acts_execute, A_offer|].
    destruct (amount p); [apply acts_execute, A_price | apply acts_ret].
  - destruct (platform_rating pd); [apply acts_execute, A_rating | apply acts_ret].
  - destruct (reviews pd) as [[|r l]|]; try apply acts_ret.
    cbn [List.firstn List.map]. apply acts_execute_twice.
    apply (A_replace platform (r :: List.firstn 4 l)).
Qed.

Lemma acts_editorial (b : EditorialBlock) :
  acts_at C look (store_editorial_data env product_id b).
Proof.
  unfold store_editorial_data. induction (quotes b) as [|q qs IH]; cbn [store_editorial_quotes].
  - apply acts_ret.
  - apply acts_bind; [apply acts_execute, A_quote | exact IH].
Qed.

Lemma acts_specifications (s : Specifications) :
  acts_at C look (store_specifications env product_id s).
Proof.
  unfold store_specifications.
  induction (spec_mappings s) as [|[k [v|]] l IH]; cbn [store_spec_entries].
  - apply acts_ret.
  - apply acts_bind; [apply acts_execute, A_spec | exact IH].
  - exact IH.
Qed.

Lemma acts_platforms (ps : list (string * platform_value)) :
  acts_at C look (store_platforms env product_id ps).
Proof.
  induction ps as [|[k v] ps IH]; cbn [store_platforms]; [apply acts_ret|].
  apply acts_bind; [|exact IH].
  unfold store_entry. destruct (String.eqb k "editorial"); destruct v;
    try apply acts_ret; [apply acts_editorial | apply acts_platform_data].
Qed.

Lemma acts_statements (snap : RootSnapshot) (mn ph : string) :
  acts_at C look (store_statements env product_id snap mn ph).
Proof.
  unfold store_statements.
  apply acts_bind; [apply acts_platforms|].
  apply acts_bind; [apply acts_specifications|].
  apply acts_execute, A_summary.
Qed.

(** Two successful stores of the same snapshot in a row: the second
    leaves the observation as the first left it. *)
Lemma stored_twice (d d1 d2 : database) (snap : RootSnapshot) (mn ph : string) :
  store_snapshot env d product_id snap mn ph = (Returned true, d1) ->
  store_snapshot env d1 product_id snap mn ph = (Returned true, d2) ->
  look d2 = look d1.
Proof.
  intros H1 H2.
  apply store_snapshot_true in H1 as (c1 & Hc1 & ->).
  apply store_snapshot_true in H2 as (c2 & Hc2 & ->).
  destruct (acts_statements snap mn ph) as (g & Hg & Hact).
  rewrite (Hact _ _ _ Hc2). cbn [pending].
  rewrite (Hact _ _ _ Hc1). cbn [pending]. apply C_idem. exact Hg.
Qed.

End ActsAt.

Section StoredTwice.
Import models db.
Variable env : db_env.
Variable product_id : string.

Lemma overwrite_class_id {V} (g : option V -> option V) :
  (forall o, g o = o) -> overwrite_class g.
Proof. intros H. left. exact H. Qed.

Lemma overwrite_class_comp {V} (g1 g2 : option V -> option V) :
  overwrite_class g1 -> overwrite_class g2 -> overwrite_class (fun o => g2 (g1 o)).
Proof.
  intros [H1|[r1 H1]] [H2|[r2 H2]].
  - left. intros o. rewrite H2. apply H1.
  - right. exists r2. intros o. apply H2.
  - right. exists r1. intros o. rewrite H2. apply H1.
  - right. exists r2. intros o. apply H2.
Qed.

Lemma overwrite_class_idem {V} (g : option V -> option V) :
  overwrite_class g -> forall o, g (g o) = g o.
Proof.
  intros [H|[r H]] o.
  - rewrite !H. reflexivity.
  - rewrite (H (g o)), (H o). reflexivity.
Qed.

Lemma fill_class_id {V} (g : option V -> option V) :
  (forall o, g o = o) -> fill_class g.
Proof. intros H. left. exact H. Qed.

Lemma fill_class_comp {V} (g1 g2 : option V -> option V) :
  fill_class g1 -> fill_class g2 -> fill_class (fun o => g2 (g1 o)).
Proof.
  intros [H1|[r1 H1]] [H2|[r2 H2]].
  - left. intros o. rewrite H2. apply H1.
  - right. exists r2. intros o. rewrite H1. apply H2.
  - right. exists r1. intros o. rewrite H2. apply H1.
  - right. exists r1. intros o. rewrite H2, H1. destruct o; reflexivity.
Qed.

Lemma fill_class_idem {V} (g : option V -> option V) :
  fill_class g -> forall o, g (g o) = g o.
Proof.
  intros [H|[r H]] o.
  - rewrite !H. reflexivity.
  - rewrite (H (g o)), (H o). destruct o; reflexivity.
Qed.

Lemma spec_class_id (g : option spec_row -> option spec_row) :
  (forall o, g o = o) -> spec_class g.
Proof. intros H. left. exact H. Qed.

Lemma spec_class_comp (g1 g2 : option spec_row -> option spec_row) :
  spec_class g1 -> spec_class g2 -> spec_class (fun o => g2 (g1 o)).
Proof.
  intros [H1|[[r1 H1]|(v1 & t1 & H1)]] [H2|[[r2 H2]|(v2 & t2 & H2)]].
  - left. intros o. rewrite H2. apply H1.
  - right. left. exists r2. intros o. apply H2.
  - right. right. exists v2, t2. intros o. rewrite H2, H1. reflexivity.
  - right. left. exists r1. intros o. rewrite H2. apply H1.
  - right. left. exists r2. intros o. apply H2.
  - right. left. eexists. intros o. rewrite H2, H1. reflexivity.
  - right. right. exists v1, t1. intros o. rewrite H2. apply H1.
  - right. left. exists r2. intros o. apply H2.
  - right. right. exists v2, t2. intros o. rewrite H2, H1. reflexivity.
Qed.

Lemma spec_class_idem (g : option spec_row -> option spec_row) :
  spec_class g -> forall o, g (g o) = g o.
Proof.
  intros [H|[[r H]|(v & t & H)]] o.
  - rewrite !H. reflexivity.
  - rewrite (H (g o)), (H o). reflexivity.
  - rewrite (H (g o)), (H o). reflexivity.
Qed.

Ltac untouched :=
  intros; exists (fun o => o); split; [left; reflexivity | intros; reflexivity].

Lemma offers_stored_twice (d d1 d2 : database) (snap : RootSnapshot) (mn ph : string) :
  store_snapshot env d product_id snap mn ph = (Returned true, d1) ->
  store_snapshot env d1 product_id snap mn ph = (Returned true, d2) ->
  offers d2 = offers d1.
Proof.
  intros H1 H2. apply map_eq. intros key.
  apply (stored_twice env product_id overwrite_class (fun d => offers d !! key)
           overwrite_class_id overwrite_class_comp overwrite_class_idem)
    with (d := d) (snap := snap) (mn := mn) (ph := ph); try assumption;
    try untouched.
  intros r row. destruct (decide ((product_id, r) = key)) as [<-|Hne].
  - exists (fun _ => Some row). split; [right; exists row; reflexivity|].
    intros d0. cbn [offers upsert_offer]. apply lookup_insert_eq.
  - exists (fun o => o). split; [left; reflexivity|].
    intros d0. cbn [offers upsert_offer]. apply lookup_insert_ne. exact Hne.
Qed.

Lemma ratings_stored_twice (d d1 d2 : database) (snap : RootSnapshot) (mn ph : string) :
  store_snapshot env d product_id snap mn ph = (Returned true, d1) ->
  store_snapshot env d1 product_id snap mn ph = (Returned true, d2) ->
  ratings d2 = ratings d1.
Proof.
  intros H1 H2. apply map_eq. intros key.
  apply (stored_twice env product_id overwrite_class (fun d => ratings d !! key)
           overwrite_class_id overwrite_class_comp overwrite_class_idem)
    with (d := d) (snap := snap) (mn := mn) (ph := ph); try assumption;
    try untouched.
  intros r row. destruct (decide ((product_id, r) = key)) as [<-|Hne].
  - exists (fun _ => Some row). split; [right; exists row; reflexivity|].
    intros d0. cbn [ratings upsert_rating]. apply lookup_insert_eq.
  - exists (fun o => o). split; [left; reflexivity|].
    intros d0. cbn [ratings upsert_rating]. apply lookup_insert_ne. exact Hne.
Qed.

Lemma summaries_stored_twice (d d1 d2 : database) (snap : RootSnapshot) (mn ph : string) :
  store_snapshot env d product_id snap mn ph = (Returned true, d1) ->
  store_snapshot env d1 product_id snap mn ph = (Returned true, d2) ->
  summaries d2 = summaries d1.
Proof.
  intros H1 H2. apply map_eq. intros key.
  apply (stored_twice env product_id overwrite_class (fun d => summaries d !! key)
           overwrite_class_id overwrite_class_comp overwrite_class_idem)
    with (d := d) (snap := snap) (mn := mn) (ph := ph); try assumption;
    try untouched.
  intros row. destruct (decide (product_id = key)) as [<-|Hne].
  - exists (fun _ => Some row). split; [right; exists row; reflexivity|].
    intros d0. cbn [summaries upsert_summary]. apply lookup_insert_eq.
  - exists (fun o => o). split; [left; reflexivity|].
    intros d0. cbn [summaries upsert_summary]. apply lookup_insert_ne. exact Hne.
Qed.

Lemma price_history_stored_twice (d d1 d2 : database) (snap : RootSnapshot) (mn ph : string) :
  store_snapshot env d product_id snap mn ph = (Returned true, d1) ->
  store_snapshot env d1 product_id snap mn ph = (Returned true, d2) ->
  price_history d2 = price_history d1.
Proof.
  intros H1 H2. apply map_eq. intros key.
  apply (stored_twice env product_id fill_class (fun d => price_history d !! key)
           fill_class_id fill_class_comp fill_class_idem)
    with (d := d) (snap := snap) (mn := mn) (ph := ph); try assumption;
    try untouched.
  intros r row. destruct (decide ((product_id, r, today env) = key)) as [<-|Hne].
  - exists (fun o => match o with Some x => Some x | None => Some row end).
    split; [right; exists row; reflexivity|].
    intros d0. cbn [price_history insert_price_history].
    destruct (price_history d0 !! (product_id, r, today env)) as [old|] eqn:E.
    + exact E.
    + apply lookup_insert_eq.
  - exists (fun o => o). split; [left; reflexivity|].
    intros d0. cbn [price_history insert_price_history].
    destruct (price_history d0 !! (product_id, r, today env)); [reflexivity|].
    apply lookup_insert_ne. exact Hne.
Qed.

Lemma specs_stored_twice (d d1 d2 : database) (snap : RootSnapshot) (mn ph : string) :
  store_snapshot env d product_id snap mn ph = (Returned true, d1) ->
  store_snapshot env d1 product_id snap mn ph = (Returned true, d2) ->
  specs d2 = specs d1.
Proof.
  intros H1 H2. apply map_eq. intros key.
  apply (stored_twice env product_id spec_class (fun d => specs d !! key)
           spec_class_id spec_class_comp spec_class_idem)
    with (d := d) (snap := snap) (mn := mn) (ph := ph); try assumption;
    try untouched.
  - intros k src row. destruct (decide ((product_id, k, src) = key)) as [<-|Hne].
    + exists (fun _ => Some row). split; [right; left; exists row; reflexivity|].
      intros d0. cbn [specs upsert_spec_with_url]. apply lookup_insert_eq.
    + exists (fun o => o). split; [left; reflexivity|].
      intros d0. cbn [specs upsert_spec_with_url]. apply lookup_insert_ne. exact Hne.
  - intros k src v. destruct (decide ((product_id, k, src) = key)) as [<-|Hne].
    + eexists. split; [right; right; exists v, (now env); reflexivity|].
      intros d0. cbn [specs upsert_spec]. cbv zeta. apply lookup_insert_eq.
    + exists (fun o => o). split; [left; reflexivity|].
      intros d0. cbn [specs upsert_spec]. cbv zeta. apply lookup_insert_ne. exact Hne.
Qed.

Lemma reviews_stored_twice (d d1 d2 : database) (snap : RootSnapshot) (mn ph : string)
      (p r0 : string) :
  store_snapshot env d product_id snap mn ph = (Returned true, d1) ->
  store_snapshot env d1 product_id snap mn ph = (Returned true, d2) ->
  reviews_of p r0 d2 = reviews_of p r0 d1.
Proof.
  intros H1 H2.
  enough (E : Some (reviews_of p r0 d2) = Some (reviews_of p r0 d1)) by congruence.
  apply (stored_twice env product_id overwrite_class (fun d => Some (reviews_of p r0 d))
           overwrite_class_id overwrite_class_comp overwrite_class_idem)
    with (d := d) (snap := snap) (mn := mn) (ph := ph); try assumption;
    try untouched.
  intros r l.
  destruct (decide (p = product_id)) as [->|Hp];
    [destruct (decide (r = r0)) as [->|Hr]|].
  - exists (fun _ => Some (List.map (review_tuple product_id r0) l)).
    split; [right; eexists; reflexivity|].
    intros d0. f_equal. unfold reviews_of. cbn [reviews_table insert_reviews delete_reviews].
    rewrite List.filter_app, filter_neg_same. cbn [app].
    apply filter_all. intros x Hx. apply List.in_map_iff in Hx as (y & <- & _).
    apply review_tuple_matches.
  - exists (fun o => o). split; [left; reflexivity|].
    intros d0. f_equal. unfold reviews_of. cbn [reviews_table insert_reviews delete_reviews].
    rewrite List.filter_app.
    rewrite filter_filter_neg
      by (intros x; apply review_matches_exclusive; exact Hr).
    rewrite (filter_none _ (List.map _ _)); [apply List.app_nil_r|].
    intros x Hx. apply List.in_map_iff in Hx as (y & <- & _).
    apply review_tuple_other. exact Hr.
  - exists (fun o => o). split; [left; reflexivity|].
    intros d0. f_equal. unfold reviews_of. cbn [reviews_table insert_reviews delete_reviews].
    rewrite List.filter_app.
    rewrite filter_filter_neg
      by (intros x; apply review_matches_product; exact Hp).
    rewrite (filter_none _ (List.map _ _)); [apply List.app_nil_r|].
    intros x Hx. apply List.in_map_iff in Hx as (y & <- & _).
    apply review_tuple_other_product. exact Hp.
Qed.

(** X27: [store_snapshot] is idempotent.  When a snapshot has been stored
    and the same snapshot is stored again for the same product, with the
    server clock ([NOW()] and the UTC day) reading the same and both
    calls returning [True], the second call changes nothing: the tables
    [offers], [price_history], [ratings], [specs] and [summaries] are
    equal to what the first call left, and so are the review rows of
    every product and retailer.  No row is duplicated. *)
Theorem X27_storing_twice_is_storing_once
        (d d1 d2 : database) (snap : RootSnapshot) (model_name prompt_hash : string) :
  store_snapshot env d product_id snap model_name prompt_hash = (Returned true, d1) ->
  store_snapshot env d1 product_id snap model_name prompt_hash = (Returned true, d2) ->
  offers d2 = offers d1 /\
  price_history d2 = price_history d1 /\
  ratings d2 = ratings d1 /\
  specs d2 = specs d1 /\
  summaries d2 = summaries d1 /\
  forall p r, reviews_of p r d2 = reviews_of p r d1.
Proof.
  intros H1 H2. repeat split.
  - exact (offers_stored_twice _ _ _ _ _ _ H1 H2).
  - exact (price_history_stored_twice _ _ _ _ _ _ H1 H2).
  - exact (ratings_stored_twice _ _ _ _ _ _ H1 H2).
  - exact (specs_stored_twice _ _ _ _ _ _ H1 H2).
  - exact (summaries_stored_twice _ _ _ _ _ _ H1 H2).
  - intros p r. exact (reviews_stored_twice _ _ _ _ _ _ p r H1 H2).
Qed.

End StoredTwice.

Lemma X27_witness :
  db.offers
    (snd (db.store_snapshot healthy
            (snd (db.store_snapshot healthy empty_database "p1" priced_snapshot "m" "h"))
            "p1" priced_snapshot "m" "h"))
  = db.offers (snd (db.store_snapshot healthy empty_database "p1" priced_snapshot "m" "h")).
Proof.
  refine (proj1 (X27_storing_twice_is_storing_once healthy "p1" empty_database _ _
                   priced_snapshot "m" "h" _ _)).
  - rewrite (surjective_pairing (db.store_snapshot _ _ _ _ _ _)).
    apply (f_equal2 pair); [vm_compute; reflexivity | reflexivity].
  - rewrite (surjective_pairing (db.store_snapshot _ _ _ _ _ _)).
    apply (f_equal2 pair); [vm_compute; reflexivity | reflexivity].
Defined.

(** ** Editorial quotes *)

Section EditorialQuotes.
Import models db.
Variable env : db_env.
Variable product_id : string.

Local Abbreviation editorial_row d k := (specs d !! (product_id, k, "editorial")).

Lemma store_editorial_quotes_rows (qs : list EditorialQuote) (k : string)
      (c c' : cursor) (u : unit) :
  store_editorial_quotes env product_id qs c = Some (u, c') ->
  editorial_row (pending c') k
    = match last_quote k qs with
      | Some q => Some (quote_row env q)
      | None => editorial_row (pending c) k
      end.
Proof.
  revert c. induction qs as [|q qs IH]; intros c H; cbn [store_editorial_quotes] in H.
  - apply ret_Some in H as [_ ->]. reflexivity.
  - apply bind_Some in H as ([] & c1 & H1 & H2).
    apply (execute_Some env) in H1 as [_ H1].
    rewrite (IH _ H2). cbn [last_quote].
    destruct (last_quote k qs) as [q'|]; [reflexivity|].
    rewrite H1. cbn [specs upsert_spec_with_url]. fold (quote_key q).
    destruct (String.eqb (quote_key q) k) eqn:E.
    + apply String.eqb_eq in E. subst k. apply lookup_insert_eq.
    + apply String.eqb_neq in E. apply lookup_insert_ne. congruence.
Qed.

Lemma store_platform_data_keeps_specs (platform : string) (pd : PlatformData) :
  maintains (fun d d' => specs d' = specs d)
            (store_platform_data env product_id platform pd).
Proof.
  apply (maintains_platform_data env product_id (fun d d' => specs d' = specs d)
           (fun _ => True)); try exact I; try (intros; reflexivity).
  intros a b c0 Hab Hbc. rewrite Hbc. exact Hab.
Qed.

Lemma other_entry_keeps_specs (k : string) (v : platform_value) :
  k <> "editorial" ->
  maintains (fun d d' => specs d' = specs d) (store_entry env product_id k v).
Proof.
  intros Hne c c' u H. unfold store_entry in H.
  apply String.eqb_neq in Hne. rewrite Hne in H.
  destruct v as [pd| | | |]; try (apply ret_Some in H as [_ ->]; reflexivity).
  apply (store_platform_data_keeps_specs _ _ _ _ _ H).
Qed.

Lemma other_entries_keep_specs (ps : list (string * platform_value)) :
  ~ In "editorial" (List.map fst ps) ->
  maintains (fun d d' => specs d' = specs d) (store_platforms env product_id ps).
Proof.
  induction ps as [|[k v] ps IH]; intros Habs c c' u H.
  - apply ret_Some in H as [_ ->]. reflexivity.
  - rewrite store_platforms_cons in H.
    apply bind_Some in H as ([] & c1 & H1 & H2).
    rewrite (IH (fun Hin => Habs (or_intror Hin)) _ _ _ H2).
    apply (other_entry_keeps_specs k v (fun E => Habs (or_introl E)) _ _ _ H1).
Qed.

Lemma store_platforms_editorial (ps : list (string * platform_value)) (b : EditorialBlock)
      (k : string) (c c' : cursor) (u : unit) :
  NoDup (List.map fst ps) ->
  PyDict.lookup "editorial" ps = Some (IsEditorialBlock b) ->
  store_platforms env product_id ps c = Some (u, c') ->
  editorial_row (pending c') k
    = match last_quote k (quotes b) with
      | Some q => Some (quote_row env q)
      | None => editorial_row (pending c) k
      end.
Proof.
  intros Hnd. revert c.
  induction ps as [|[k0 v] ps IH]; intros c Hlook H; [discriminate|].
  rewrite store_platforms_cons in H.
  apply bind_Some in H as ([] & c1 & H1 & H2).
  cbn [List.map fst] in Hnd. apply NoDup_cons in Hnd as [Hk Hnd].
  cbn [PyDict.lookup] in Hlook.
  destruct (String.eqb "editorial" k0) eqn:Ek.
  - apply String.eqb_eq in Ek. subst k0. injection Hlook as ->.
    assert (Habs : ~ In "editorial" (List.map fst ps))
      by (intros Hin; apply Hk, list_elem_of_In; exact Hin).
    rewrite (other_entries_keep_specs ps Habs _ _ _ H2).
    unfold store_entry in H1. rewrite String.eqb_refl in H1.
    apply (store_editorial_quotes_rows _ _ _ _ _ H1).
  - apply String.eqb_neq in Ek.
    rewrite <- (other_entry_keeps_specs k0 v (not_eq_sym Ek) _ _ _ H1).
    apply (IH Hnd c1 Hlook H2).
Qed.

Lemma store_spec_entries_keep_editorial (l : list (string * option spec_value)) (k : string)
      (c c' : cursor) (u : unit) :
  store_spec_entries env product_id l c = Some (u, c') ->
  editorial_row (pending c') k = editorial_row (pending c) k.
Proof.
  revert c. induction l as [|[k0 [v|]] l IH]; intros c H; cbn [store_spec_entries] in H.
  - apply ret_Some in H as [_ ->]. reflexivity.
  - apply bind_Some in H as ([] & c1 & H1 & H2).
    apply (execute_Some env) in H1 as [_ H1].
    rewrite (IH _ H2), H1. cbn [specs upsert_spec]. cbv zeta.
    apply lookup_insert_ne. congruence.
  - apply (IH _ H).
Qed.

(** X28: how editorial quotes reach the [specs] table.  After a
    successful [store_snapshot] of a snapshot whose [editorial] entry is
    an editorial block, the row of source [editorial] under a key is the
    row of the last quote of the block whose key ([editorial_quote_]
    followed by the outlet in lower case with blanks turned into
    underscores) is that key; it carries the outlet, the cleaned quote
    and the url.  A key that no quote has keeps the row it had.  So of
    two quotes whose outlets differ only in letter case or in blank
    against underscore, only the later one is stored. *)
Theorem X28_editorial_quotes_are_stored_last_wins
        (d d' : database) (snap : RootSnapshot) (b : EditorialBlock)
        (model_name prompt_hash : string) (k : string) :
  NoDup (List.map fst (platforms snap)) ->
  PyDict.lookup "editorial" (platforms snap) = Some (IsEditorialBlock b) ->
  store_snapshot env d product_id snap model_name prompt_hash = (Returned true, d') ->
  specs d' !! (product_id, k, "editorial")
    = match last_quote k (quotes b) with
      | Some q => Some (quote_row env q)
      | None => specs d !! (product_id, k, "editorial")
      end.
Proof.
  intros Hnd Hlook Hstore.
  apply store_snapshot_true in Hstore as (c & Hst & ->).
  unfold store_statements in Hst.
  apply bind_Some in Hst as ([] & c1 & H1 & H2).
  apply bind_Some in H2 as ([] & c2 & H2 & H3).
  apply (execute_Some env) in H3 as [_ H3].
  rewrite H3. cbn [specs upsert_summary].
  rewrite (store_spec_entries_keep_editorial _ k _ _ _ H2).
  apply (store_platforms_editorial _ b k _ _ _ Hnd Hlook H1).
Qed.

End EditorialQuotes.

Lemma X28_witness :
  db.specs (snd (db.store_snapshot healthy empty_database "p1" priced_snapshot "m" "h"))
    !! ("p1", "editorial_quote_allure", "editorial")
  = Some {| db.s_value := db.QuoteValue "Allure" (Some "Best serum this year")
                                        "https://allure.com/serum";
            db.s_url := Some "https://allure.com/serum";
            db.s_scraped_at := 1705312800 |}.
Proof.
  rewrite (X28_editorial_quotes_are_stored_last_wins healthy "p1" empty_database
             (snd (db.store_snapshot healthy empty_database "p1" priced_snapshot "m" "h"))
             priced_snapshot
             {| models.quotes := [ {| models.outlet := "Allure";
                                      models.quote := "Best serum this year";
                                      models.quote_url := "https://allure.com/serum" |} ] |}
             "m" "h" "editorial_quote_allure").
  - reflexivity.
  - cbn. apply NoDup_cons. split; [|apply NoDup_singleton].
    apply not_elem_of_cons. split; [discriminate | apply not_elem_of_nil].
  - reflexivity.
  - rewrite (surjective_pairing (db.store_snapshot _ _ _ _ _ _)).
    apply (f_equal2 pair); [vm_compute; reflexivity | reflexivity].
Defined.

(** ** Validation and the store together *)

Section ValidatedStore.
Import models db.
Variable env : db_env.

Local Open Scope Q_scope.

Lemma lookup_In {V} (k : string) (v : V) (d : list (string * V)) :
  PyDict.lookup k d = Some v -> In (k, v) d.
Proof.
  induction d as [|[k' v'] d IH]; cbn [PyDict.lookup]; [discriminate|].
  destruct (String.eqb k k') eqn:E.
  - apply String.eqb_eq in E. subst k'. intros H. injection H as ->. left. reflexivity.
  - intros H. right. apply IH. exact H.
Qed.

Lemma in_range_bounds (lo hi q : Q) :
  in_range lo hi (Some q) = true -> lo <= q <= hi.
Proof.
  cbn [in_range]. rewrite andb_true_iff, !Qle_bool_iff. tauto.
Qed.

Lemma clamp_within (q : Q) : 0 <= q <= 5 -> py_max 0 (py_min 5 q) == q.
Proof.
  intros [H0 H5]. unfold py_max, py_min.
  destruct (Qlt_le_dec q 5) as [H1|H1]; destruct (Qlt_le_dec 0 _) as [H2|H2];
    try reflexivity.
  - apply Qle_antisym; assumption.
  - apply Qle_antisym; assumption.
  - exfalso. apply H2. reflexivity.
Qed.

Lemma valid_platform_data (snap : RootSnapshot) (retailer : string) (pd : PlatformData) :
  valid_RootSnapshot snap = true ->
  PyDict.lookup retailer (platforms snap) = Some (IsPlatformData pd) ->
  NoDup (List.map fst (platforms snap)) /\ validate_PlatformData pd = true.
Proof.
  unfold valid_RootSnapshot. rewrite !andb_true_iff.
  intros [[[Hnd Hall] _] _] Hlook. split.
  - apply bool_decide_eq_true in Hnd. exact Hnd.
  - rewrite List.forallb_forall in Hall.
    apply (Hall (retailer, IsPlatformData pd)). apply lookup_In. exact Hlook.
Qed.

(** X29: what validation guarantees, the store does not cut.  For a
    validated snapshot that is stored successfully, and a retailer under
    which it holds platform data: every review of the snapshot is stored,
    in order (the schema allows five, the store keeps five); the rating
    of a stored review is the rating of the review, or NULL for a rating
    of zero; and the stored average rating is the average of the
    snapshot.  The clamps of the store change no validated number. *)
Theorem X29_validated_snapshot_is_stored_in_full
        (d d' : database) (product_id retailer : string) (snap : RootSnapshot)
        (pd : PlatformData) (model_name prompt_hash : string) :
  valid_RootSnapshot snap = true ->
  retailer <> "editorial" ->
  PyDict.lookup retailer (platforms snap) = Some (IsPlatformData pd) ->
  store_snapshot env d product_id snap model_name prompt_hash = (Returned true, d') ->
  (forall r l, reviews pd = Some (r :: l) ->
               reviews_of product_id retailer d'
               = List.map (review_tuple product_id retailer) (r :: l)) /\
  (forall l review q,
      reviews pd = Some l -> In review l -> rating review = Some q ->
      match v_rating (review_tuple product_id retailer review) with
      | Some stored => stored == q
      | None => q == 0
      end) /\
  (forall rt a,
      platform_rating pd = Some rt -> average rt = Some a ->
      exists row stored,
        ratings d' !! (product_id, retailer) = Some row /\
        r_average row = Some stored /\ stored == a).
Proof.
  intros Hvalid Hed Hlook Hstore.
  destruct (valid_platform_data snap retailer pd Hvalid Hlook) as [Hnd Hpd].
  unfold validate_PlatformData in Hpd. rewrite !andb_true_iff in Hpd.
  destruct Hpd as [[Hrating Hreviews] _].
  apply store_snapshot_true in Hstore as (c & Hst & ->).
  split; [|split].
  - intros r l Hrev.
    apply store_statements_Some in Hst as (c1 & c2 & H1 & H2 & H3).
    unfold reviews_of.
    rewrite (keeps_reviews_summary _ _ _ _ _ _ _ _ H3).
    rewrite (keeps_reviews_specifications _ _ _ _ _ _ H2).
    fold (reviews_of product_id retailer (pending c1)).
    rewrite (store_platforms_reviews env product_id retailer (platforms snap) pd r l
               _ c1 tt Hnd Hed Hlook Hrev H1).
    rewrite Hrev, andb_true_iff in Hreviews. destruct Hreviews as [Hlen _].
    apply Nat.leb_le in Hlen. rewrite List.firstn_all2 by exact Hlen. reflexivity.
  - intros l review q Hrev Hin Hq.
    rewrite Hrev, andb_true_iff in Hreviews. destruct Hreviews as [_ Hall].
    rewrite List.forallb_forall in Hall. specialize (Hall review Hin).
    unfold validate_ReviewSnippet in Hall. rewrite andb_true_iff in Hall.
    destruct Hall as [Hrange _]. rewrite Hq in Hrange. apply in_range_bounds in Hrange.
    unfold review_tuple. cbn [v_rating]. rewrite Hq.
    destruct (Qeq_bool q 0) eqn:E.
    + apply Qeq_bool_iff in E. exact E.
    + cbn [clamp_float]. apply clamp_within. exact Hrange.
  - intros rt a Hrt Ha.
    unfold store_statements in Hst.
    apply bind_Some in Hst as ([] & c1 & H1 & H2).
    destruct (tail_statements_keep env product_id retailer _ _ _ _ _ _ _ H2)
      as (_ & _ & Hr & _).
    destruct (store_platforms_rows env product_id retailer _ pd _ _ _ Hnd Hed Hlook H1)
      as [_ Hrow].
    rewrite Hrt in Hrow, Hrating.
    exists (rating_of env pd rt), (py_max 0 (py_min 5 a)).
    split; [rewrite Hr; exact Hrow|].
    unfold rating_of. cbn [r_average]. rewrite Ha. cbn [clamp_float].
    split; [reflexivity|].
    unfold validate_Rating in Hrating. rewrite andb_true_iff in Hrating.
    destruct Hrating as [Hrange _]. rewrite Ha in Hrange.
    apply clamp_within, in_range_bounds. exact Hrange.
Qed.

End ValidatedStore.

Lemma X29_witness :
  db.reviews_of "p1" "amazon"
    (snd (db.store_snapshot healthy empty_database "p1" snapshot_A "m" "h"))
  = [db.review_tuple "p1" "amazon" review_a].
Proof.
  refine (proj1 (X29_validated_snapshot_is_stored_in_full healthy empty_database _
                   "p1" "amazon" snapshot_A (platform_with (Some [review_a])) "m" "h"
                   _ _ _ _) review_a [] _).
  - vm_compute. reflexivity.
  - discriminate.
  - reflexivity.
  - rewrite (surjective_pairing (db.store_snapshot _ _ _ _ _ _)).
    apply (f_equal2 pair); [vm_compute; reflexivity | reflexivity].
  - reflexivity.
Defined.
